(** * Aqua chain verifier and notariser: a shallow embedding

    The development follows the JavaScript sources of the repository:

    - [Keccak]    the SHA3-512 and Keccak-256 primitives that [js-sha3] and
                  [ethers] provide to the code (FIPS 202);
    - [JS]        strings and insertion-ordered objects as the code uses them;
    - [V12]       [dist/index.js], the v1.2 verifier;
    - [Script]    [verifier.js], the stand-alone script;
    - [Legacy]    [index.js], the MediaWiki page verifier;
    - [Notarize]  [notarize.js], the chain builder;
    - [Spec]      the notions the specification states the properties with;
    - [Examples]  concrete chains, revisions and collaborators;
    - [AquaVerifier]  the class that [dist/index.js] exports;
    - [Wiki]      the witness lookups and the log of [index.js];
    - [ScriptVerify]  revision verification of [verifier.js];
    - [Genesis]   the first revision of a chain in [notarize.js];
    - [Steps], [Linked], [Notions], [Cases]  what the properties are stated
                  with, and more concrete inputs.

    Network, wallet, file-system and library calls are parameters of the
    functions that make them; what the code does with their answers is
    modelled as written.

    Strings are byte strings (the UTF-8 encoding of the JavaScript string);
    every string the code inspects is ASCII (hex digests, addresses, keys). *)

From Stdlib Require Import List String Ascii NArith ZArith Bool Lia Arith.
From Stdlib Require Import DecimalString PrimFloat Permutation.
Import ListNotations.

Local Open Scope list_scope.
Local Open Scope string_scope.

(* ================================================================= *)
(** ** Keccak: SHA3-512 and Keccak-256 *)

Module Keccak.

Local Open Scope N_scope.

Definition lane_mask : N := 0xFFFFFFFFFFFFFFFF.

(** Rotation of a 64-bit lane to the left. *)
Definition rotl (x : N) (n : N) : N :=
  N.land (N.lor (N.shiftl x n) (N.shiftr x (64 - n))) lane_mask.

Definition round_constants : list N :=
  [ 0x0000000000000001; 0x0000000000008082; 0x800000000000808A;
    0x8000000080008000; 0x000000000000808B; 0x0000000080000001;
    0x8000000080008081; 0x8000000000008009; 0x000000000000008A;
    0x0000000000000088; 0x0000000080008009; 0x000000008000000A;
    0x000000008000808B; 0x800000000000008B; 0x8000000000008089;
    0x8000000000008003; 0x8000000000008002; 0x8000000000000080;
    0x000000000000800A; 0x800000008000000A; 0x8000000080008081;
    0x8000000000008080; 0x0000000080000001; 0x8000000080008008 ].

(** Rotation offsets, lane (x, y) at index x + 5 y. *)
Definition rotation_offsets : list N :=
  [  0;  1; 62; 28; 27;
    36; 44;  6; 55; 20;
     3; 10; 43; 25; 39;
    41; 45; 15; 21;  8;
    18;  2; 61; 56; 14 ].

(** The state: 25 lanes, lane (x, y) at index x + 5 y. *)
Definition state := list N.

Definition lane (st : state) (i : nat) : N := nth i st 0.

Definition indices25 : list nat := seq 0 25.

Definition theta (st : state) : state :=
  let c := map (fun x => N.lxor (lane st x)
                 (N.lxor (lane st (x + 5))
                 (N.lxor (lane st (x + 10))
                 (N.lxor (lane st (x + 15)) (lane st (x + 20))))))
               (seq 0 5) in
  let d := map (fun x => N.lxor (nth ((x + 4) mod 5) c 0)
                                (rotl (nth ((x + 1) mod 5) c 0) 1))
               (seq 0 5) in
  map (fun i => N.lxor (lane st i) (nth (i mod 5) d 0)) indices25.

(** rho and pi together: B[y, 2x+3y] = rotl A[x, y]; read backwards,
    B[X, Y] comes from A[(X + 3Y) mod 5, X]. *)
Definition rho_pi (st : state) : state :=
  map (fun j => let X := (j mod 5)%nat in
                let Y := (j / 5)%nat in
                let src := (((X + 3 * Y) mod 5) + 5 * X)%nat in
                rotl (lane st src) (nth src rotation_offsets 0))
      indices25.

Definition chi (st : state) : state :=
  map (fun j => let X := (j mod 5)%nat in
                let row := (5 * (j / 5))%nat in
                N.lxor (lane st j)
                  (N.ldiff (lane st (row + (X + 2) mod 5))
                           (lane st (row + (X + 1) mod 5))))
      indices25.

Definition iota (rc : N) (st : state) : state :=
  match st with
  | [] => []
  | a :: rest => N.lxor a rc :: rest
  end.

Definition keccak_round (st : state) (rc : N) : state :=
  iota rc (chi (rho_pi (theta st))).

Definition keccak_f (st : state) : state :=
  fold_left keccak_round round_constants st.

Definition initial_state : state := repeat 0 25.

(** XOR one message byte into the state at byte position [pos]. *)
Fixpoint xor_byte_at (st : state) (laneIdx : nat) (v : N) : state :=
  match st, laneIdx with
  | [], _ => []
  | a :: rest, O => N.lxor a v :: rest
  | a :: rest, S k => a :: xor_byte_at rest k v
  end.

Definition absorb_byte (rate : nat) (acc : state * nat) (b : N) : state * nat :=
  let '(st, pos) := acc in
  let st' := xor_byte_at st (pos / 8) (N.shiftl b (8 * N.of_nat (pos mod 8))) in
  if Nat.eqb (S pos) rate then (keccak_f st', O) else (st', S pos).

(** Multi-rate padding: the domain suffix, zeros, and a final 0x80. *)
Definition pad (rate : nat) (suffix : N) (len : nat) : list N :=
  let q := (rate - len mod rate)%nat in
  match q with
  | 1%nat => [N.lor suffix 0x80]
  | _ => (suffix :: repeat 0 (q - 2) ++ [0x80])%list
  end.

Definition bytes_of_string (s : string) : list N :=
  map N_of_ascii (list_ascii_of_string s).

Definition sponge (rate : nat) (suffix : N) (msg : list N) : state :=
  fst (fold_left (absorb_byte rate) (msg ++ pad rate suffix (List.length msg))%list
                 (initial_state, O)).

Definition state_byte (st : state) (k : nat) : N :=
  N.land (N.shiftr (lane st (k / 8)) (8 * N.of_nat (k mod 8))) 0xFF.

Definition hex_digit (n : N) : ascii :=
  match n with
  | 0 => "0" | 1 => "1" | 2 => "2" | 3 => "3" | 4 => "4" | 5 => "5"
  | 6 => "6" | 7 => "7" | 8 => "8" | 9 => "9" | 10 => "a" | 11 => "b"
  | 12 => "c" | 13 => "d" | 14 => "e" | _ => "f"
  end%char.

Definition hex_byte (b : N) (rest : string) : string :=
  String (hex_digit (N.shiftr b 4)) (String (hex_digit (N.land b 0xF)) rest).

(** Lowercase hex of the first [n] bytes of the state. *)
Definition hex_of_state (n : nat) (st : state) : string :=
  fold_right (fun k acc => hex_byte (state_byte st k) acc) EmptyString (seq 0 n).

(** [sha3.sha3_512(content)] of js-sha3: lowercase hex of SHA3-512. *)
Definition sha3_512 (content : string) : string :=
  hex_of_state 64 (sponge 72 0x06 (bytes_of_string content)).

(** [keccak256] as ethers exposes it: ["0x"] and 64 lowercase hex digits. *)
Definition keccak256 (content : string) : string :=
  "0x" ++ hex_of_state 32 (sponge 136 0x01 (bytes_of_string content)).

End Keccak.

Arguments Keccak.sha3_512 content : simpl never.
Arguments Keccak.keccak256 content : simpl never.

Module Ethers.

(** [ethers.hashMessage]: the EIP-191 personal-message digest, the
    Keccak-256 hash of the prefix, the length in decimal and the message. *)
Definition hashMessage (message : string) : string :=
  Keccak.keccak256
    (String (ascii_of_nat 25) "Ethereum Signed Message:" ++ String (ascii_of_nat 10) ""
     ++ NilEmpty.string_of_uint (Nat.to_uint (String.length message))
     ++ message).

End Ethers.

(* ================================================================= *)
(** ** JavaScript strings, exceptions and objects *)

Module JS.

(** [try]/[throw]: a computation returns or throws. *)
Inductive try (A : Type) : Type :=
| Returns (a : A)
| Throws (e : string).
Arguments Returns {A} a.
Arguments Throws {A} e.

(** Truthiness of a string: only the empty string is falsy. *)
Definition truthy (s : string) : bool := negb (s =? "").

(** [x ?? d] and [x || d] on a possibly-undefined string. *)
Definition nullish_or (x : option string) (d : string) : string :=
  match x with Some s => s | None => d end.

Definition lower_ascii (c : ascii) : ascii :=
  let n := nat_of_ascii c in
  if andb (65 <=? n)%nat (n <=? 90)%nat then ascii_of_nat (n + 32) else c.

(** [s.toLowerCase()] on ASCII letters; other bytes are kept. *)
Fixpoint toLowerCase (s : string) : string :=
  match s with
  | EmptyString => EmptyString
  | String c rest => String (lower_ascii c) (toLowerCase rest)
  end.

(** [s.startsWith(p)]. *)
Definition startsWith (s p : string) : bool := String.prefix p s.

(** [s.slice(a, b)] for [0 <= a <= b]. *)
Definition slice (s : string) (a b : nat) : string := String.substring a (b - a) s.

(** [xs.includes(x)] on an array of strings. *)
Definition includes (xs : list string) (x : string) : bool :=
  existsb (String.eqb x) xs.

(** An object with string keys: its own properties in [Object.keys] order,
    which is insertion order for keys that are not array indices (hashes,
    field names). *)
Definition obj (V : Type) : Type := list (string * V).

Section Objects.
Context {V : Type}.

Definition keys (o : obj V) : list string := map fst o.
Definition values (o : obj V) : list V := map snd o.

(** [o[k]]; [None] is [undefined]. *)
Fixpoint get (k : string) (o : obj V) : option V :=
  match o with
  | [] => None
  | (k', v) :: rest => if k =? k' then Some v else get k rest
  end.

(** [k in o]. *)
Definition has (k : string) (o : obj V) : bool :=
  match get k o with Some _ => true | None => false end.

(** [o[k] = v]: an existing key keeps its place, a new one goes last. *)
Fixpoint set (k : string) (v : V) (o : obj V) : obj V :=
  match o with
  | [] => [(k, v)]
  | (k', v') :: rest =>
      if k =? k' then (k, v) :: rest else (k', v') :: set k v rest
  end.

(** [delete o[k]]. *)
Fixpoint delete (k : string) (o : obj V) : obj V :=
  match o with
  | [] => []
  | (k', v') :: rest =>
      if k =? k' then rest else (k', v') :: delete k rest
  end.

(** [{...a, ...b}]. *)
Definition spread (a b : obj V) : obj V :=
  fold_left (fun acc kv => set (fst kv) (snd kv) acc) b a.
End Objects.

(** A property key made from a possibly-undefined value. *)
Definition prop_key (k : option string) : string := nullish_or k "undefined".

(** What an object literal inherits from [Object.prototype], each
    property with the string that [+] and template strings turn it into
    on Node.js: the source text of a built-in function, and
    ["[object Object]"] for the prototype object that [__proto__] gives. *)
Definition Object_prototype : obj string :=
  [ ("constructor", "function Object() { [native code] }");
    ("__defineGetter__", "function __defineGetter__() { [native code] }");
    ("__defineSetter__", "function __defineSetter__() { [native code] }");
    ("hasOwnProperty", "function hasOwnProperty() { [native code] }");
    ("__lookupGetter__", "function __lookupGetter__() { [native code] }");
    ("__lookupSetter__", "function __lookupSetter__() { [native code] }");
    ("isPrototypeOf", "function isPrototypeOf() { [native code] }");
    ("propertyIsEnumerable", "function propertyIsEnumerable() { [native code] }");
    ("toString", "function toString() { [native code] }");
    ("valueOf", "function valueOf() { [native code] }");
    ("__proto__", "[object Object]");
    ("toLocaleString", "function toLocaleString() { [native code] }") ].

(** [o[k]] on an object literal of strings, for a [k] that the caller
    chooses and a value that is then concatenated: the object's own
    property, else the inherited one, else [undefined]. *)
Definition lookup (k : string) (o : obj string) : option string :=
  match get k o with
  | Some v => Some v
  | None => get k Object_prototype
  end.

End JS.

(* ================================================================= *)
(** ** Merkle branches *)

(** A node of a witness Merkle proof, as both verifiers read it from the
    server's JSON: three strings. *)
Record MerkleNode := {
  left_leaf : string;
  right_leaf : string;
  successor : string
}.

(* ================================================================= *)
(** ** [dist/index.js]: the v1.2 verifier *)

Module V12.
Import JS.

(** *** src/v1_2/models.ts *)

Record RevisionMetadata := {
  domain_id : string;
  time_stamp : string;
  previous_verification_hash : option string;
  merge_hash : option string;
  metadata_hash : string
}.

Record FileContent := { file_data : string }.

(** [RevisionContent]: [content] holds the named slots, among them
    [file_hash] when the revision carries a file. *)
Record RevisionContent := {
  file : option FileContent;
  content : obj string;
  content_hash : string
}.

Record RevisionSignature := {
  signature : string;
  wallet_address : string
}.

Record RevisionWitness := {
  domain_snapshot_genesis_hash : string;
  merkle_root : string;
  witness_network : string;
  witness_event_transaction_hash : string;
  witness_event_verification_hash : string;
  structured_merkle_proof : list MerkleNode
}.

Record Revision := {
  rev_content : RevisionContent;
  rev_metadata : RevisionMetadata;
  rev_signature : option RevisionSignature;
  rev_witness : option RevisionWitness
}.

Record HashChain := { revisions : obj Revision }.

Record PageData := { pages : list HashChain }.

(** [getTimestampDirect]; [Returns None] is [undefined], and reading
    [.metadata] of [undefined] throws. *)
Definition getTimestampDirect (pageData : PageData) : try (option string) :=
  if (0 <? List.length (pages pageData))%nat then
    match nth_error (pages pageData) 0 with
    | None => Throws "TypeError"
    | Some firstPage =>
        let firstRevisionKey := nth_error (keys (revisions firstPage)) 0 in
        match get (prop_key firstRevisionKey) (revisions firstPage) with
        | None => Throws "TypeError"
        | Some revision => Returns (Some (time_stamp (rev_metadata revision)))
        end
    end
  else Returns None.

(** [getTimestampSafe]: the optional chain stops at the first [undefined]. *)
Definition getTimestampSafe (pageData : PageData) : try (option string) :=
  match nth_error (pages pageData) 0 with
  | None => Returns None
  | Some firstPage =>
      let firstRevisionKey := nth_error (keys (revisions firstPage)) 0 in
      match get (prop_key firstRevisionKey) (revisions firstPage) with
      | None => Returns None
      | Some revision => Returns (Some (time_stamp (rev_metadata revision)))
      end
  end.

Inductive ResultStatusEnum := MISSING | AVAILABLE.

(** *** src/v1_2/updated_check_etherscan.ts *)

(** What [provider.getTransaction(txHash)] can do: throw, resolve to
    [null], or resolve to a transaction with its input [data]. *)
Inductive TxLookup :=
| TxThrows (error : string)
| TxNull
| TxFound (data : string).

Definition networkRpcMap : obj string :=
  [ ("mainnet", "https://eth-mainnet.g.alchemy.com/v2/");
    ("holesky", "https://eth-holesky.g.alchemy.com/v2/");
    ("sepolia", "https://eth-sepolia.g.alchemy.com/v2/") ].

Record CheckResult := {
  verificationHashMatches : bool;
  message : string;
  successful : bool
}.

Definition functionSelector : string := "0x9cef4ea1".

Section WithProvider.
(** The JSON-RPC provider, by RPC URL and transaction hash. *)
Variable getTransaction : string -> string -> TxLookup.

Definition checkTransaction (network txHash expectedVerificationHash alchemyKey : string)
  : CheckResult :=
  let rpcUrl := nullish_or (lookup network networkRpcMap) "undefined" ++ alchemyKey in
  if negb (truthy rpcUrl) then
    {| verificationHashMatches := false;
       message := "An error occurred: Unsupported network: " ++ network;
       successful := false |}
  else
    match getTransaction rpcUrl txHash with
    | TxThrows error =>
        {| verificationHashMatches := false;
           message := "An error occurred: " ++ error;
           successful := false |}
    | TxNull =>
        {| verificationHashMatches := false;
           message := "Transaction not found";
           successful := false |}
    | TxFound inputData =>
        if startsWith inputData functionSelector then
          let actualVerificationHash := slice inputData 10 (10 + 128) in
          let hashMatches :=
            toLowerCase actualVerificationHash =? toLowerCase expectedVerificationHash in
          {| verificationHashMatches := hashMatches;
             message := if hashMatches then "Verification hash matches"
                        else "Verification hash does not match";
             successful := hashMatches |}
        else
          {| verificationHashMatches := false;
             message := "Transaction data does not contain expected function selector";
             successful := false |}
    end.

End WithProvider.

(** *** src/v1_2/utils.ts *)

Definition getHashSum (content : string) : string :=
  if content =? "" then "" else Keccak.sha3_512 content.

Definition calculateMetadataHash
  (domainId timestamp previousVerificationHash mergeHash : string) : string :=
  getHashSum (domainId ++ timestamp ++ previousVerificationHash ++ mergeHash).

Definition verifyContentUtil (data : RevisionContent) : bool * string :=
  let content := fold_left (fun acc slotContent => acc ++ slotContent)
                           (values (content data)) "" in
  let contentHash := getHashSum content in
  if contentHash =? content_hash data then (true, contentHash)
  else (false, "Content hash does not match").

Definition verifyMetadataUtil (data : RevisionMetadata) : bool * string :=
  let metadataHash :=
    calculateMetadataHash (domain_id data) (time_stamp data)
      (nullish_or (previous_verification_hash data) "")
      (nullish_or (merge_hash data) "") in
  if metadataHash =? metadata_hash data then (true, metadataHash)
  else (false, "Metadata hash does not match").

(** One call of [ethers.recoverAddress(digest, signature)]. *)
Record RecoverCall := { rc_digest : string; rc_signature : string }.

Section WithBase64.
(** [Buffer.from(b64, "base64")], as the bytes it decodes to. *)
Variable base64_decode : string -> string.

Definition generateHashFromBase64 (b64 : string) : string :=
  Keccak.sha3_512 (base64_decode b64).

(** The second component is [error_message], [None] for [null]. *)
Definition verifyFileUtil (data : RevisionContent) : bool * option string :=
  let fileContentHash :=
    match get "file_hash" (content data) with
    | Some h => if truthy h then Some h else None
    | None => None
    end in
  match fileContentHash with
  | None => (false, Some "Revision contains a file, but no file content hash")
  | Some fileContentHash =>
      let fileContent := option_map file_data (file data) in
      let hashFromb64 := generateHashFromBase64 (nullish_or fileContent "") in
      if negb (fileContentHash =? hashFromb64)
      then (false, Some "File content hash does not match")
      else (true, None)
  end.

End WithBase64.

Section WithRecover.
(** [ethers.recoverAddress]: the recovered address, or the exception. *)
Variable recoverAddress : string -> string -> try string.

(** [verifySignatureUtil], with the calls it makes to [recoverAddress]. *)
Definition verifySignatureUtil (data : RevisionSignature) (verificationHash : string)
  : (bool * string) * list RecoverCall :=
  if verificationHash =? "" then
    ((false, "Verification hash must not be empty"), [])
  else
    let paddedMessage :=
      "I sign the following page verification_hash: [0x" ++ verificationHash ++ "]" in
    let digest := Ethers.hashMessage paddedMessage in
    let calls := [ {| rc_digest := digest; rc_signature := signature data |} ] in
    match recoverAddress digest (signature data) with
    | Returns recoveredAddress =>
        let signatureOk :=
          toLowerCase recoveredAddress =? toLowerCase (wallet_address data) in
        ((signatureOk,
          if signatureOk then "Signature is Valid" else "Signature is invalid"), calls)
    | Throws e =>
        ((false, "An error occured retrieving signature : " ++ e), calls)
    end.

End WithRecover.

(** The loop of [verifyMerkleIntegrity]; [prevSuccessor] starts as [null]. *)
Fixpoint merkle_loop (merkleBranch : list MerkleNode) (verificationHash : string)
  (prevSuccessor : option string) : bool :=
  match merkleBranch with
  | [] => true
  | node :: rest =>
      let leaves := [left_leaf node; right_leaf node] in
      let leafMissing :=
        match prevSuccessor with
        | Some p =>
            if truthy p then negb (includes leaves p)
            else negb (includes leaves verificationHash)
        | None => negb (includes leaves verificationHash)
        end in
      if leafMissing then false
      else
        let calculatedSuccessor :=
          if negb (truthy (left_leaf node)) then right_leaf node
          else if negb (truthy (right_leaf node)) then left_leaf node
          else getHashSum (left_leaf node ++ right_leaf node) in
        if negb (calculatedSuccessor =? successor node) then false
        else merkle_loop rest verificationHash (Some (successor node))
  end.

Definition verifyMerkleIntegrity (merkleBranch : list MerkleNode)
  (verificationHash : string) : bool :=
  if (List.length merkleBranch =? 0)%nat then false
  else merkle_loop merkleBranch verificationHash None.

(** *** src/v1_2/v1_2.ts *)

Record ResultStatus := {
  status : ResultStatusEnum;
  res_successful : bool;
  res_message : string
}.

Record RevisionVerificationResult := {
  rev_successful : bool;
  file_verification : ResultStatus;
  content_verification : ResultStatus;
  witness_verification : ResultStatus;
  signature_verification : ResultStatus;
  metadata_verification : ResultStatus
}.

Record HashChainResult := {
  chain_successful : bool;
  revisionResults : list RevisionVerificationResult
}.

Definition defaultResultStatus : ResultStatus :=
  {| status := MISSING; res_successful := false; res_message := "" |}.

Definition available (r : bool * string) : ResultStatus :=
  {| status := AVAILABLE; res_successful := fst r; res_message := snd r |}.

Definition is_available (s : ResultStatusEnum) : bool :=
  match s with AVAILABLE => true | MISSING => false end.

(** The scan [for (const verification of ...) { if (...) { ...; break } }]. *)
Fixpoint allSuccessful_loop (verifications : list ResultStatus) : bool :=
  match verifications with
  | [] => true
  | verification :: rest =>
      if andb (is_available (status verification)) (negb (res_successful verification))
      then false
      else allSuccessful_loop rest
  end.

(** The second loop of [verifyAquaChain], with its [break]. *)
Fixpoint chain_successful_loop (results : list RevisionVerificationResult) : bool :=
  match results with
  | [] => true
  | revisionResult :: rest =>
      if negb (rev_successful revisionResult) then false
      else chain_successful_loop rest
  end.

Section WithCollaborators.
Variable getTransaction : string -> string -> TxLookup.
Variable recoverAddress : string -> string -> try string.
Variable base64_decode : string -> string.

Definition verifyWitnessUtil (witnessData : RevisionWitness) (verification_hash : string)
  (doVerifyMerkleProof : bool) (alchemyKey : string) : bool * string :=
  let actual_witness_event_verification_hash :=
    getHashSum (domain_snapshot_genesis_hash witnessData ++ merkle_root witnessData) in
  let tx_hash :=
    if startsWith (witness_event_transaction_hash witnessData) "0x"
    then witness_event_transaction_hash witnessData
    else "0x" ++ witness_event_transaction_hash witnessData in
  let etherScanResult :=
    checkTransaction getTransaction (witness_network witnessData) tx_hash
      actual_witness_event_verification_hash alchemyKey in
  if negb (actual_witness_event_verification_hash
             =? witness_event_verification_hash witnessData)
  then (false, "Verification hashes do not match")
  else if doVerifyMerkleProof then
    if verification_hash =? domain_snapshot_genesis_hash witnessData
    then (true, "Verification hash is the same us domain snapshot genesis hash")
    else
      let merkleProofIsOK :=
        verifyMerkleIntegrity (structured_merkle_proof witnessData) verification_hash in
      (merkleProofIsOK,
       if merkleProofIsOK then "Merkle proof is OK" else "Error verifying merkle proof")
  else (successful etherScanResult, message etherScanResult).

(** [verifyRevision]; the aggregate scans the sub-results in the order the
    result object lists them (its leading boolean has no [status]). *)
Definition verifyRevision (revision : Revision) (alchemyKey : string)
  : RevisionVerificationResult :=
  let '(fileIsCorrect, fileOut) := verifyFileUtil base64_decode (rev_content revision) in
  let file_v := available (fileIsCorrect, nullish_or fileOut "") in
  let content_v := available (verifyContentUtil (rev_content revision)) in
  let metadata_v := available (verifyMetadataUtil (rev_metadata revision)) in
  let previous :=
    nullish_or (previous_verification_hash (rev_metadata revision)) "" in
  let signature_v :=
    match rev_signature revision with
    | Some sig => available (fst (verifySignatureUtil recoverAddress sig previous))
    | None => defaultResultStatus
    end in
  let witness_v :=
    match rev_witness revision with
    | Some witness =>
        available (verifyWitnessUtil witness previous
                     (1 <? List.length (structured_merkle_proof witness))%nat
                     alchemyKey)
    | None => defaultResultStatus
    end in
  {| rev_successful :=
       allSuccessful_loop [file_v; content_v; witness_v; signature_v; metadata_v];
     file_verification := file_v;
     content_verification := content_v;
     witness_verification := witness_v;
     signature_verification := signature_v;
     metadata_verification := metadata_v |}.

Definition verifySignature (sig : RevisionSignature) (previous_verification_hash : string)
  : ResultStatus :=
  available (fst (verifySignatureUtil recoverAddress sig previous_verification_hash)).

Definition verifyWitness (witness : RevisionWitness) (verification_hash : string)
  (doVerifyMerkleProof : bool) (alchemyKey : string) : ResultStatus :=
  available (verifyWitnessUtil witness verification_hash doVerifyMerkleProof alchemyKey).

(** The first loop of [verifyAquaChain]: one [verifyRevision] per key;
    a key that named no revision would make [verifyRevision] throw. *)
Fixpoint verifyAquaChain_loop (revs : obj Revision) (revisionHashes : list string)
  (alchemyKey : string) (results : list RevisionVerificationResult)
  : try (list RevisionVerificationResult) :=
  match revisionHashes with
  | [] => Returns results
  | h :: rest =>
      match get h revs with
      | None => Throws "TypeError"
      | Some revision =>
          let revisionResult := verifyRevision revision alchemyKey in
          verifyAquaChain_loop revs rest alchemyKey (results ++ [revisionResult])%list
      end
  end.

Definition verifyAquaChain (aquaChain : HashChain) (alchemyKey : string)
  : try HashChainResult :=
  let revisionHashes := keys (revisions aquaChain) in
  match verifyAquaChain_loop (revisions aquaChain) revisionHashes alchemyKey [] with
  | Throws e => Throws e
  | Returns results =>
      Returns {| chain_successful := chain_successful_loop results;
                 revisionResults := results |}
  end.

End WithCollaborators.

End V12.

(* ================================================================= *)
(** ** [verifier.js]: the stand-alone script *)

Module Script.

Definition getHashSum (content : string) : string := Keccak.sha3_512 content.

Definition calculateVerificationHash (contentHash metadataHash : string) : string :=
  getHashSum (contentHash ++ metadataHash).

Definition calculateMetadataHash
  (timestamp previousVerificationHash signature publicKey : string) : string :=
  getHashSum (timestamp ++ previousVerificationHash ++ signature ++ publicKey).

End Script.

(* ================================================================= *)
(** ** [index.js]: the MediaWiki page verifier *)

Module Legacy.
Import JS.

Definition INVALID_VERIFICATION_STATUS := "INVALID".
Definition VERIFIED_VERIFICATION_STATUS := "VERIFIED".
Definition ERROR_VERIFICATION_STATUS := "ERROR".

Definition getHashSum (content : string) : string :=
  if content =? "" then "" else Keccak.sha3_512 content.

Definition calculateMetadataHash
  (domainId timestamp previousVerificationHash : string) : string :=
  getHashSum (domainId ++ timestamp ++ previousVerificationHash).

Definition calculateSignatureHash (signature publicKey : string) : string :=
  getHashSum (signature ++ publicKey).

Definition calculateWitnessHash
  (domain_manifest_verification_hash merkle_root witness_network witness_tx_hash : string)
  : string :=
  getHashSum (domain_manifest_verification_hash ++ merkle_root
              ++ witness_network ++ witness_tx_hash).

Definition calculateVerificationHash
  (contentHash metadataHash signature_hash witness_hash : string) : string :=
  getHashSum (contentHash ++ metadataHash ++ signature_hash ++ witness_hash).

(** The loop of [verifyMerkleIntegrity]; [prevSuccessor] starts as [null]. *)
Fixpoint merkle_loop (merkleBranch : list MerkleNode) (verificationHash : string)
  (prevSuccessor : option string) : bool :=
  match merkleBranch with
  | [] => true
  | node :: rest =>
      let leaves := [left_leaf node; right_leaf node] in
      let leafMissing :=
        match prevSuccessor with
        | Some p =>
            if truthy p then negb (includes leaves p)
            else negb (includes leaves verificationHash)
        | None => negb (includes leaves verificationHash)
        end in
      if leafMissing then false
      else
        let calculatedSuccessor := getHashSum (left_leaf node ++ right_leaf node) in
        if negb (calculatedSuccessor =? successor node) then false
        else merkle_loop rest verificationHash (Some (successor node))
  end.

Definition verifyMerkleIntegrity (merkleBranch : list MerkleNode)
  (verificationHash : string) : bool :=
  merkle_loop merkleBranch verificationHash None.

(** What the first [fetch] of [verifyPage] can give. *)
Inductive AllRevsFetch :=
| FetchThrows (e : string)
| FetchNotOk (httpError : string)
| FetchErrorObject (error : string)
| FetchRevIds (verifiedRevIds : list N).

(** What the wikitext [fetch] for one revision id can give. *)
Inductive BodyFetch :=
| BodyNotOk (httpError : string)
| BodyNoWikitext
| BodyWikitext (content : string).

(** A [fetch] whose JSON is used when the response is [ok]. *)
Inductive Fetch (A : Type) :=
| NotOk (httpError : string)
| Ok (json : A).
Arguments NotOk {A} httpError.
Arguments Ok {A} json.

(** The JSON of [verify_page/<revid>]; [None] is [null]. *)
Record RevisionInfo := {
  domain_id : string;
  time_stamp : string;
  verification_hash : string;
  signature : option string;
  public_key : option string;
  wallet_address : string;
  witness_event_id : option N
}.

(** The [detail] object of a revision: its own fields, and the fields of
    the server's JSON that [Object.assign] copies into it. *)
Record RevisionDetail := {
  rev_id : N;
  verification_status : option string;
  is_witnessed : option bool;
  is_signed : bool;
  valid_signature : bool;
  witness_detail : option string;
  info : RevisionInfo
}.

Inductive Detail :=
| DetailError (error_message : string)
| DetailOf (detail : RevisionDetail).

Inductive PageResult :=
| PageError (error : string)
| PageStatus (status : string) (verified_ids : list N) (revision_details : list Detail).

(** How the loop of [verifyPage] ends: by its early [return], or by
    running out of revision ids. *)
Inductive LoopEnd :=
| EarlyReturn (revision_details : list Detail)
| Exhausted (count : nat) (revision_details : list Detail).

Definition decimal (n : N) : string := NilEmpty.string_of_uint (N.to_uint n).

(** [!!x ? x : ""] on a string that may be [null]. *)
Definition or_empty (x : option string) : string :=
  match x with
  | Some s => if truthy s then s else ""
  | None => ""
  end.

Section WithServer.
Variable fetchAllRevs : string -> AllRevsFetch.
Variable fetchBody : N -> BodyFetch.
Variable fetchVerifyPage : string -> N -> Fetch RevisionInfo.
(** [getWitnessHash(apiURL, witness_event_id)] and [verifyWitness(apiURL,
    witness_event_id, verification_hash, doVerifyMerkleProof, isHtml)]
    query the server and Etherscan; the second gives a status and a log. *)
Variable getWitnessHash : string -> option N -> string.
Variable verifyWitness : string -> option N -> string -> bool -> bool -> string * string.
Variable recoverAddress : string -> string -> try string.

(** [verifyRevision]; the previous revision id is [None] while it is
    still [""], and a previous verification hash of [null] would print as
    ["null"]. *)
Definition verifyRevision (apiURL : string) (revid : N) (prevRevId : option N)
  (previousVerificationHash : option string) (contentHash : string)
  (isHtml doVerifyMerkleProof : bool) : option string * bool * Detail :=
  match fetchVerifyPage apiURL revid with
  | NotOk httpError => (None, false, DetailError httpError)
  | Ok data =>
      let metadataHash :=
        calculateMetadataHash (domain_id data) (time_stamp data)
                              (nullish_or previousVerificationHash "null") in
      let previous :=
        match prevRevId with
        | None => Ok ("", "", "")
        | Some prevRevId =>
            match fetchVerifyPage apiURL prevRevId with
            | NotOk httpError => NotOk httpError
            | Ok dataPrevious =>
                Ok (or_empty (signature dataPrevious),
                    or_empty (public_key dataPrevious),
                    getWitnessHash apiURL (witness_event_id dataPrevious))
            end
        end in
      match previous with
      | NotOk httpError => (None, false, DetailError httpError)
      | Ok (prevSignature, prevPublicKey, prevWitnessHash) =>
          let signatureHash := calculateSignatureHash prevSignature prevPublicKey in
          let '(witnessStatus, witness_detail) :=
            verifyWitness apiURL (witness_event_id data) (verification_hash data)
                          doVerifyMerkleProof isHtml in
          let calculatedVerificationHash :=
            calculateVerificationHash contentHash metadataHash signatureHash
                                      prevWitnessHash in
          if negb (calculatedVerificationHash =? verification_hash data) then
            (None, false,
             DetailOf {| rev_id := revid;
                         verification_status := Some INVALID_VERIFICATION_STATUS;
                         is_witnessed := None;
                         is_signed := false;
                         valid_signature := false;
                         witness_detail := Some witness_detail;
                         info := data |})
          else
            let is_witnessed := negb (witnessStatus =? "NO_WITNESS") in
            match signature data with
            | None | Some EmptyString =>
                (Some (verification_hash data), true,
                 DetailOf {| rev_id := revid;
                             verification_status := Some VERIFIED_VERIFICATION_STATUS;
                             is_witnessed := Some is_witnessed;
                             is_signed := false;
                             valid_signature := false;
                             witness_detail := Some witness_detail;
                             info := data |})
            | Some sig =>
                let paddedMessage :=
                  "I sign the following page verification_hash: [0x"
                  ++ verification_hash data ++ "]" in
                let recovered :=
                  match recoverAddress (Ethers.hashMessage paddedMessage) sig with
                  | Returns recoveredAddress =>
                      toLowerCase recoveredAddress =? toLowerCase (wallet_address data)
                  | Throws e => false
                  end in
                let isCorrect :=
                  if andb is_witnessed (witnessStatus =? "INCONSISTENT") then false
                  else recovered in
                (Some (verification_hash data), isCorrect,
                 DetailOf {| rev_id := revid;
                             verification_status := Some VERIFIED_VERIFICATION_STATUS;
                             is_witnessed := Some is_witnessed;
                             is_signed := true;
                             valid_signature := recovered;
                             witness_detail := Some witness_detail;
                             info := data |})
            end
      end
  end.

Fixpoint verifyPage_loop (apiURL : string) (doLog doVerifyMerkleProof : bool)
  (verifiedRevIds : list N) (previousVerificationHash : option string)
  (previousRevId : option N) (count : nat) (revision_details : list Detail)
  : try LoopEnd :=
  match verifiedRevIds with
  | [] => Returns (Exhausted count revision_details)
  | revid :: rest =>
      match fetchBody revid with
      | BodyNotOk httpError => Throws httpError
      | BodyNoWikitext => Throws ("No wikitext found for revid " ++ decimal revid)
      | BodyWikitext content =>
          if negb (truthy content)
          then Throws ("No wikitext found for revid " ++ decimal revid)
          else
            let contentHash := getHashSum content in
            let isHtml := negb doLog in
            let '(verificationHash, isCorrect, detail) :=
              verifyRevision apiURL revid previousRevId previousVerificationHash
                             contentHash isHtml doVerifyMerkleProof in
            let revision_details := (revision_details ++ [detail])%list in
            if isCorrect then
              verifyPage_loop apiURL doLog doVerifyMerkleProof rest
                              verificationHash (Some revid) (count + 1) revision_details
            else Returns (EarlyReturn revision_details)
      end
  end.

Definition verifyPage (title server : string) (verbose doLog doVerifyMerkleProof : bool)
  : try PageResult :=
  let apiURL := server ++ "/rest.php/data_accounting/v1" in
  if existsb (Ascii.eqb "_"%char) (list_ascii_of_string title) then
    Returns (PageError "INVALID TITLE: Do not use underscore in title.")
  else
    match fetchAllRevs (apiURL ++ "/get_page_all_revs/" ++ title) with
    | FetchThrows e => Returns (PageError e)
    | FetchNotOk httpError => Returns (PageError httpError)
    | FetchErrorObject error => Returns (PageError error)
    | FetchRevIds verifiedRevIds =>
        match verifyPage_loop apiURL doLog doVerifyMerkleProof verifiedRevIds
                              (Some "") None 0 [] with
        | Throws e => Throws e
        | Returns (EarlyReturn revision_details) =>
            Returns (PageStatus INVALID_VERIFICATION_STATUS verifiedRevIds revision_details)
        | Returns (Exhausted count revision_details) =>
            let status :=
              if (count =? List.length verifiedRevIds)%nat then
                if (count =? 0)%nat then "NORECORD" else VERIFIED_VERIFICATION_STATUS
              else INVALID_VERIFICATION_STATUS in
            Returns (PageStatus status verifiedRevIds revision_details)
        end
    end.

End WithServer.

End Legacy.

(* ================================================================= *)
(** ** [notarize.js]: the chain builder *)

Module Notarize.
Import JS.

(** JSON values, as revisions and form files hold them. *)
#[warnings="-register-all"]
Inductive jsval :=
| JUndefined
| JNull
| JBool (b : bool)
| JNum (n : Z)
| JStr (s : string)
| JArr (items : list jsval)
| JObj (fields : list (string * jsval)).

Definition decimalZ (n : Z) : string := NilEmpty.string_of_int (Z.to_int n).

Definition join_comma (parts : list string) : string :=
  match parts with
  | [] => ""
  | p :: rest => fold_left (fun acc q => acc ++ "," ++ q) rest p
  end.

(** [String(v)], which is how a value becomes a property key. *)
Fixpoint to_key (v : jsval) : string :=
  match v with
  | JUndefined => "undefined"
  | JNull => "null"
  | JBool true => "true"
  | JBool false => "false"
  | JNum n => decimalZ n
  | JStr s => s
  | JArr items =>
      join_comma (map (fun item => match item with
                                   | JUndefined | JNull => ""
                                   | _ => to_key item
                                   end) items)
  | JObj _ => "[object Object]"
  end.

(** [a === s] for a value [a] and a string [s]. *)
Definition strict_eq_string (a : jsval) (s : string) : bool :=
  match a with JStr x => x =? s | _ => false end.

Definition truthy_val (v : jsval) : bool :=
  match v with
  | JUndefined | JNull => false
  | JBool b => b
  | JNum n => negb (n =? 0)%Z
  | JStr s => truthy s
  | JArr _ | JObj _ => true
  end.

Definition of_option_string (s : option string) : jsval :=
  match s with Some x => JStr x | None => JUndefined end.

(** A revision payload ([verificationData]): an object in key order. *)
Definition Revision := obj jsval.

Record AquaObject := {
  revisions : obj Revision;
  file_index : obj jsval
}.

Definition createNewAquaObject : AquaObject :=
  {| revisions := []; file_index := [] |}.

(** The fields of an [AquaTree] instance; [lastRevisionHash] is [None]
    when it is [undefined]. *)
Record AquaTree := {
  aquaObject : AquaObject;
  lastRevisionHash : option string;
  aquaFilename : option string
}.

(** The command line, as the module-level constants hold it. *)
Record Config := {
  filename : string;
  form_file_name : option string;
  linkURIs : option string;
  enableContent : bool;
  signMethod : option string;
  witnessMethod : option string;
  network : option string;
  witness_platform_type : option string
}.

Record Wallet := {
  signMessage : string -> string;
  walletAddress : string;
  publicKey : string
}.

Inductive AquaFileRead :=
| FileMissing
| FileUnparsable
| FileParsed (aqua : AquaObject).

(** The collaborators outside the module: the file system, the random
    source, JSON, the Merkle tree library, wallets and witness networks,
    and [dict2Leaves] and [getFileHashSum] of the [index.js] that
    [notarize.js] imports, a later one than the [index.js] above.
    [writeFileSync path object] tells whether [fs.writeFileSync] of the
    object's JSON text to that path succeeds. *)
Record World := {
  readFileSync : string -> option string;
  writeFileSync : string -> AquaObject -> bool;
  randomNonce : string;
  JSON_parse : string -> option jsval;
  JSON_stringify : Revision -> string;
  dict2Leaves : Revision -> list string;
  getHexRoot : list jsval -> string;
  getHexProof : list jsval -> jsval -> list string;
  getFileHashSum : string -> option string;
  readAquaFile : string -> AquaFileRead;
  cliWallet : option Wallet;
  metamaskSign : string -> option (string * string * string);
  didSign : string -> option (string * string);
  witnessNostr : string -> option (string * string * Z);
  witnessTsa : string -> string -> option (string * string * Z);
  witnessEth : string -> string -> string -> option (string * string);
  nowSeconds : Z
}.

(** Why the process ends with [process.exit(1)]. *)
Inductive ExitReason :=
| DUPLICATE_CONTENT
| INVALID_LINK
| InvalidRevisionType
| FormUnreadable
| FormNotJson
| SignerFailed
| WitnessMethodMissing
| UnknownWitnessMethod
| WitnessFailed
| NotCommaSeparated
| AquaFileMissing
| AquaFileUnreadable
| WriteFailed.

(** A run over a state [S] ends normally, by [process.exit] or by an
    uncaught exception; each keeps the state reached by then. *)
Inductive outcome (S A : Type) : Type :=
| Done (s : S) (a : A)
| Exit (r : ExitReason) (s : S)
| Throw (e : string) (s : S).
Arguments Done {S A} s a.
Arguments Exit {S A} r s.
Arguments Throw {S A} e s.

Definition M (S A : Type) : Type := S -> outcome S A.

Definition ret {S A} (a : A) : M S A := fun s => Done s a.

Definition bind {S A B} (m : M S A) (k : A -> M S B) : M S B :=
  fun s => match m s with
           | Done s' a => k a s'
           | Exit r s' => Exit r s'
           | Throw e s' => Throw e s'
           end.

Definition getS {S} : M S S := fun s => Done s s.
Definition putS {S} (s' : S) : M S unit := fun _ => Done s' tt.
Definition exit {S A} (r : ExitReason) : M S A := fun s => Exit r s.
Definition throw {S A} (e : string) : M S A := fun s => Throw e s.

Notation "x <- m ;; k" := (bind m (fun x => k))
  (at level 61, m at next level, right associativity).
Notation "m ;;; k" := (bind m (fun _ => k))
  (at level 61, right associativity).

(** [main.getHashSum] on a string: the SHA3-512 hex digest, the empty
    string for the empty string, as [getHashSum] of [index.js] has it. *)
Definition getHashSum (content : string) : string := Legacy.getHashSum content.

(** [main.getHashSum] on a [Buffer]: [content === ""] compares an object
    with a string and never holds, so every buffer is hashed. *)
Definition getHashSum_Buffer (content : string) : string := Keccak.sha3_512 content.

(** [s.split(",")]. *)
Fixpoint split_comma (s : string) : list string :=
  match s with
  | EmptyString => [""]
  | String c rest =>
      let parts := split_comma rest in
      if Ascii.eqb c ","%char then "" :: parts
      else match parts with
           | p :: ps => String c p :: ps
           | [] => [String c ""]
           end
  end.

(** [s.endsWith(suffix)]. *)
Definition endsWith (s suffix : string) : bool :=
  if (String.length suffix <=? String.length s)%nat
  then String.substring (String.length s - String.length suffix)
                        (String.length suffix) s =? suffix
  else false.

Definition last_key {V} (o : obj V) : option string := List.last (map Some (keys o)) None.

Definition doSign (wallet : Wallet) (verificationHash : string) : string :=
  let message := "I sign this revision: [" ++ verificationHash ++ "]" in
  signMessage wallet message.

Fixpoint mapM {S A B} (f : A -> M S B) (xs : list A) : M S (list B) :=
  match xs with
  | [] => ret []
  | x :: rest => y <- f x ;; ys <- mapM f rest ;; ret (y :: ys)
  end.

Section WithWorld.
Variable W : World.
Variable C : Config.

(** [prepareWitness]: the backend is chosen by [--witness].  The Nostr
    and TSA backends fail by throwing; the Ethereum one ends the process
    when it cannot estimate gas or send the transaction. *)
Definition prepareWitness {S} (verificationHash : jsval) : M S Revision :=
  match witnessMethod C with
  | None | Some EmptyString => exit WitnessMethodMissing
  | Some method =>
      let merkle_root := verificationHash in
      backend <-
        (if method =? "nostr" then
           match witnessNostr W (to_key merkle_root) with
           | Some (transactionHash, publisher, witnessTimestamp) =>
               ret ("nostr", "N/A", transactionHash, publisher, witnessTimestamp)
           | None => throw "witnessNostr.witness"
           end
         else if method =? "tsa" then
           let tsaUrl := "http://timestamp.digicert.com" in
           match witnessTsa W (to_key merkle_root) tsaUrl with
           | Some (transactionHash, publisher, witnessTimestamp) =>
               ret ("TSA_RFC3161", tsaUrl, transactionHash, publisher, witnessTimestamp)
           | None => throw "witnessTsa.witness"
           end
         else if method =? "eth" then
           let useNetwork :=
             match network C with
             | Some n => if n =? "mainnet" then "mainnet" else "sepolia"
             | None => "sepolia"
             end in
           let smart_contract_address := "0x45f59310ADD88E6d23ca58A0Fa7A55BEE6d2a611" in
           match witnessEth W (to_key merkle_root) useNetwork smart_contract_address with
           | Some (transactionHash, publisher) =>
               ret (useNetwork, smart_contract_address, transactionHash, publisher,
                    nowSeconds W)
           | None => exit WitnessFailed
           end
         else exit UnknownWitnessMethod) ;;
      let '(witness_network, smart_contract_address, transactionHash, publisher,
            witnessTimestamp) := backend in
      ret [ ("witness_merkle_root", merkle_root);
            ("witness_timestamp", JNum witnessTimestamp);
            ("witness_network", JStr witness_network);
            ("witness_smart_contract_address", JStr smart_contract_address);
            ("witness_transaction_hash", JStr transactionHash);
            ("witness_sender_account_address", JStr publisher);
            ("witness_merkle_proof", JArr [verificationHash]) ]
  end.

Definition signature_fields (signature publicKey walletAddress signature_type : jsval)
  : Revision :=
  [ ("signature", signature);
    ("signature_public_key", publicKey);
    ("signature_wallet_address", walletAddress);
    ("signature_type", signature_type) ].

(** [prepareSignature]; a signer that gives [None] has made the process
    exit. *)
Definition prepareSignature {S} (previousVerificationHash : jsval) : M S Revision :=
  let method := nullish_or (signMethod C) "" in
  if method =? "metamask" then
    let messageToBeSigned :=
      "I sign this revision: [" ++ to_key previousVerificationHash ++ "]" in
    match metamaskSign W messageToBeSigned with
    | Some (signature, walletAddress, publicKey) =>
        ret (signature_fields (JStr signature) (JStr publicKey) (JStr walletAddress)
                              (JStr "ethereum:eip-191"))
    | None => exit SignerFailed
    end
  else if method =? "cli" then
    match cliWallet W with
    | Some wallet =>
        let signature := doSign wallet (to_key previousVerificationHash) in
        ret (signature_fields (JStr signature) (JStr (publicKey wallet))
                              (JStr (walletAddress wallet)) (JStr "ethereum:eip-191"))
    | None => exit SignerFailed
    end
  else if method =? "did" then
    match didSign W (to_key previousVerificationHash) with
    | Some (jws, key) =>
        ret (signature_fields (JStr jws) (JStr key) (JStr key) (JStr "did:key"))
    | None => exit SignerFailed
    end
  else ret (signature_fields JUndefined JUndefined JUndefined JUndefined).

(** [getLatestVH]; reading or parsing the file may throw. *)
Definition getLatestVH {S} (uri : string) : M S jsval :=
  match readAquaFile W uri with
  | FileParsed aqua => ret (of_option_string (last_key (revisions aqua)))
  | FileMissing => throw "ENOENT"
  | FileUnparsable => throw "SyntaxError"
  end.

(** The callback of [find] in [checkFileHashAlreadyNotarized]. *)
Definition same_file_hash (fileHash : string) (revision : Revision) : bool :=
  match get "file_hash" revision with
  | Some file_hash => andb (truthy_val file_hash) (strict_eq_string file_hash fileHash)
  | None => false
  end.

Definition checkFileHashAlreadyNotarized {S} (fileHash : string) (aqua : AquaObject)
  : M S unit :=
  match find (same_file_hash fileHash) (values (revisions aqua)) with
  | Some existingRevision => exit DUPLICATE_CONTENT
  | None => ret tt
  end.

Record Out := {
  verification_hash : string;
  data : Revision
}.

(** The [for ... of linkVHs.entries()] loop of [maybeUpdateFileIndex]. *)
Fixpoint index_links (linkURIsArray : list string) (idx : nat) (linkVHs : list jsval)
  (file_index : obj jsval) : obj jsval :=
  match linkVHs with
  | [] => file_index
  | vh :: rest =>
      index_links linkURIsArray (idx + 1) rest
        (set (to_key vh) (JStr (nullish_or (nth_error linkURIsArray idx) "undefined"))
             file_index)
  end.

(** [maybeUpdateFileIndex], as the object it leaves behind; the [link]
    case throws before its loop when there is nothing to split or iterate. *)
Definition maybeUpdateFileIndex (aqua : AquaObject) (verificationData : Out)
  (revisionType : string) : try AquaObject :=
  if revisionType =? "form" then
    let verificationHash := verification_hash verificationData in
    Returns {| revisions := revisions aqua;
               file_index := set verificationHash (of_option_string (form_file_name C))
                                 (file_index aqua) |}
  else if revisionType =? "file" then
    let verificationHash := verification_hash verificationData in
    Returns {| revisions := revisions aqua;
               file_index := set verificationHash (JStr (filename C)) (file_index aqua) |}
  else if revisionType =? "link" then
    match linkURIs C with
    | None => Throws "TypeError"
    | Some uris =>
        let linkURIsArray := split_comma uris in
        match get "link_verification_hashes" (data verificationData) with
        | Some (JArr linkVHs) =>
            Returns {| revisions := revisions aqua;
                       file_index := index_links linkURIsArray 0 linkVHs (file_index aqua) |}
        | _ => Throws "TypeError"
        end
    end
  else Returns aqua.

Definition lift_try {S A} (r : try A) : M S A :=
  match r with
  | Returns a => ret a
  | Throws e => throw e
  end.

Definition with_aquaObject (t : AquaTree) (aqua : AquaObject) : AquaTree :=
  {| aquaObject := aqua;
     lastRevisionHash := lastRevisionHash t;
     aquaFilename := aquaFilename t |}.

Definition with_file_index (t : AquaTree) (fi : obj jsval) : AquaTree :=
  with_aquaObject t {| revisions := revisions (aquaObject t); file_index := fi |}.

(** [read]. *)
Definition read (aquaFilename : string) : try AquaTree :=
  match readAquaFile W aquaFilename with
  | FileParsed aqua =>
      Returns {| aquaObject := aqua;
                 lastRevisionHash := last_key (revisions aqua);
                 aquaFilename := Some aquaFilename |}
  | FileMissing => Throws "ENOENT"
  | FileUnparsable => Throws "SyntaxError"
  end.

(** What [for (const vh of x)] iterates over, when [x] is iterable. *)
Definition iterate (x : option jsval) : try (list jsval) :=
  match x with
  | Some (JArr items) => Returns items
  | Some (JStr s) => Returns (map (fun c => JStr (String c "")) (list_ascii_of_string s))
  | _ => Throws "TypeError"
  end.

(** [removeLastRevision].  Line 610 reads the identifier
    [lastRevisionHash], which nothing in the module declares (the field
    is [this.lastRevisionHash]): evaluating it throws a ReferenceError,
    so the statements after it are never reached. *)
Definition removeLastRevision : M AquaTree unit :=
  t <- getS ;;
  match get (prop_key (lastRevisionHash t)) (revisions (aquaObject t)) with
  | None => throw "TypeError"
  | Some lastRevision =>
      (match get "revision_type" lastRevision with
       | Some revision_type =>
           if strict_eq_string revision_type "file" then
             let file_hash := match get "file_hash" lastRevision with
                              | Some h => h
                              | None => JUndefined
                              end in
             putS (with_file_index t (delete (to_key file_hash)
                                             (file_index (aquaObject t))))
           else if strict_eq_string revision_type "link" then
             vhs <- lift_try (iterate (get "link_verification_hashes" lastRevision)) ;;
             putS (with_file_index t
                     (fold_left (fun fi vh => delete (to_key vh) fi) vhs
                                (file_index (aquaObject t))))
           else ret tt
       | None => ret tt
       end) ;;;
      throw "ReferenceError: lastRevisionHash is not defined"
  end.

Definition validRevisionTypes : list string :=
  ["file"; "signature"; "witness"; "form"; "link"].

(** [Object.keys(x)] with the values, for a parsed JSON value. *)
Definition own_entries (x : jsval) : try (obj jsval) :=
  match x with
  | JObj fields => Returns fields
  | JArr items =>
      Returns (combine (map (fun i => Legacy.decimal (N.of_nat i))
                            (seq 0 (List.length items))) items)
  | JStr s =>
      Returns (combine (map (fun i => Legacy.decimal (N.of_nat i))
                            (seq 0 (String.length s)))
                       (map (fun c => JStr (String c "")) (list_ascii_of_string s)))
  | JUndefined | JNull => Throws "TypeError"
  | JBool _ | JNum _ => Returns []
  end.

(** The [switch (revisionType)] of [createNewRevision]: the payload with
    the fields of its kind. *)
Definition kind_fields (revisionType : string) (previousVerificationHash : jsval)
  (verificationData : Revision) : M AquaTree Revision :=
  if revisionType =? "file" then
    match readFileSync W (filename C) with
    | None => throw "ENOENT"
    | Some fileContent =>
        let fileHash := getHashSum_Buffer fileContent in
        t <- getS ;;
        checkFileHashAlreadyNotarized fileHash (aquaObject t) ;;;
        let verificationData :=
          if enableContent C then set "content" (JStr fileContent) verificationData
          else verificationData in
        let verificationData := set "file_hash" (JStr fileHash) verificationData in
        ret (set "file_nonce" (JStr (randomNonce W)) verificationData)
    end
  else if revisionType =? "signature" then
    sigData <- prepareSignature previousVerificationHash ;;
    ret (spread verificationData sigData)
  else if revisionType =? "witness" then
    witness <- prepareWitness previousVerificationHash ;;
    ret (spread verificationData witness)
  else if revisionType =? "form" then
    match match form_file_name C with
          | Some name => readFileSync W name
          | None => None
          end with
    | None => exit FormUnreadable
    | Some form_data =>
        let fileHash := getHashSum_Buffer form_data in
        t <- getS ;;
        checkFileHashAlreadyNotarized fileHash (aquaObject t) ;;;
        let verificationData := set "file_hash" (JStr fileHash) verificationData in
        let verificationData := set "file_nonce" (JStr (randomNonce W)) verificationData in
        match JSON_parse W form_data with
        | None => exit FormNotJson
        | Some form_data_json =>
            entries <- lift_try (own_entries form_data_json) ;;
            let form_data_sorted_with_prefix :=
              fold_left (fun acc kv => set ("forms_" ++ fst kv) (snd kv) acc)
                        entries [] in
            ret (spread verificationData form_data_sorted_with_prefix)
        end
    end
  else if revisionType =? "link" then
    match linkURIs C with
    | None => throw "TypeError"
    | Some uris =>
        let linkURIsArray := split_comma uris in
        if existsb (fun uri => endsWith uri ".aqua.json") linkURIsArray
        then exit INVALID_LINK
        else
          let linkAquaFiles := map (fun e => e ++ ".aqua.json") linkURIsArray in
          linkVHs <- mapM getLatestVH linkAquaFiles ;;
          linkFileHashes <-
            mapM (fun uri => match getFileHashSum W uri with
                             | Some h => ret h
                             | None => throw "ENOENT"
                             end) linkURIsArray ;;
          t <- getS ;;
          if existsb (fun fh => has fh (file_index (aquaObject t))) linkFileHashes
          then exit INVALID_LINK
          else
            let linkData :=
              [ ("link_type", JStr "aqua");
                ("link_require_indepth_verification", JBool true);
                ("link_verification_hashes", JArr linkVHs);
                ("link_file_hashes", JArr (map JStr linkFileHashes)) ] in
            ret (spread verificationData linkData)
    end
  else ret verificationData.

(** [createNewRevision]. *)
Definition createNewRevision (timestamp revisionType : string) (enableScalar : bool)
  : M AquaTree Out :=
  t <- getS ;;
  let previousVerificationHash := of_option_string (lastRevisionHash t) in
  if negb (includes validRevisionTypes revisionType) then exit InvalidRevisionType
  else
    let verificationData :=
      [ ("previous_verification_hash", previousVerificationHash);
        ("local_timestamp", JStr timestamp);
        ("revision_type", JStr revisionType) ] in
    verificationData <- kind_fields revisionType previousVerificationHash verificationData ;;
    let out :=
      if enableScalar then
        {| verification_hash := "0x" ++ getHashSum (JSON_stringify W verificationData);
           data := verificationData |}
      else
        let leaves := dict2Leaves W verificationData in
        {| verification_hash := getHexRoot W (map JStr leaves);
           data := set "leaves" (JArr (map JStr leaves)) verificationData |} in
    t <- getS ;;
    let aqua :=
      {| revisions := set (verification_hash out) (data out) (revisions (aquaObject t));
         file_index := file_index (aquaObject t) |} in
    let t := {| aquaObject := aqua;
                lastRevisionHash := Some (verification_hash out);
                aquaFilename := aquaFilename t |} in
    putS t ;;;
    aqua <- lift_try (maybeUpdateFileIndex aqua out revisionType) ;;
    putS (with_aquaObject t aqua) ;;;
    ret out.

(** The constructor without a file name: a fresh object and its first
    revision. *)
Definition new_AquaTree (timestamp revisionType : string) (enableScalar : bool)
  : outcome AquaTree Out :=
  createNewRevision timestamp revisionType enableScalar
    {| aquaObject := createNewAquaObject;
       lastRevisionHash := Some "";
       aquaFilename := None |}.

(** The body of the last loop of [createRevisionWithMultipleAquaChain],
    for one chain: the file to write and the object to write into it. *)
Definition witnessed_chain (timestamp revisionType : string) (witnessResult : Revision)
  (entry : string * AquaObject) : try (string * AquaObject) :=
  let '(current_file, current_file_aqua_object) := entry in
  let latestRevisionKey := of_option_string (last_key (revisions current_file_aqua_object)) in
  let verificationData :=
    spread [ ("previous_verification_hash", latestRevisionKey);
             ("local_timestamp", JStr timestamp);
             ("revision_type", JStr revisionType) ] witnessResult in
  let leaves := dict2Leaves W verificationData in
  let verificationData := set "leaves" (JArr (map JStr leaves)) verificationData in
  let verificationHash := getHexRoot W (map JStr leaves) in
  let aqua :=
    {| revisions := set verificationHash verificationData
                        (revisions current_file_aqua_object);
       file_index := file_index current_file_aqua_object |} in
  match maybeUpdateFileIndex aqua
          {| verification_hash := verificationHash; data := verificationData |}
          revisionType with
  | Throws e => Throws e
  | Returns aqua =>
      let filePath := current_file ++ ".aqua.json" in
      Returns (filePath, aqua)
  end.

(** [serializeAquaObject]: a write that fails is caught and ends the
    process.  The state is the list of files written so far. *)
Definition serializeAquaObject (aquaFilename : string) (aquaObject : AquaObject)
  : M (list (string * AquaObject)) unit :=
  if writeFileSync W aquaFilename aquaObject then
    written <- getS ;;
    putS (written ++ [(aquaFilename, aquaObject)])%list
  else exit WriteFailed.

(** One turn of the last loop, with [serializeAquaObject] at its end. *)
Definition witness_one_chain (timestamp revisionType : string) (witnessResult : Revision)
  (entry : string * AquaObject) : M (list (string * AquaObject)) unit :=
  file <- lift_try (witnessed_chain timestamp revisionType witnessResult entry) ;;
  serializeAquaObject (fst file) (snd file).

Fixpoint forEachM {S A} (f : A -> M S unit) (xs : list A) : M S unit :=
  match xs with
  | [] => ret tt
  | x :: rest => f x ;;; forEachM f rest
  end.

(** [createRevisionWithMultipleAquaChain]. *)
Definition createRevisionWithMultipleAquaChain (timestamp revisionType : string)
  : M (list (string * AquaObject)) bool :=
  if negb (existsb (Ascii.eqb ","%char) (list_ascii_of_string (filename C)))
  then exit NotCommaSeparated
  else
    let all_aqua_files := split_comma (filename C) in
    all_file_aqua_objects <-
      mapM (fun file => match readAquaFile W (file ++ ".aqua.json") with
                        | FileMissing => exit AquaFileMissing
                        | FileUnparsable => exit AquaFileUnreadable
                        | FileParsed aqua => ret aqua
                        end) all_aqua_files ;;
    let lastRevionHashes :=
      map (fun file => of_option_string (last_key (revisions file)))
          all_file_aqua_objects in
    let merkleRoot := getHexRoot W lastRevionHashes in
    let merkleProofArray := map (getHexProof W lastRevionHashes) lastRevionHashes in
    witnessResult <- prepareWitness (JStr merkleRoot) ;;
    let witnessResult := set "witness_merkle_proof" (JArr lastRevionHashes) witnessResult in
    forEachM (witness_one_chain timestamp revisionType witnessResult)
             (combine all_aqua_files all_file_aqua_objects) ;;;
    ret true.

End WithWorld.

End Notarize.

(* ================================================================= *)
(** ** The specification's side: what a proof path and a Merkle proof are *)

Module Spec.

(** The successor a node must carry for the v1.2 verifier: the hash of
    both leaves, or the other leaf unchanged when one leaf is empty. *)
Definition node_successor (node : MerkleNode) : string :=
  if left_leaf node =? "" then right_leaf node
  else if right_leaf node =? "" then left_leaf node
  else Keccak.sha3_512 (left_leaf node ++ right_leaf node).

(** The successor a node must carry for the legacy verifier: the hash of
    both leaves together, which is empty only when both are. *)
Definition hashed_successor (node : MerkleNode) : string :=
  if left_leaf node ++ right_leaf node =? "" then ""
  else Keccak.sha3_512 (left_leaf node ++ right_leaf node).

(** [proof_path expected h branch]: starting from [h], every node has the
    hash reached so far among its two leaves and carries the successor
    [expected] asks for, which is the hash reached next. *)
Inductive proof_path (expected : MerkleNode -> string)
  : string -> list MerkleNode -> Prop :=
| path_end (h : string) : proof_path expected h []
| path_step (h : string) (node : MerkleNode) (rest : list MerkleNode) :
    left_leaf node = h \/ right_leaf node = h ->
    successor node = expected node ->
    proof_path expected (successor node) rest ->
    proof_path expected h (node :: rest).

(** The hash the loop looks for in a node: the previous successor, which
    is the verification hash when there is none yet. *)
Definition sought (prevSuccessor : option string) (verificationHash : string) : string :=
  match prevSuccessor with Some p => p | None => verificationHash end.

(** The loop both verifiers run, with the successor they calculate left
    open; it is what the two [merkle_loop]s are compared with. *)
Fixpoint path_check (calculate : MerkleNode -> string) (branch : list MerkleNode)
  (verificationHash : string) (prevSuccessor : option string) : bool :=
  match branch with
  | [] => true
  | node :: rest =>
      let wanted :=
        match prevSuccessor with
        | Some p => if JS.truthy p then p else verificationHash
        | None => verificationHash
        end in
      if negb (JS.includes [left_leaf node; right_leaf node] wanted) then false
      else if negb (calculate node =? successor node) then false
      else path_check calculate rest verificationHash (Some (successor node))
  end.

(** The hash a path ends on. *)
Definition final_successor (h : string) (branch : list MerkleNode) : string :=
  fold_left (fun _ node => successor node) branch h.

(** One level of a Merkle tree with SHA3-512 nodes; an odd last node is
    promoted unchanged. *)
Fixpoint next_layer (layer : list string) : list string :=
  match layer with
  | a :: b :: rest => Keccak.sha3_512 (a ++ b) :: next_layer rest
  | _ => layer
  end.

(** The proof for the leaf at [index]: the sibling at each level, from
    the leaves to the root ([levels] bounds the height). *)
Fixpoint merkle_proof (levels : nat) (layer : list string) (index : nat) : list string :=
  match levels with
  | O => []
  | S levels' =>
      if (List.length layer <=? 1)%nat then []
      else
        let sibling := if Nat.even index then nth_error layer (index + 1)
                       else nth_error layer (index - 1) in
        let up := merkle_proof levels' (next_layer layer) (index / 2) in
        match sibling with
        | Some s => s :: up
        | None => up
        end
  end.

End Spec.

(* ================================================================= *)
(** ** Concrete inputs *)

Module Examples.
Import JS.

Definition digest_ab : string := Eval vm_compute in Keccak.sha3_512 "ab".
Definition digest_ab_c : string := Eval vm_compute in Keccak.sha3_512 (digest_ab ++ "c").

(** A two-node branch that is consistent from the hash ["a"] on. *)
Definition branch_ab_c : list MerkleNode :=
  [ {| left_leaf := "a"; right_leaf := "b"; successor := digest_ab |};
    {| left_leaf := digest_ab; right_leaf := "c"; successor := digest_ab_c |} ].

Definition digest_gr : string := Eval vm_compute in V12.getHashSum "gr".

(** A witness whose Merkle root is unrelated to that branch. *)
Definition witness_other_root : V12.RevisionWitness :=
  {| V12.domain_snapshot_genesis_hash := "g";
     V12.merkle_root := "r";
     V12.witness_network := "sepolia";
     V12.witness_event_transaction_hash := "0x01";
     V12.witness_event_verification_hash := digest_gr;
     V12.structured_merkle_proof := branch_ab_c |}.

Definition no_transaction : string -> string -> V12.TxLookup := fun _ _ => V12.TxNull.

Definition parent_hash : string := "c0ffee".
Definition signer_address : string := "0xAbC0000000000000000000000000000000000001".
Definition other_address : string := "0x0000000000000000000000000000000000000002".

(** The EIP-191 digest of ["I sign this revision: [c0ffee]"]. *)
Definition revision_message_digest : string :=
  Eval vm_compute in Ethers.hashMessage ("I sign this revision: [" ++ parent_hash ++ "]").

(** A signer that signed that message: recovery from its digest gives
    the signer, recovery from any other digest gives another address. *)
Definition recover_signed : string -> string -> try string :=
  fun digest signature =>
    if digest =? revision_message_digest then Returns signer_address
    else Returns other_address.

Definition signed_payload : V12.RevisionSignature :=
  {| V12.signature := "0x5157"; V12.wallet_address := signer_address |}.

Definition digest_text : string := Eval vm_compute in V12.getHashSum "text".

Definition signed_revision : V12.Revision :=
  {| V12.rev_content :=
       {| V12.file := None; V12.content := [("main", "text")];
          V12.content_hash := digest_text |};
     V12.rev_metadata :=
       {| V12.domain_id := "d"; V12.time_stamp := "20240101000000";
          V12.previous_verification_hash := Some parent_hash;
          V12.merge_hash := None;
          V12.metadata_hash := "" |};
     V12.rev_signature := Some signed_payload;
     V12.rev_witness := None |}.

(** The EIP-191 digest of the message that v1.2 verifies. *)
Definition page_message_digest : string :=
  Eval vm_compute in
    Ethers.hashMessage
      ("I sign the following page verification_hash: [0x" ++ parent_hash ++ "]").

(** A signer that signed the message that v1.2 verifies. *)
Definition recover_v12 : string -> string -> try string :=
  fun digest signature =>
    if digest =? page_message_digest then Returns signer_address
    else Returns other_address.

Definition no_base64 : string -> string := fun _ => "".

(** A wiki page of two unsigned, unwitnessed revisions.  The stored hash
    of the first one is not the hash of its content and metadata; the
    second one is consistent with the first one's stored hash. *)
Definition two_revisions : string -> Legacy.AllRevsFetch :=
  fun _ => Legacy.FetchRevIds [1%N; 2%N].

Definition any_wikitext : N -> Legacy.BodyFetch :=
  fun _ => Legacy.BodyWikitext "text".

Definition wiki_revision_1 : Legacy.RevisionInfo :=
  {| Legacy.domain_id := "d";
     Legacy.time_stamp := "20210927075124";
     Legacy.verification_hash := "00";
     Legacy.signature := None;
     Legacy.public_key := None;
     Legacy.wallet_address := "";
     Legacy.witness_event_id := None |}.

Definition wiki_hash_2 : string :=
  Eval vm_compute in
    Legacy.calculateVerificationHash
      (Legacy.getHashSum "text")
      (Legacy.calculateMetadataHash "d" "20210927075200" "00")
      (Legacy.calculateSignatureHash "" "") "".

Definition wiki_revision_2 : Legacy.RevisionInfo :=
  {| Legacy.domain_id := "d";
     Legacy.time_stamp := "20210927075200";
     Legacy.verification_hash := wiki_hash_2;
     Legacy.signature := None;
     Legacy.public_key := None;
     Legacy.wallet_address := "";
     Legacy.witness_event_id := None |}.

Definition wiki_server : string -> N -> Legacy.Fetch Legacy.RevisionInfo :=
  fun _ revid =>
    if (revid =? 1)%N then Legacy.Ok wiki_revision_1
    else if (revid =? 2)%N then Legacy.Ok wiki_revision_2
    else Legacy.NotOk "HTTP 404: Not Found".

Definition no_witness_hash : string -> option N -> string := fun _ _ => "".

Definition no_witness : string -> option N -> string -> bool -> bool -> string * string :=
  fun _ _ _ _ _ => ("NO_WITNESS", "").

Definition wiki_detail_1 : Legacy.Detail :=
  Legacy.DetailOf
    {| Legacy.rev_id := 1%N;
       Legacy.verification_status := Some "INVALID";
       Legacy.is_witnessed := None;
       Legacy.is_signed := false;
       Legacy.valid_signature := false;
       Legacy.witness_detail := Some "";
       Legacy.info := wiki_revision_1 |}.

(** Modelled from the spec: [main.dict2Leaves], which [src/] does not
    hold; section 4.A of the specification gives the leaves as
    sha3_512(key || stringify(value)) in key order. *)
Definition leaves_of (revision : Notarize.Revision) : list string :=
  map (fun kv => Notarize.getHashSum (fst kv ++ Notarize.to_key (snd kv))) revision.

(** A stand-in for [JSON.stringify] on a revision. *)
Definition stringify (revision : Notarize.Revision) : string :=
  "{" ++ Notarize.join_comma
           (map (fun kv => fst kv ++ ":" ++ Notarize.to_key (snd kv)) revision)
      ++ "}".

(** The root of the tree of section 4.B over the given leaves. *)
Fixpoint merkle_root (levels : nat) (layer : list string) : string :=
  match levels with
  | O => hd "" layer
  | S levels' =>
      if (List.length layer <=? 1)%nat then hd "" layer
      else merkle_root levels' (Spec.next_layer layer)
  end.

Fixpoint index_of (x : string) (xs : list string) : nat :=
  match xs with
  | [] => 0
  | y :: rest => if x =? y then 0 else S (index_of x rest)
  end.

Definition tip_a : string :=
  "0xaaaaaaaaaaaaaaaaaaaaaaaaaaaaaaaaaaaaaaaaaaaaaaaaaaaaaaaaaaaaaaaaaaaaaaaaaaaaaaaaaaaaaaaaaaaaaaaaaaaaaaaaaaaaaaaaaaaaaaaaaaaaaaaaaaaaaaaa".
Definition tip_b : string :=
  "0xbbbbbbbbbbbbbbbbbbbbbbbbbbbbbbbbbbbbbbbbbbbbbbbbbbbbbbbbbbbbbbbbbbbbbbbbbbbbbbbbbbbbbbbbbbbbbbbbbbbbbbbbbbbbbbbbbbbbbbbbbbbbbbbbbbbbbbbb".

Definition file_revision (file_hash : string) : Notarize.Revision :=
  [ ("previous_verification_hash", Notarize.JStr "");
    ("local_timestamp", Notarize.JStr "20240101000000");
    ("revision_type", Notarize.JStr "file");
    ("file_hash", Notarize.JStr file_hash);
    ("file_nonce", Notarize.JStr "bm9uY2U") ].

Definition digest_a : string := Eval vm_compute in Keccak.sha3_512 "a".
Definition digest_b : string := Eval vm_compute in Keccak.sha3_512 "b".

(** Two chains, each of one file revision. *)
Definition chain_a : Notarize.AquaObject :=
  {| Notarize.revisions :=
       [(tip_a, file_revision digest_a)];
     Notarize.file_index := [(tip_a, Notarize.JStr "a")] |}.

Definition chain_b : Notarize.AquaObject :=
  {| Notarize.revisions :=
       [(tip_b, file_revision digest_b)];
     Notarize.file_index := [(tip_b, Notarize.JStr "b")] |}.

Definition newline : string := String (ascii_of_nat 10) "".

Definition world : Notarize.World :=
  {| Notarize.readFileSync :=
       fun name => if name =? "hello.txt" then Some ("hello" ++ newline) else None;
     Notarize.writeFileSync := fun _ _ => true;
     Notarize.randomNonce := "bm9uY2U";
     Notarize.JSON_parse := fun _ => None;
     Notarize.JSON_stringify := stringify;
     Notarize.dict2Leaves := leaves_of;
     Notarize.getHexRoot :=
       fun leaves =>
         "0x" ++ merkle_root (List.length leaves) (map Notarize.to_key leaves);
     Notarize.getHexProof :=
       fun leaves leaf =>
         Spec.merkle_proof (List.length leaves) (map Notarize.to_key leaves)
           (index_of (Notarize.to_key leaf) (map Notarize.to_key leaves));
     Notarize.getFileHashSum := fun _ => None;
     Notarize.readAquaFile :=
       fun name => if name =? "a.aqua.json" then Notarize.FileParsed chain_a
                   else if name =? "b.aqua.json" then Notarize.FileParsed chain_b
                   else Notarize.FileMissing;
     Notarize.cliWallet := None;
     Notarize.metamaskSign := fun _ => None;
     Notarize.didSign := fun _ => None;
     Notarize.witnessNostr := fun _ => Some ("event-id", "npub", 1700000000%Z);
     Notarize.witnessTsa := fun _ _ => None;
     Notarize.witnessEth := fun _ _ _ => None;
     Notarize.nowSeconds := 1700000000%Z |}.

(** [notarize.js hello.txt]. *)
Definition config_file : Notarize.Config :=
  {| Notarize.filename := "hello.txt";
     Notarize.form_file_name := None;
     Notarize.linkURIs := None;
     Notarize.enableContent := false;
     Notarize.signMethod := None;
     Notarize.witnessMethod := None;
     Notarize.network := None;
     Notarize.witness_platform_type := None |}.

(** [notarize.js a,b --witness nostr]. *)
Definition config_multi : Notarize.Config :=
  {| Notarize.filename := "a,b";
     Notarize.form_file_name := None;
     Notarize.linkURIs := None;
     Notarize.enableContent := false;
     Notarize.signMethod := None;
     Notarize.witnessMethod := Some "nostr";
     Notarize.network := None;
     Notarize.witness_platform_type := None |}.

Definition empty_tree : Notarize.AquaTree :=
  {| Notarize.aquaObject := Notarize.createNewAquaObject;
     Notarize.lastRevisionHash := Some "";
     Notarize.aquaFilename := None |}.

(** The chain of [hello.txt] after its genesis revision, as the next run
    reads it back from [hello.txt.aqua.json]. *)
Definition hello_tree : Notarize.AquaTree :=
  Eval vm_compute in
  match Notarize.new_AquaTree world config_file "20240101000000" "file" true with
  | Notarize.Done t _ =>
      {| Notarize.aquaObject := Notarize.aquaObject t;
         Notarize.lastRevisionHash :=
           Notarize.last_key (Notarize.revisions (Notarize.aquaObject t));
         Notarize.aquaFilename := Some "hello.txt.aqua.json" |}
  | _ => empty_tree
  end.

(** The files that [notarize.js a,b --witness nostr] writes. *)
Definition multi_written : list (string * Notarize.AquaObject) :=
  Eval vm_compute in
  match Notarize.createRevisionWithMultipleAquaChain world config_multi
          "20240103000000" "witness" [] with
  | Notarize.Done written _ => written
  | _ => []
  end.

(** The [witness_merkle_proof] of the last revision of each file a run
    has written. *)
Definition written_proofs (run : Notarize.outcome (list (string * Notarize.AquaObject)) bool)
  : list (option Notarize.jsval) :=
  match run with
  | Notarize.Done written _ =>
      map (fun w => match List.last (map Some (Notarize.revisions (snd w))) None with
                    | Some (_, revision) => get "witness_merkle_proof" revision
                    | None => None
                    end) written
  | _ => []
  end.

Definition one_page : V12.PageData :=
  {| V12.pages := [ {| V12.revisions := [("h1", signed_revision)] |} ] |}.

Definition witnessed_root : string :=
  "a69f73cca23a9ac5c8b567dc185a756e97c982164fe25859e0d1dcc1475c80a615b2123af1f5f94c11e3e9402c3ac558f500199d95b6d3e301758586281dcd26".

End Examples.

(* ================================================================= *)
(** ** [dist/index.js]: the [AquaVerifier] class *)

Module AquaVerifier.
Import JS.

(** [VerificationOptions]; [version] is a JavaScript number. *)
Record VerificationOptions := {
  version : float;
  alchemyKey : string;
  strict : bool;
  allowNull : bool;
  customMessages : obj string
}.

(** The argument of the constructor: [version] and [alchemyKey], and the
    optional fields when the caller gives them. *)
Record GivenOptions := {
  given_version : float;
  given_alchemyKey : string;
  given_strict : option bool;
  given_allowNull : option bool;
  given_customMessages : option (obj string)
}.

(** The default value of the constructor's parameter. *)
Definition defaultOptions : GivenOptions :=
  {| given_version := 0x1.3333333333333p+0%float;
     given_alchemyKey := "";
     given_strict := None;
     given_allowNull := None;
     given_customMessages := None |}.

(** [new AquaVerifier(options)], as the [options] field it sets;
    [None] is a call without an argument. *)
Definition constructor (options : option GivenOptions) : VerificationOptions :=
  let options := match options with Some o => o | None => defaultOptions end in
  {| version := given_version options;
     alchemyKey := given_alchemyKey options;
     strict := match given_strict options with Some b => b | None => false end;
     allowNull := match given_allowNull options with Some b => b | None => false end;
     customMessages := match given_customMessages options with
                       | Some m => m
                       | None => []
                       end |}.

(** [this.options.version == 1.2]. *)
Definition is_1_2 (options : VerificationOptions) : bool :=
  PrimFloat.eqb (version options) 0x1.3333333333333p+0%float.

Section Methods.
Variable getTransaction : string -> string -> V12.TxLookup.
Variable recoverAddress : string -> string -> try string.
Variable base64_decode : string -> string.
Variable options : VerificationOptions.

Definition fetchVerificationOptions : VerificationOptions := options.

(** The methods throw or return; [None] is [null]. *)
Definition verifyRevision (revision : V12.Revision)
  : try (option V12.RevisionVerificationResult) :=
  if alchemyKey options =? "" then Throws "ALCHEMY KEY NOT SET"
  else if is_1_2 options then
    Returns (Some (V12.verifyRevision getTransaction recoverAddress base64_decode
                     revision (alchemyKey options)))
  else Returns None.

Definition verifySignature (signature : V12.RevisionSignature) (previous_hash : string)
  : try (option V12.ResultStatus) :=
  if is_1_2 options then
    Returns (Some (V12.verifySignature recoverAddress signature previous_hash))
  else Returns None.

Definition verifyWitness (witness : V12.RevisionWitness) (verification_hash : string)
  (doVerifyMerkleProof : bool) : try (option V12.ResultStatus) :=
  if alchemyKey options =? "" then Throws "ALCHEMY KEY NOT SET"
  else if is_1_2 options then
    Returns (Some (V12.verifyWitness getTransaction witness verification_hash
                     doVerifyMerkleProof (alchemyKey options)))
  else Returns None.

Definition verifyMerkleTree : try unit := Throws "Unimplmeneted error .... ".

(** [verifyAquaChain] returns the promise of the v1.2 function; the
    inner [try] is how that promise settles. *)
Definition verifyAquaChain (hashChain : V12.HashChain)
  : try (option (try V12.HashChainResult)) :=
  if alchemyKey options =? "" then Throws "ALCHEMY KEY NOT SET"
  else if is_1_2 options then
    Returns (Some (V12.verifyAquaChain getTransaction recoverAddress base64_decode
                     hashChain (alchemyKey options)))
  else Returns None.

End Methods.

End AquaVerifier.

(* ================================================================= *)
(** ** String replacement and slicing *)

Module Text.

(** [s.replace(/c/g, "")] for a one-character pattern. *)
Fixpoint remove_all (c : ascii) (s : string) : string :=
  match s with
  | EmptyString => EmptyString
  | String d rest =>
      if Ascii.eqb d c then remove_all c rest else String d (remove_all c rest)
  end.

(** [s.replace("c", "")]: only the first occurrence goes. *)
Fixpoint remove_first (c : ascii) (s : string) : string :=
  match s with
  | EmptyString => EmptyString
  | String d rest =>
      if Ascii.eqb d c then rest else String d (remove_first c rest)
  end.

(** [s.indexOf("c")]; [None] is [-1]. *)
Fixpoint indexOf (c : ascii) (s : string) : option nat :=
  match s with
  | EmptyString => None
  | String d rest =>
      if Ascii.eqb d c then Some 0
      else match indexOf c rest with
           | Some i => Some (S i)
           | None => None
           end
  end.

(** [s.slice(0, i)] where [i] comes from [indexOf]: [s.slice(0, -1)]
    drops the last character. *)
Definition slice_to (s : string) (i : option nat) : string :=
  match i with
  | Some i => JS.slice s 0 i
  | None => JS.slice s 0 (String.length s - 1)
  end.

(** [s.slice(-n)]. *)
Definition slice_last (s : string) (n : nat) : string :=
  String.substring (String.length s - n) n s.

(** [s.replace(/suffix$/, "")] for a literal suffix. *)
Definition strip_suffix (s suffix : string) : string :=
  if Notarize.endsWith s suffix
  then String.substring 0 (String.length s - String.length suffix) s
  else s.

End Text.

(* ================================================================= *)
(** ** [index.js]: witness lookups and the verification log *)

Module Wiki.
Import JS.

Definition ESC : string := String (ascii_of_nat 27) "".
Definition LF : string := String (ascii_of_nat 10) "".
Definition DQUOTE : string := String (ascii_of_nat 34) "".

Definition Reset : string := ESC ++ "[0m".
Definition FgRed : string := ESC ++ "[31m".
Definition CROSSMARK : string := "❌".
Definition CHECKMARK : string := "✅".
Definition WATCH : string := "⌚".

Definition cliRedify (content : string) : string := FgRed ++ content ++ Reset.

Definition htmlRedify (content : string) : string :=
  "<div style=" ++ DQUOTE ++ "color:Crimson;" ++ DQUOTE ++ ">" ++ content ++ "</div>".

Definition redify (isHtml : bool) (content : string) : string :=
  if isHtml then htmlRedify content else cliRedify content.

Definition formatMwTimestamp (ts : string) : string :=
  Text.remove_first "Z" (Text.remove_first "T" (Text.remove_all ":" (Text.remove_all "-" ts))).

Definition shortenHash (hash : string) : string :=
  slice hash 0 6 ++ "..." ++ Text.slice_last hash 6.

Definition hrefifyHash (hash : string) (newTab : bool) : string :=
  let shortened := shortenHash hash in
  let newTabString := if newTab then " target=" ++ DQUOTE ++ "_blank" ++ DQUOTE else "" in
  "<a href=" ++ DQUOTE ++ hash ++ DQUOTE ++ newTabString ++ ">" ++ shortened ++ "</a>".

(** The JSON of [get_witness_data]. *)
Record WitnessData := {
  domain_manifest_verification_hash : string;
  merkle_root : string;
  witness_network : string;
  witness_event_transaction_hash : string;
  witness_event_verification_hash : string
}.

(** The body of the response: the text that stands for "no witness", or
    the JSON of a witness event. *)
Inductive WitnessText :=
| NoValue
| WitnessJson (witnessData : WitnessData).

Record WitnessResponse := {
  ok : bool;
  text : WitnessText
}.

(** A witness event id inside a template string; [None] is [null]. *)
Definition id_text (witness_event_id : option N) : string :=
  match witness_event_id with
  | Some id => Legacy.decimal id
  | None => "null"
  end.

Section WithServer.
(** [fetch], by URL. *)
Variable fetchWitnessData : string -> WitnessResponse.
Variable fetchMerkleProof : string -> Legacy.Fetch (list MerkleNode).
(** [cES.checkEtherScan(network, transactionHash, verificationHash)]. *)
Variable checkEtherScan : string -> string -> string -> string.

Definition getWitnessHash (apiURL : string) (witness_event_id : option N) : string :=
  match witness_event_id with
  | None => ""
  | Some _ =>
      let witnessResponse :=
        fetchWitnessData (apiURL ++ "/standard/get_witness_data?var1="
                          ++ id_text witness_event_id) in
      match text witnessResponse with
      | WitnessJson witnessData =>
          Legacy.calculateWitnessHash
            (witness_event_verification_hash witnessData)
            (merkle_root witnessData)
            (witness_network witnessData)
            (witness_event_transaction_hash witnessData)
      | NoValue => ""
      end
  end.

Definition verifyWitnessMerkleProof (apiURL : string) (witness_event_id : option N)
  (verificationHash : string) : bool :=
  match fetchMerkleProof (apiURL ++ "/standard/request_merkle_proof?var1="
                          ++ id_text witness_event_id ++ "&var2=" ++ verificationHash) with
  | Legacy.NotOk _ => false
  | Legacy.Ok witnessMerkleProof =>
      if (List.length witnessMerkleProof =? 0)%nat then false
      else Legacy.verifyMerkleIntegrity witnessMerkleProof verificationHash
  end.

(** [verifyWitness]: the status and the log. *)
Definition verifyWitness (apiURL : string) (witness_event_id : option N)
  (verification_hash : string) (doVerifyMerkleProof isHtml : bool) : string * string :=
  let detail := "" in
  let newline := if isHtml then "<br>" else LF in
  let newlineRed := if isHtml then "" else LF in
  let _space2 := if isHtml then "&nbsp&nbsp" else "  " in
  let _space4 := _space2 ++ _space2 in
  let maybeHrefify := fun hash => if isHtml then hrefifyHash hash false else hash in
  let witnessResponse :=
    fetchWitnessData (apiURL ++ "/standard/get_witness_data?var1="
                      ++ id_text witness_event_id) in
  if negb (ok witnessResponse) then ("ERROR", detail)
  else
    match text witnessResponse with
    | NoValue => ("NO_WITNESS", detail)
    | WitnessJson witnessData =>
        let actual_witness_event_verification_hash :=
          Legacy.getHashSum (domain_manifest_verification_hash witnessData
                             ++ merkle_root witnessData) in
        let detail :=
          detail ++ _space2 ++ "Witness event " ++ id_text witness_event_id
                 ++ " detected" in
        let detail :=
          detail ++ newline ++ _space4 ++ "Transaction hash: "
                 ++ witness_event_transaction_hash witnessData in
        let etherScanResult :=
          checkEtherScan (witness_network witnessData)
                         (witness_event_transaction_hash witnessData)
                         actual_witness_event_verification_hash in
        let suffix := witness_network witnessData ++ " via etherscan.io" in
        let detail :=
          if etherScanResult =? "true" then
            detail ++ newline ++ _space4 ++ CHECKMARK ++ WATCH
                   ++ "Witness event verification hash has been verified on " ++ suffix
          else if etherScanResult =? "false" then
            detail ++ redify isHtml
                        (newlineRed ++ _space4 ++ CROSSMARK ++ WATCH
                         ++ "Witness event verification hash does not match on " ++ suffix)
          else
            let detail :=
              detail ++ redify isHtml
                          (newlineRed ++ _space4 ++ CROSSMARK ++ WATCH
                           ++ "Online lookup failed on " ++ suffix) in
            let detail :=
              detail ++ redify isHtml
                          (newlineRed ++ _space4 ++ "Error code: " ++ etherScanResult) in
            detail ++ redify isHtml
                        (newlineRed ++ _space4 ++ "Verify manually: "
                         ++ actual_witness_event_verification_hash) in
        if negb (actual_witness_event_verification_hash
                   =? witness_event_verification_hash witnessData) then
          let detail :=
            detail ++ redify isHtml
                        (newlineRed ++ _space4 ++ CROSSMARK
                         ++ "Witness event verification hash doesn't match") in
          let detail :=
            detail ++ redify isHtml
                        (newlineRed ++ _space4 ++ "Page manifest verification hash: "
                         ++ domain_manifest_verification_hash witnessData) in
          let detail :=
            detail ++ redify isHtml
                        (newlineRed ++ _space4 ++ "Merkle root: "
                         ++ maybeHrefify (merkle_root witnessData)) in
          let detail :=
            detail ++ redify isHtml
                        (newlineRed ++ _space4 ++ "Expected: "
                         ++ maybeHrefify (witness_event_verification_hash witnessData)) in
          let detail :=
            detail ++ redify isHtml
                        (newlineRed ++ _space4 ++ "Actual: "
                         ++ maybeHrefify actual_witness_event_verification_hash) in
          ("INCONSISTENT", detail)
        else if doVerifyMerkleProof then
          if verification_hash =? domain_manifest_verification_hash witnessData then
            ("MATCHES",
             detail ++ newline ++ _space4 ++ CHECKMARK
                    ++ "Domain Manifest; therefore does not require Merkle Proof")
          else
            let merkleProofIsOK :=
              verifyWitnessMerkleProof apiURL witness_event_id verification_hash in
            if merkleProofIsOK then
              ("MATCHES",
               detail ++ newline ++ _space4 ++ CHECKMARK ++ "Witness Merkle Proof is OK")
            else
              ("INCONSISTENT",
               detail ++ newline ++ _space4 ++ CROSSMARK
                      ++ "Witness Merkle Proof is corrupted")
        else ("MATCHES", detail)
    end.

(** [verifyRevision] and [verifyPage] with the two witness functions
    above in place. *)
Variable fetchAllRevs : string -> Legacy.AllRevsFetch.
Variable fetchBody : N -> Legacy.BodyFetch.
Variable fetchVerifyPage : string -> N -> Legacy.Fetch Legacy.RevisionInfo.
Variable recoverAddress : string -> string -> try string.

Definition verifyRevision :=
  Legacy.verifyRevision fetchVerifyPage getWitnessHash verifyWitness recoverAddress.

Definition verifyPage :=
  Legacy.verifyPage fetchAllRevs fetchBody fetchVerifyPage getWitnessHash verifyWitness
                    recoverAddress.

End WithServer.

End Wiki.

(* ================================================================= *)
(** ** [verifier.js]: revision verification of the script *)

Module ScriptVerify.
Import JS.

(** The JSON of [verify_page?var1=<revid>]; [None] is [null]. *)
Record RevisionInfo := {
  time_stamp : string;
  verification_hash : string;
  signature : option string;
  public_key : option string;
  wallet_address : string
}.

(** What [synchronousGet] resolves to: the text ['[]'], or the JSON of a
    revision. *)
Inductive VerifyPageText :=
| NoRecord
| Record_ (obj : RevisionInfo).

Definition formatMwTimestamp (ts : string) : string :=
  Text.remove_first "Z" (Text.remove_first "T" (Text.remove_all ":" (Text.remove_all "-" ts))).

Section WithServer.
Variable synchronousGet : N -> VerifyPageText.
Variable recoverAddress : string -> string -> try string.

(** [verifyRevision]; the previous revision id is [None] while it is
    still [''], and a previous verification hash of [null] prints as
    ["null"].  Parsing ['[]'] for the previous revision gives an array,
    whose [signature] and [public_key] are [undefined]. *)
Definition verifyRevision (revid : N) (prevRevId : option N)
  (previousVerificationHash : option string) (contentHash : string)
  : try (option string * bool) :=
  match synchronousGet revid with
  | NoRecord => Returns (None, false)
  | Record_ obj =>
      let metadataHash :=
        match prevRevId with
        | None =>
            Script.calculateMetadataHash (time_stamp obj)
              (nullish_or previousVerificationHash "null") "" ""
        | Some prevRevId =>
            let '(signature, publicKey) :=
              match synchronousGet prevRevId with
              | NoRecord => ("", "")
              | Record_ objPrevious =>
                  (Legacy.or_empty (signature objPrevious),
                   Legacy.or_empty (public_key objPrevious))
              end in
            Script.calculateMetadataHash (time_stamp obj)
              (nullish_or previousVerificationHash "null") signature publicKey
        end in
      let calculatedVerificationHash :=
        Script.calculateVerificationHash contentHash metadataHash in
      if negb (calculatedVerificationHash =? verification_hash obj) then
        Returns (None, false)
      else
        match signature obj with
        | None | Some EmptyString => Returns (Some (verification_hash obj), true)
        | Some sig =>
            let paddedMessage :=
              "I sign the following page verification_hash: [0x"
              ++ verification_hash obj ++ "]" in
            match recoverAddress (Ethers.hashMessage paddedMessage) sig with
            | Throws e => Throws e
            | Returns recoveredAddress => Returns (Some (verification_hash obj), true)
            end
        end
  end.

End WithServer.

End ScriptVerify.

(* ================================================================= *)
(** ** [notarize.js]: the first revision of a chain *)

Module Genesis.
Import JS Notarize.

Definition formatMwTimestamp (ts : string) : string :=
  Text.remove_first "Z" (Text.remove_first "T" (Text.remove_all ":" (Text.remove_all "-" ts))).

(** The [timestamp] of the main function, from [new Date().toISOString()]. *)
Definition timestamp_of (now : string) : string :=
  formatMwTimestamp (Text.slice_to now (Text.indexOf "." now)).

(** How [createGenesisRevision] ends.  [createNewRevision] is an [async]
    function that the constructor calls without awaiting it: an exception
    inside it rejects its promise and the constructor returns, so the
    object is serialised as the exception left it; [process.exit] inside
    it ends the process at once.  [Serialized] is the call of
    [serializeAquaObject] with its two arguments. *)
Inductive GenesisEnd :=
| FormNameMismatch
| NothingToDelete
| ProcessExit (r : ExitReason)
| Serialized (aquaFilename : string) (aqua : AquaObject) (rejection : option string).

Section WithWorld.
Variable W : World.
Variable C : Config.
(** The module-level flags [enableRemoveRevision] and [enableScalar]. *)
Variable enableRemoveRevision : bool.
Variable enableScalar : bool.

Definition createGenesisRevision (aquaFilename timestamp : string) : GenesisEnd :=
  let is_form := match form_file_name C with
                 | Some name => truthy name
                 | None => false
                 end in
  let revisionType := if is_form then "form" else "file" in
  if andb is_form
          (negb (nullish_or (form_file_name C) ""
                 =? Text.strip_suffix aquaFilename ".aqua.json"))
  then FormNameMismatch
  else if enableRemoveRevision then NothingToDelete
  else
    match new_AquaTree W C timestamp revisionType enableScalar with
    | Done aquaTree _ => Serialized aquaFilename (aquaObject aquaTree) None
    | Throw e aquaTree => Serialized aquaFilename (aquaObject aquaTree) (Some e)
    | Exit r _ => ProcessExit r
    end.

End WithWorld.

End Genesis.

(* ================================================================= *)
(** ** Notions the properties are stated with *)

Module Notions.

(** A string of decimal digits. *)
Definition digits (s : string) : bool :=
  forallb (fun c => andb (48 <=? nat_of_ascii c)%nat (nat_of_ascii c <=? 57)%nat)
          (list_ascii_of_string s).

(** What the legacy [verifyRevision] has established about a revision
    that it answers correct for. *)
Definition verified_detail (detail : Legacy.Detail) : Prop :=
  exists d,
    detail = Legacy.DetailOf d /\
    Legacy.verification_status d = Some Legacy.VERIFIED_VERIFICATION_STATUS /\
    (Legacy.is_signed d = true -> Legacy.valid_signature d = true).

(** What the loop of [verifyPage] carries into its next turn after the
    revisions [verified], each of which verified: the id of the last of
    them, and the verification hash that the server holds for it, which
    is what [verifyRevision] returned.  Before the first revision they
    are [""], here [None], and [""]. *)
Definition previous_id (verified : list N) : option N :=
  List.last (map Some verified) None.

Definition previous_hash (fetchVerifyPage : string -> N -> Legacy.Fetch Legacy.RevisionInfo)
  (apiURL : string) (verified : list N) : option string :=
  match previous_id verified with
  | None => Some ""
  | Some revid =>
      match fetchVerifyPage apiURL revid with
      | Legacy.Ok data => Some (Legacy.verification_hash data)
      | Legacy.NotOk _ => None
      end
  end.

End Notions.

(* ================================================================= *)
(** ** Steps of the builder *)

Module Steps.

(** A step of the builder that leaves the state as it found it, however
    it ends. *)
Definition keeps_state {S A} (m : Notarize.M S A) : Prop :=
  forall s, match m s with
            | Notarize.Done s' _ | Notarize.Exit _ s' | Notarize.Throw _ s' => s' = s
            end.

(** The payload every revision starts from. *)
Definition base_fields (t : Notarize.AquaTree) (timestamp revisionType : string)
  : Notarize.Revision :=
  [ ("previous_verification_hash", Notarize.of_option_string (Notarize.lastRevisionHash t));
    ("local_timestamp", Notarize.JStr timestamp);
    ("revision_type", Notarize.JStr revisionType) ].

End Steps.

(* ================================================================= *)
(** ** The hash chain of a wiki page *)

Module Linked.

Section WithServer.
Variable fetchBody : N -> Legacy.BodyFetch.
Variable fetchVerifyPage : string -> N -> Legacy.Fetch Legacy.RevisionInfo.
Variable getWitnessHash : string -> option N -> string.

(** The verification hash of a revision is the hash of its content, of
    its metadata with the verification hash of the revision before it,
    and of the signature and the witness of the revision before it. *)
Definition linked_revision (apiURL : string) (prevRevId : option N) (revid : N) : Prop :=
  exists content data,
    fetchBody revid = Legacy.BodyWikitext content /\
    fetchVerifyPage apiURL revid = Legacy.Ok data /\
    match prevRevId with
    | None =>
        Legacy.verification_hash data
        = Legacy.calculateVerificationHash (Legacy.getHashSum content)
            (Legacy.calculateMetadataHash (Legacy.domain_id data) (Legacy.time_stamp data) "")
            (Legacy.calculateSignatureHash "" "") ""
    | Some prevRevId =>
        exists dataPrevious,
          fetchVerifyPage apiURL prevRevId = Legacy.Ok dataPrevious /\
          Legacy.verification_hash data
          = Legacy.calculateVerificationHash (Legacy.getHashSum content)
              (Legacy.calculateMetadataHash (Legacy.domain_id data) (Legacy.time_stamp data)
                 (Legacy.verification_hash dataPrevious))
              (Legacy.calculateSignatureHash
                 (Legacy.or_empty (Legacy.signature dataPrevious))
                 (Legacy.or_empty (Legacy.public_key dataPrevious)))
              (getWitnessHash apiURL (Legacy.witness_event_id dataPrevious))
    end.

(** Every revision of the list is linked to the one before it. *)
Fixpoint linked_from (apiURL : string) (prevRevId : option N) (revids : list N) : Prop :=
  match revids with
  | [] => True
  | revid :: rest =>
      linked_revision apiURL prevRevId revid /\ linked_from apiURL (Some revid) rest
  end.

(** What the loop of [verifyPage] knows about the hash it carries. *)
Definition carried_hash (apiURL : string) (prevRevId : option N)
  (previousVerificationHash : option string) : Prop :=
  match prevRevId with
  | None => previousVerificationHash = Some ""
  | Some prevRevId =>
      exists dataPrevious,
        fetchVerifyPage apiURL prevRevId = Legacy.Ok dataPrevious /\
        previousVerificationHash = Some (Legacy.verification_hash dataPrevious)
  end.

End WithServer.

End Linked.

(* ================================================================= *)
(** ** More concrete inputs *)

Module Cases.
Import JS.

(** The signed revision of [Examples], witnessed with a two-node proof. *)
Definition witnessed_revision : V12.Revision :=
  {| V12.rev_content := V12.rev_content Examples.signed_revision;
     V12.rev_metadata := V12.rev_metadata Examples.signed_revision;
     V12.rev_signature := V12.rev_signature Examples.signed_revision;
     V12.rev_witness := Some Examples.witness_other_root |}.

Definition found_transaction : string -> string -> V12.TxLookup :=
  fun _ _ => V12.TxFound ("0x9cef4ea1" ++ Examples.witnessed_root).

(** A provider that is reached at the URL made of the text of
    [Object.prototype.toString] and the key "key", and finds no
    transaction at the URL "undefinedkey". *)
Definition provider_at_inherited_url : string -> string -> V12.TxLookup :=
  fun rpcUrl _ =>
    if rpcUrl =? "function toString() { [native code] }key"
    then V12.TxThrows "could not detect network"
    else if rpcUrl =? "undefinedkey" then V12.TxNull
    else V12.TxFound "".

(** A signed first revision: there is no previous verification hash. *)
Definition first_signed_revision : V12.Revision :=
  {| V12.rev_content := V12.rev_content Examples.signed_revision;
     V12.rev_metadata :=
       {| V12.domain_id := "d"; V12.time_stamp := "20240101000000";
          V12.previous_verification_hash := None;
          V12.merge_hash := None;
          V12.metadata_hash := "" |};
     V12.rev_signature := Some Examples.signed_payload;
     V12.rev_witness := None |}.

(** A revision that verifies: a file whose hash is in the [file_hash]
    slot, content and metadata hashes as computed, no signature and no
    witness. *)
Definition file_digest : string :=
  Eval vm_compute in V12.generateHashFromBase64 Examples.no_base64 "aGVsbG8=".

Definition plain_content_hash : string :=
  Eval vm_compute in V12.getHashSum ("text" ++ file_digest).

Definition plain_metadata_hash : string :=
  Eval vm_compute in
    V12.calculateMetadataHash "d" "20240101000100" Examples.parent_hash "".

Definition plain_revision : V12.Revision :=
  {| V12.rev_content :=
       {| V12.file := Some {| V12.file_data := "aGVsbG8=" |};
          V12.content := [("main", "text"); ("file_hash", file_digest)];
          V12.content_hash := plain_content_hash |};
     V12.rev_metadata :=
       {| V12.domain_id := "d"; V12.time_stamp := "20240101000100";
          V12.previous_verification_hash := Some Examples.parent_hash;
          V12.merge_hash := None;
          V12.metadata_hash := plain_metadata_hash |};
     V12.rev_signature := None;
     V12.rev_witness := None |}.

(** A chain whose first revision fails (it has no file hash) and whose
    second revision verifies. *)
Definition mixed_chain : V12.HashChain :=
  {| V12.revisions := [("h1", Examples.signed_revision); ("h2", plain_revision)] |}.

(** A wiki page of one unsigned revision with a witness event. *)
Definition digest_mr : string := Eval vm_compute in Legacy.getHashSum "mr".

Definition witness_event : Wiki.WitnessData :=
  {| Wiki.domain_manifest_verification_hash := "m";
     Wiki.merkle_root := "r";
     Wiki.witness_network := "sepolia";
     Wiki.witness_event_transaction_hash := "0xabc";
     Wiki.witness_event_verification_hash := digest_mr |}.

Definition witness_server : string -> Wiki.WitnessResponse :=
  fun _ => {| Wiki.ok := true; Wiki.text := Wiki.WitnessJson witness_event |}.

Definition no_proof : string -> Legacy.Fetch (list MerkleNode) :=
  fun _ => Legacy.NotOk "HTTP 404: Not Found".

Definition etherscan_true : string -> string -> string -> string := fun _ _ _ => "true".
Definition etherscan_down : string -> string -> string -> string := fun _ _ _ => "503".

Definition wiki_hash_1 : string :=
  Eval vm_compute in
    Legacy.calculateVerificationHash
      (Legacy.getHashSum "text")
      (Legacy.calculateMetadataHash "d" "20210927075124" "")
      (Legacy.calculateSignatureHash "" "") "".

Definition witnessed_wiki_revision : Legacy.RevisionInfo :=
  {| Legacy.domain_id := "d";
     Legacy.time_stamp := "20210927075124";
     Legacy.verification_hash := wiki_hash_1;
     Legacy.signature := None;
     Legacy.public_key := None;
     Legacy.wallet_address := "";
     Legacy.witness_event_id := Some 7%N |}.

Definition one_revision : string -> Legacy.AllRevsFetch :=
  fun _ => Legacy.FetchRevIds [1%N].

(** A wiki page of three unsigned, unwitnessed revisions.  The first one
    verifies; the stored hash of the second one is not the hash of its
    content and metadata; the third one is consistent with the stored
    hash of the second one. *)
Definition three_revisions : string -> Legacy.AllRevsFetch :=
  fun _ => Legacy.FetchRevIds [1%N; 2%N; 3%N].

Definition first_wiki_revision : Legacy.RevisionInfo :=
  {| Legacy.domain_id := "d";
     Legacy.time_stamp := "20210927075124";
     Legacy.verification_hash := wiki_hash_1;
     Legacy.signature := None;
     Legacy.public_key := None;
     Legacy.wallet_address := "";
     Legacy.witness_event_id := None |}.

Definition broken_second_server : string -> N -> Legacy.Fetch Legacy.RevisionInfo :=
  fun _ revid =>
    if (revid =? 1)%N then Legacy.Ok first_wiki_revision
    else if (revid =? 2)%N then Legacy.Ok Examples.wiki_revision_1
    else if (revid =? 3)%N then Legacy.Ok Examples.wiki_revision_2
    else Legacy.NotOk "HTTP 404: Not Found".

Definition first_wiki_detail : Legacy.Detail :=
  Legacy.DetailOf
    {| Legacy.rev_id := 1%N;
       Legacy.verification_status := Some "VERIFIED";
       Legacy.is_witnessed := Some false;
       Legacy.is_signed := false;
       Legacy.valid_signature := false;
       Legacy.witness_detail := Some "";
       Legacy.info := first_wiki_revision |}.

Definition second_wiki_detail : Legacy.Detail :=
  Legacy.DetailOf
    {| Legacy.rev_id := 2%N;
       Legacy.verification_status := Some "INVALID";
       Legacy.is_witnessed := None;
       Legacy.is_signed := false;
       Legacy.valid_signature := false;
       Legacy.witness_detail := Some "";
       Legacy.info := Examples.wiki_revision_1 |}.

Definition witnessed_wiki_server : string -> N -> Legacy.Fetch Legacy.RevisionInfo :=
  fun _ _ => Legacy.Ok witnessed_wiki_revision.

Definition wiki_api : string := "http://localhost:9352/rest.php/data_accounting/v1".

(** The detail that [verifyRevision] returns for that revision. *)
Definition wiki_revision_detail : Legacy.RevisionDetail :=
  Eval vm_compute in
  match Wiki.verifyRevision witness_server no_proof etherscan_true witnessed_wiki_server
          Examples.recover_v12 wiki_api 1%N None (Some "") (Legacy.getHashSum "text")
          true false with
  | (_, _, Legacy.DetailOf d) => d
  | _ => {| Legacy.rev_id := 0%N;
            Legacy.verification_status := None;
            Legacy.is_witnessed := None;
            Legacy.is_signed := false;
            Legacy.valid_signature := false;
            Legacy.witness_detail := None;
            Legacy.info := witnessed_wiki_revision |}
  end.

(** A server of the script: every revision is signed. *)
Definition script_server : N -> ScriptVerify.VerifyPageText :=
  fun _ =>
    ScriptVerify.Record_
      {| ScriptVerify.time_stamp := "20210927075124";
         ScriptVerify.verification_hash := "00";
         ScriptVerify.signature := Some "0x5157";
         ScriptVerify.public_key := None;
         ScriptVerify.wallet_address := Examples.signer_address |}.

Definition recover_signer : string -> string -> try string :=
  fun _ _ => Returns Examples.signer_address.
Definition recover_other : string -> string -> try string :=
  fun _ _ => Returns Examples.other_address.

(** A wallet of the command line. *)
Definition wallet : Notarize.Wallet :=
  {| Notarize.signMessage := fun message => "signed:" ++ message;
     Notarize.walletAddress := Examples.signer_address;
     Notarize.publicKey := "0x04ab" |}.

Definition form_text : string :=
  "{" ++ Wiki.DQUOTE ++ "name" ++ Wiki.DQUOTE ++ ":" ++ Wiki.DQUOTE ++ "x" ++ Wiki.DQUOTE ++ "}".

(** The world of [Examples], with a wallet, a form file, a file to link
    to, and the chain of [hello.txt] on disk. *)
Definition world : Notarize.World :=
  {| Notarize.readFileSync :=
       fun name => if name =? "form.json" then Some form_text
                   else Notarize.readFileSync Examples.world name;
     Notarize.writeFileSync := Notarize.writeFileSync Examples.world;
     Notarize.randomNonce := Notarize.randomNonce Examples.world;
     Notarize.JSON_parse :=
       fun text => if text =? form_text
                   then Some (Notarize.JObj [("name", Notarize.JStr "x")])
                   else None;
     Notarize.JSON_stringify := Notarize.JSON_stringify Examples.world;
     Notarize.dict2Leaves := Notarize.dict2Leaves Examples.world;
     Notarize.getHexRoot := Notarize.getHexRoot Examples.world;
     Notarize.getHexProof := Notarize.getHexProof Examples.world;
     Notarize.getFileHashSum :=
       fun uri => if uri =? "a" then Some Examples.digest_a else None;
     Notarize.readAquaFile :=
       fun name => if name =? "hello.txt.aqua.json"
                   then Notarize.FileParsed (Notarize.aquaObject Examples.hello_tree)
                   else Notarize.readAquaFile Examples.world name;
     Notarize.cliWallet := Some wallet;
     Notarize.metamaskSign := Notarize.metamaskSign Examples.world;
     Notarize.didSign := Notarize.didSign Examples.world;
     Notarize.witnessNostr := Notarize.witnessNostr Examples.world;
     Notarize.witnessTsa := Notarize.witnessTsa Examples.world;
     Notarize.witnessEth := Notarize.witnessEth Examples.world;
     Notarize.nowSeconds := Notarize.nowSeconds Examples.world |}.

(** The world of [Examples] with a disk on which [b.aqua.json] cannot
    be written. *)
Definition second_write_fails : Notarize.World :=
  {| Notarize.readFileSync := Notarize.readFileSync Examples.world;
     Notarize.writeFileSync := fun path _ => negb (path =? "b.aqua.json");
     Notarize.randomNonce := Notarize.randomNonce Examples.world;
     Notarize.JSON_parse := Notarize.JSON_parse Examples.world;
     Notarize.JSON_stringify := Notarize.JSON_stringify Examples.world;
     Notarize.dict2Leaves := Notarize.dict2Leaves Examples.world;
     Notarize.getHexRoot := Notarize.getHexRoot Examples.world;
     Notarize.getHexProof := Notarize.getHexProof Examples.world;
     Notarize.getFileHashSum := Notarize.getFileHashSum Examples.world;
     Notarize.readAquaFile := Notarize.readAquaFile Examples.world;
     Notarize.cliWallet := Notarize.cliWallet Examples.world;
     Notarize.metamaskSign := Notarize.metamaskSign Examples.world;
     Notarize.didSign := Notarize.didSign Examples.world;
     Notarize.witnessNostr := Notarize.witnessNostr Examples.world;
     Notarize.witnessTsa := Notarize.witnessTsa Examples.world;
     Notarize.witnessEth := Notarize.witnessEth Examples.world;
     Notarize.nowSeconds := Notarize.nowSeconds Examples.world |}.

(** What [notarize.js a,b --witness nostr] has written on that disk when
    the process ends. *)
Definition partly_written : list (string * Notarize.AquaObject) :=
  Eval vm_compute in
  match Notarize.createRevisionWithMultipleAquaChain second_write_fails
          Examples.config_multi "20240103000000" "witness" [] with
  | Notarize.Exit _ written => written
  | _ => []
  end.

Definition config (sign witness link form : option string) (name : string)
  : Notarize.Config :=
  {| Notarize.filename := name;
     Notarize.form_file_name := form;
     Notarize.linkURIs := link;
     Notarize.enableContent := false;
     Notarize.signMethod := sign;
     Notarize.witnessMethod := witness;
     Notarize.network := None;
     Notarize.witness_platform_type := None |}.

(** [notarize.js hello.txt --sign cli] and the like. *)
Definition config_sign_cli : Notarize.Config := config (Some "cli") None None None "hello.txt".
Definition config_sign_ledger : Notarize.Config :=
  config (Some "ledger") None None None "hello.txt".
Definition config_witness : Notarize.Config :=
  config None (Some "nostr") None None "hello.txt".
Definition config_form : Notarize.Config :=
  config None None None (Some "form.json") "form.json".
Definition config_missing : Notarize.Config := config None None None None "missing.txt".

(** The first run of [notarize.js hello.txt], as [createNewRevision]
    leaves the tree and as it answers. *)
Definition hello_run_tree : Notarize.AquaTree :=
  Eval vm_compute in
  match Notarize.createNewRevision world Examples.config_file "20240101000000" "file"
          true Examples.empty_tree with
  | Notarize.Done t _ => t
  | _ => Examples.empty_tree
  end.

Definition hello_run_out : Notarize.Out :=
  Eval vm_compute in
  match Notarize.createNewRevision world Examples.config_file "20240101000000" "file"
          true Examples.empty_tree with
  | Notarize.Done _ out => out
  | _ => {| Notarize.verification_hash := ""; Notarize.data := [] |}
  end.

End Cases.

Module LinkRun.



End LinkRun.

(** Unfolding of the builder's monad in a run. *)
Ltac run_builder :=
  cbv beta iota zeta delta
    [Notarize.bind Notarize.getS Notarize.putS Notarize.ret Notarize.lift_try
     Notarize.exit Notarize.throw Notarize.with_aquaObject].

(* ================================================================= *)
(** * Properties *)

(** ** The hash primitives *)

Example sha3_512_empty :
  Keccak.sha3_512 "" =
  "a69f73cca23a9ac5c8b567dc185a756e97c982164fe25859e0d1dcc1475c80a615b2123af1f5f94c11e3e9402c3ac558f500199d95b6d3e301758586281dcd26".
Proof. vm_compute. reflexivity. Qed.

Example sha3_512_abc :
  Keccak.sha3_512 "abc" =
  "b751850b1a57168a5693cd924b6b096e08f621827444f70d884f5d0240d2712e10e116e9192af3c91a7ec57647e3934057340b4cf408d5a56592f8274eec53f0".
Proof. vm_compute. reflexivity. Qed.

Example keccak256_empty :
  Keccak.keccak256 "" =
  "0xc5d2460186f7233c927e7db2dcc703c0e500b653ca82273b7bfad8045d85a470".
Proof. vm_compute. reflexivity. Qed.

(** Every digest is 128 characters long, whatever the input. *)
Lemma hex_of_state_length (n : nat) (st : Keccak.state) :
  String.length (Keccak.hex_of_state n st) = 2 * n.
Proof.
  unfold Keccak.hex_of_state.
  generalize 0 at 1.
  induction n as [|n IH]; intros start; simpl; [reflexivity|].
  rewrite IH. lia.
Qed.

Lemma sha3_512_length (content : string) :
  String.length (Keccak.sha3_512 content) = 128.
Proof. unfold Keccak.sha3_512. now rewrite hex_of_state_length. Qed.

Lemma sha3_512_nonempty (content : string) : Keccak.sha3_512 content <> "".
Proof.
  intros H. pose proof (sha3_512_length content) as L.
  rewrite H in L. discriminate L.
Qed.


Lemma hex_digit_lower (n : N) :
  In (Keccak.hex_digit n) (list_ascii_of_string "0123456789abcdef").
Proof.
  destruct n as [|p]; [simpl; tauto|].
  do 4 (destruct p as [p|p|]; try (simpl; tauto)).
Qed.

Lemma hex_of_state_lower (n : nat) (st : Keccak.state) (c : ascii) :
  In c (list_ascii_of_string (Keccak.hex_of_state n st)) ->
  In c (list_ascii_of_string "0123456789abcdef").
Proof.
  unfold Keccak.hex_of_state.
  generalize 0 at 1.
  induction n as [|n IH]; intros start; simpl; [tauto|].
  intros [<-|[<-|H]]; try apply hex_digit_lower.
  exact (IH _ H).
Qed.

(** ** [getHashSum] *)

(** C8, as the three definitions have it: [getHashSum] of [index.js] and
    of [dist/index.js] maps the empty string to the empty string and every
    other input to its SHA3-512 digest, 128 lowercase hex digits;
    [getHashSum] of [verifier.js] has no empty-string case and returns the
    digest of every input. *)
Theorem getHashSum_convention :
  (Legacy.getHashSum "" = "" /\ V12.getHashSum "" = "") /\
  (forall content, content <> "" ->
     Legacy.getHashSum content = Keccak.sha3_512 content /\
     V12.getHashSum content = Keccak.sha3_512 content /\
     String.length (V12.getHashSum content) = 128 /\
     forall c, In c (list_ascii_of_string (V12.getHashSum content)) ->
               In c (list_ascii_of_string "0123456789abcdef")) /\
  (forall content, Script.getHashSum content = Keccak.sha3_512 content).
Proof.
  split; [split; reflexivity|]. split; [|reflexivity].
  intros content Hne.
  unfold Legacy.getHashSum, V12.getHashSum.
  destruct (String.eqb_spec content "") as [E|_]; [contradiction|].
  split; [reflexivity|]. split; [reflexivity|].
  split; [apply sha3_512_length|].
  intros c. apply hex_of_state_lower.
Qed.

Lemma getHashSum_convention_witness :
  "abc" <> "" /\
  V12.getHashSum "abc" = Keccak.sha3_512 "abc".
Proof.
  split; [discriminate|].
  apply (proj1 (proj2 getHashSum_convention) "abc"). discriminate.
Defined.

(** C8 as stated fails for [verifier.js]: its [getHashSum] sends the
    empty string to the SHA3-512 digest of the empty input. *)
Lemma script_getHashSum_empty_counterexample :
  Script.getHashSum "" =
  "a69f73cca23a9ac5c8b567dc185a756e97c982164fe25859e0d1dcc1475c80a615b2123af1f5f94c11e3e9402c3ac558f500199d95b6d3e301758586281dcd26"
  /\ Script.getHashSum "" <> "".
Proof. split; [vm_compute; reflexivity | apply sha3_512_nonempty]. Qed.

(** ** [checkTransaction] *)

Lemma rpcUrl_truthy (network alchemyKey : string) :
  JS.truthy (JS.nullish_or (JS.lookup network V12.networkRpcMap) "undefined" ++ alchemyKey)
  = true.
Proof.
  unfold JS.lookup, V12.networkRpcMap, JS.Object_prototype; simpl.
  repeat match goal with
         | |- context [if ?b then _ else _] => destruct b
         end; reflexivity.
Qed.

(** C6: once the transaction is fetched, input data that does not start
    with the selector 0x9cef4ea1 is rejected whatever follows; input data
    that starts with it is accepted exactly when its next 128 characters
    equal the expected hash, letter case apart. *)
Theorem checkTransaction_selector
  (getTransaction : string -> string -> V12.TxLookup)
  (network txHash expected alchemyKey inputData : string) :
  getTransaction
    (JS.nullish_or (JS.lookup network V12.networkRpcMap) "undefined" ++ alchemyKey) txHash
  = V12.TxFound inputData ->
  let r := V12.checkTransaction getTransaction network txHash expected alchemyKey in
  (JS.startsWith inputData "0x9cef4ea1" = false ->
     V12.successful r = false /\ V12.verificationHashMatches r = false /\
     V12.message r = "Transaction data does not contain expected function selector") /\
  (JS.startsWith inputData "0x9cef4ea1" = true ->
     (V12.successful r = true <->
      JS.toLowerCase (JS.slice inputData 10 138) = JS.toLowerCase expected)).
Proof.
  intros Hfetch r. subst r. unfold V12.checkTransaction.
  rewrite rpcUrl_truthy. cbn [negb]. rewrite Hfetch.
  unfold V12.functionSelector.
  split; intros Hsel; rewrite Hsel; cbn.
  - repeat split.
  - change (10 + 128) with 138. apply String.eqb_eq.
Qed.

Lemma checkTransaction_selector_witness :
  V12.successful
    (V12.checkTransaction (fun _ _ => V12.TxFound ("0x9cef4ea1" ++ Examples.witnessed_root))
       "sepolia" "0x01" (JS.toLowerCase Examples.witnessed_root) "key") = true.
Proof.
  apply (proj2 (checkTransaction_selector
                  (fun _ _ => V12.TxFound ("0x9cef4ea1" ++ Examples.witnessed_root))
                  "sepolia" "0x01" (JS.toLowerCase Examples.witnessed_root) "key"
                  ("0x9cef4ea1" ++ Examples.witnessed_root) eq_refl)).
  - reflexivity.
  - vm_compute. reflexivity.
Defined.

(** ** [verifySignatureUtil] *)

(** C9: with an empty verification hash [verifySignatureUtil] answers
    unsuccessful, "Verification hash must not be empty", and makes no call
    to address recovery; it is the only case in which it makes none. *)
Theorem empty_verification_hash_rejected :
  (forall recoverAddress data,
     V12.verifySignatureUtil recoverAddress data ""
     = ((false, "Verification hash must not be empty"), [])) /\
  (forall recoverAddress data verificationHash,
     snd (V12.verifySignatureUtil recoverAddress data verificationHash) = []
     <-> verificationHash = "").
Proof.
  split; [reflexivity|].
  intros recoverAddress data verificationHash.
  unfold V12.verifySignatureUtil.
  destruct (String.eqb_spec verificationHash "") as [E|NE].
  - simpl. tauto.
  - destruct (recoverAddress _ _); simpl; split; intros H;
      [discriminate | contradiction | discriminate | contradiction].
Qed.

(** A signature over the genesis revision has an empty (or null) previous
    hash, so its sub-result is the one above. *)
Lemma genesis_signature_rejected getTransaction recoverAddress base64_decode
  (revision : V12.Revision) (sig : V12.RevisionSignature) (alchemyKey : string) :
  V12.rev_signature revision = Some sig ->
  JS.nullish_or (V12.previous_verification_hash (V12.rev_metadata revision)) "" = "" ->
  V12.signature_verification
    (V12.verifyRevision getTransaction recoverAddress base64_decode revision alchemyKey)
  = {| V12.status := V12.AVAILABLE; V12.res_successful := false;
       V12.res_message := "Verification hash must not be empty" |}.
Proof.
  intros Hsig Hprev. unfold V12.verifyRevision.
  destruct (V12.verifyFileUtil _ _) as [fileIsCorrect fileOut].
  cbn [V12.signature_verification]. rewrite Hsig, Hprev. reflexivity.
Qed.

Lemma verifySignatureUtil_ok recoverAddress data verificationHash :
  fst (fst (V12.verifySignatureUtil recoverAddress data verificationHash)) = true <->
  verificationHash <> "" /\
  exists recovered,
    recoverAddress
      (Ethers.hashMessage
         ("I sign the following page verification_hash: [0x" ++ verificationHash ++ "]"))
      (V12.signature data) = JS.Returns recovered /\
    JS.toLowerCase recovered = JS.toLowerCase (V12.wallet_address data).
Proof.
  unfold V12.verifySignatureUtil.
  destruct (String.eqb_spec verificationHash "") as [E|NE].
  - simpl. split; [discriminate | intros [H _]; contradiction].
  - destruct (recoverAddress _ _) as [recovered|e]; simpl.
    + rewrite String.eqb_eq. split.
      * intros H. split; [assumption|]. exists recovered. split; [reflexivity|assumption].
      * intros [_ [r [Hr Hl]]]. injection Hr as <-. assumption.
    + split; [discriminate|]. intros [_ [r [Hr _]]]. discriminate Hr.
Qed.

(** The legacy [verifyRevision] marks a signature valid only after
    recovery from the digest of the same message, over the revision's own
    verification hash. *)
Lemma legacy_valid_signature fetchVerifyPage getWitnessHash verifyWitness recoverAddress
  (apiURL : string) (revid : N) (prevRevId : option N)
  (previousVerificationHash : option string) (contentHash : string)
  (isHtml doVerifyMerkleProof : bool)
  (verificationHash : option string) (isCorrect : bool) (d : Legacy.RevisionDetail) :
  Legacy.verifyRevision fetchVerifyPage getWitnessHash verifyWitness recoverAddress
    apiURL revid prevRevId previousVerificationHash contentHash isHtml
    doVerifyMerkleProof
  = (verificationHash, isCorrect, Legacy.DetailOf d) ->
  Legacy.valid_signature d = true ->
  exists sig recovered,
    Legacy.signature (Legacy.info d) = Some sig /\
    recoverAddress
      (Ethers.hashMessage
         ("I sign the following page verification_hash: [0x"
          ++ Legacy.verification_hash (Legacy.info d) ++ "]")) sig
    = JS.Returns recovered /\
    JS.toLowerCase recovered = JS.toLowerCase (Legacy.wallet_address (Legacy.info d)).
Proof.
  unfold Legacy.verifyRevision.
  destruct (fetchVerifyPage apiURL revid) as [e|data]; [discriminate|].
  destruct prevRevId as [prev|].
  - destruct (fetchVerifyPage apiURL prev) as [e|dataPrevious]; [discriminate|].
    destruct (verifyWitness _ _ _ _ _) as [witnessStatus witness_detail].
    destruct (negb _).
    + intros H. injection H as _ _ <-. discriminate.
    + destruct (Legacy.signature data) as [[|c sig]|] eqn:Hsig;
        intros H; injection H as _ _ <-; cbn; try discriminate.
      destruct (recoverAddress _ _) as [recovered|e] eqn:Hrec; [|discriminate].
      intros Hok. apply String.eqb_eq in Hok.
      exists (String c sig), recovered. now rewrite Hsig.
  - destruct (verifyWitness _ _ _ _ _) as [witnessStatus witness_detail].
    destruct (negb _).
    + intros H. injection H as _ _ <-. discriminate.
    + destruct (Legacy.signature data) as [[|c sig]|] eqn:Hsig;
        intros H; injection H as _ _ <-; cbn; try discriminate.
      destruct (recoverAddress _ _) as [recovered|e] eqn:Hrec; [|discriminate].
      intros Hok. apply String.eqb_eq in Hok.
      exists (String c sig), recovered. now rewrite Hsig.
Qed.

(** C5, as the code has it: the signature sub-result of [verifyRevision]
    is available and successful exactly when the previous verification
    hash is not empty and EIP-191 recovery from the digest of
    "I sign the following page verification_hash: [0x" || hash || "]"
    returns the wallet address, letter case apart; the builder's [doSign]
    has the wallet sign "I sign this revision: [" || hash || "]". *)
Theorem signature_subresult getTransaction recoverAddress base64_decode
  (revision : V12.Revision) (sig : V12.RevisionSignature) (alchemyKey : string) :
  V12.rev_signature revision = Some sig ->
  let previous :=
    JS.nullish_or (V12.previous_verification_hash (V12.rev_metadata revision)) "" in
  let r := V12.signature_verification
             (V12.verifyRevision getTransaction recoverAddress base64_decode
                                 revision alchemyKey) in
  V12.status r = V12.AVAILABLE /\
  (V12.res_successful r = true <->
   previous <> "" /\
   exists recovered,
     recoverAddress
       (Ethers.hashMessage
          ("I sign the following page verification_hash: [0x" ++ previous ++ "]"))
       (V12.signature sig) = JS.Returns recovered /\
     JS.toLowerCase recovered = JS.toLowerCase (V12.wallet_address sig)) /\
  (forall wallet verificationHash,
     Notarize.doSign wallet verificationHash
     = Notarize.signMessage wallet ("I sign this revision: [" ++ verificationHash ++ "]")).
Proof.
  intros Hsig previous r. subst r previous. unfold V12.verifyRevision.
  destruct (V12.verifyFileUtil _ _) as [fileIsCorrect fileOut].
  cbn [V12.signature_verification]. rewrite Hsig.
  split; [reflexivity|]. split; [|reflexivity].
  cbn [V12.available V12.res_successful]. apply verifySignatureUtil_ok.
Qed.

Lemma signature_subresult_witness :
  V12.res_successful
    (V12.signature_verification
       (V12.verifyRevision Examples.no_transaction Examples.recover_v12 Examples.no_base64
                           Examples.signed_revision "key")) = true.
Proof.
  apply (proj1 (proj2 (signature_subresult Examples.no_transaction Examples.recover_v12
                         Examples.no_base64 Examples.signed_revision
                         Examples.signed_payload "key" eq_refl))).
  split; [discriminate|].
  exists Examples.signer_address. split; vm_compute; reflexivity.
Defined.

(** C5 as stated fails: a signature that recovers to the wallet address
    from the digest of "I sign this revision: [c0ffee]" does not pass,
    because the verifier hashes another message. *)
Lemma signature_message_counterexample :
  Examples.recover_signed
    (Ethers.hashMessage ("I sign this revision: [" ++ Examples.parent_hash ++ "]"))
    (V12.signature Examples.signed_payload) = JS.Returns Examples.signer_address /\
  JS.toLowerCase Examples.signer_address
  = JS.toLowerCase (V12.wallet_address Examples.signed_payload) /\
  V12.previous_verification_hash (V12.rev_metadata Examples.signed_revision)
  = Some Examples.parent_hash /\
  V12.res_successful
    (V12.signature_verification
       (V12.verifyRevision Examples.no_transaction Examples.recover_signed
          Examples.no_base64 Examples.signed_revision "key")) = false.
Proof.
  split; [vm_compute; reflexivity|]. split; [vm_compute; reflexivity|].
  split; vm_compute; reflexivity.
Qed.

(** ** [verifyMerkleIntegrity] *)

Lemma includes_pair (l r h : string) :
  JS.includes [l; r] h = true <-> l = h \/ r = h.
Proof.
  unfold JS.includes; simpl.
  rewrite !Bool.orb_true_iff, !String.eqb_eq.
  split.
  - intros [H|[H|H]]; [left; now symmetry | right; now symmetry | discriminate].
  - intros [H|H]; [left | right; left]; now symmetry.
Qed.

Lemma getHashSum_append (l r : string) :
  l <> "" -> V12.getHashSum (l ++ r) = Keccak.sha3_512 (l ++ r).
Proof.
  intros Hl. unfold V12.getHashSum.
  destruct (String.eqb_spec (l ++ r) "") as [E|_]; [|reflexivity].
  destruct l; [contradiction | discriminate E].
Qed.

(** The successor the v1.2 loop calculates is the one the specification
    names. *)
Lemma calculatedSuccessor_spec (node : MerkleNode) :
  (if negb (JS.truthy (left_leaf node)) then right_leaf node
   else if negb (JS.truthy (right_leaf node)) then left_leaf node
   else V12.getHashSum (left_leaf node ++ right_leaf node))
  = Spec.node_successor node.
Proof.
  unfold Spec.node_successor, JS.truthy. rewrite !Bool.negb_involutive.
  destruct (String.eqb_spec (left_leaf node) "") as [El|NEl]; [reflexivity|].
  destruct (String.eqb_spec (right_leaf node) "") as [Er|NEr]; [reflexivity|].
  now apply getHashSum_append.
Qed.

Lemma v12_loop_path_check (branch : list MerkleNode) (verificationHash : string) :
  forall prevSuccessor,
    V12.merkle_loop branch verificationHash prevSuccessor
    = Spec.path_check Spec.node_successor branch verificationHash prevSuccessor.
Proof.
  induction branch as [|node rest IH]; intros prev;
    cbn [V12.merkle_loop Spec.path_check]; [reflexivity|].
  rewrite calculatedSuccessor_spec, IH.
  destruct prev as [p|]; [destruct (JS.truthy p)|]; reflexivity.
Qed.

Lemma legacy_loop_path_check (branch : list MerkleNode) (verificationHash : string) :
  forall prevSuccessor,
    Legacy.merkle_loop branch verificationHash prevSuccessor
    = Spec.path_check Spec.hashed_successor branch verificationHash prevSuccessor.
Proof.
  induction branch as [|node rest IH]; intros prev;
    cbn [Legacy.merkle_loop Spec.path_check]; [reflexivity|].
  rewrite IH. change (Legacy.getHashSum (left_leaf node ++ right_leaf node))
    with (Spec.hashed_successor node).
  destruct prev as [p|]; [destruct (JS.truthy p)|]; reflexivity.
Qed.

(** A node whose leaves hold [h] and whose due successor is empty can
    only come after the empty hash. *)
Lemma node_successor_start (node : MerkleNode) (h : string) :
  left_leaf node = h \/ right_leaf node = h ->
  Spec.node_successor node = "" -> h = "".
Proof.
  unfold Spec.node_successor. intros Hin.
  destruct (String.eqb_spec (left_leaf node) "") as [El|NEl].
  - intros Er. destruct Hin as [H|H]; congruence.
  - destruct (String.eqb_spec (right_leaf node) "") as [Er|NEr].
    + intros E. contradiction.
    + intros E. exfalso. exact (sha3_512_nonempty _ E).
Qed.

Lemma hashed_successor_start (node : MerkleNode) (h : string) :
  left_leaf node = h \/ right_leaf node = h ->
  Spec.hashed_successor node = "" -> h = "".
Proof.
  unfold Spec.hashed_successor. intros Hin.
  destruct (String.eqb_spec (left_leaf node ++ right_leaf node) "") as [E|NE].
  - intros _. destruct (left_leaf node) as [|c l]; [|discriminate E].
    simpl in E. destruct Hin as [H|H]; congruence.
  - intros E. exfalso. exact (sha3_512_nonempty _ E).
Qed.

Section PathCheck.
Variable calculate : MerkleNode -> string.
Hypothesis calculate_start :
  forall node h, left_leaf node = h \/ right_leaf node = h ->
                 calculate node = "" -> h = "".

(** The loop follows a proof path.  The previous successor is looked for
    only when it is truthy; an empty one can only follow an empty
    verification hash, which is then what the loop looks for. *)
Lemma path_check_iff (branch : list MerkleNode) (verificationHash : string) :
  forall prevSuccessor,
    (forall p, prevSuccessor = Some p -> p <> "" \/ verificationHash = "") ->
    Spec.path_check calculate branch verificationHash prevSuccessor = true
    <-> Spec.proof_path calculate (Spec.sought prevSuccessor verificationHash) branch.
Proof.
  induction branch as [|node rest IH]; intros prev Hinv.
  - simpl. split; [intros _; constructor | reflexivity].
  - cbn [Spec.path_check].
    assert (Hwanted :
      match prev with
      | Some p => if JS.truthy p then p else verificationHash
      | None => verificationHash
      end = Spec.sought prev verificationHash).
    { destruct prev as [p|]; [|reflexivity]. simpl. unfold JS.truthy.
      destruct (String.eqb_spec p "") as [E|NE]; [|reflexivity]. simpl.
      destruct (Hinv p eq_refl) as [H|H]; [contradiction | congruence]. }
    rewrite Hwanted. clear Hwanted.
    destruct (JS.includes _ _) eqn:Hinc; cbn [negb].
    + apply includes_pair in Hinc.
      destruct (String.eqb_spec (calculate node) (successor node)) as [Es|NEs];
        cbn [negb].
      * rewrite IH.
        -- simpl. split.
           ++ intros Hp. constructor; [assumption | now symmetry | assumption].
           ++ intros Hp. inversion Hp as [|h node' rest' Hin Hs Hrest]; subst.
              assumption.
        -- intros p Hp. injection Hp as <-.
           destruct (String.eqb_spec (successor node) "") as [E|NE];
             [right | left; assumption].
           rewrite <- Es in E.
           pose proof (calculate_start node _ Hinc E) as Hs.
           destruct prev as [q|]; simpl in Hs; [|assumption].
           destruct (Hinv q eq_refl) as [H|H]; [contradiction | assumption].
      * split; [discriminate|]. intros Hp.
        inversion Hp as [|h node' rest' Hin Hs Hrest]; subst.
        exfalso. apply NEs. now symmetry.
    + split; [discriminate|]. intros Hp.
      inversion Hp as [|h node' rest' Hin Hs Hrest]; subst.
      apply includes_pair in Hin. congruence.
Qed.

End PathCheck.

(** C1, as the code has it: [verifyMerkleIntegrity] of [dist/index.js]
    accepts a branch exactly when the branch is not empty and, starting
    from the revision's hash, each node has the previous successor (at
    step 0 the revision's hash) among its two leaves and each node's
    successor is sha3_512(left || right), or the other leaf unchanged when
    one leaf is empty.  The legacy one of [index.js] accepts exactly the
    paths, the empty one included, whose successors are
    getHashSum(left || right).  Neither asks anything of the final
    successor. *)
Theorem verifyMerkleIntegrity_accepts_iff
  (merkleBranch : list MerkleNode) (verificationHash : string) :
  (V12.verifyMerkleIntegrity merkleBranch verificationHash = true
   <-> merkleBranch <> [] /\
       Spec.proof_path Spec.node_successor verificationHash merkleBranch) /\
  (Legacy.verifyMerkleIntegrity merkleBranch verificationHash = true
   <-> Spec.proof_path Spec.hashed_successor verificationHash merkleBranch).
Proof.
  split.
  - unfold V12.verifyMerkleIntegrity.
    destruct merkleBranch as [|node rest].
    + simpl. split; [discriminate | intros [H _]; contradiction].
    + change (List.length (node :: rest) =? 0)%nat with false. cbv iota.
      rewrite v12_loop_path_check.
      rewrite (path_check_iff _ node_successor_start (node :: rest)
                              verificationHash None); [|discriminate].
      simpl. split; [intros H; split; [discriminate | assumption] | tauto].
  - unfold Legacy.verifyMerkleIntegrity. rewrite legacy_loop_path_check.
    now rewrite (path_check_iff _ hashed_successor_start merkleBranch
                                verificationHash None).
Qed.

(** With a proof of more than one node, witness verification accepts on
    the hash check and the proof path alone. *)
Lemma verifyWitnessUtil_with_proof getTransaction
  (witnessData : V12.RevisionWitness) (verification_hash alchemyKey : string) :
  fst (V12.verifyWitnessUtil getTransaction witnessData verification_hash true alchemyKey)
  = true
  <-> V12.getHashSum (V12.domain_snapshot_genesis_hash witnessData
                      ++ V12.merkle_root witnessData)
      = V12.witness_event_verification_hash witnessData /\
      (verification_hash = V12.domain_snapshot_genesis_hash witnessData \/
       V12.verifyMerkleIntegrity (V12.structured_merkle_proof witnessData)
                                 verification_hash = true).
Proof.
  unfold V12.verifyWitnessUtil.
  destruct (String.eqb_spec
              (V12.getHashSum (V12.domain_snapshot_genesis_hash witnessData
                               ++ V12.merkle_root witnessData))
              (V12.witness_event_verification_hash witnessData)) as [E|NE]; cbn [negb].
  - destruct (String.eqb_spec verification_hash
                (V12.domain_snapshot_genesis_hash witnessData)) as [Eg|NEg]; simpl.
    + tauto.
    + split; [tauto|]. intros [_ [H|H]]; [contradiction | assumption].
  - simpl. split; [discriminate | intros [H _]; contradiction].
Qed.

(** C1 as stated fails: a two-node proof that is consistent from the
    revision's hash on is accepted, and the witness check with it, though
    its final successor is not the witness Merkle root. *)
Lemma merkle_root_unchecked_counterexample :
  (List.length Examples.branch_ab_c > 1)%nat /\
  V12.verifyMerkleIntegrity Examples.branch_ab_c "a" = true /\
  Spec.final_successor "a" Examples.branch_ab_c
  <> V12.merkle_root Examples.witness_other_root /\
  V12.verifyWitnessUtil Examples.no_transaction Examples.witness_other_root "a"
    (1 <? List.length (V12.structured_merkle_proof Examples.witness_other_root))%nat "key"
  = (true, "Merkle proof is OK").
Proof.
  split; [vm_compute; lia|]. split; [vm_compute; reflexivity|].
  split; [vm_compute; discriminate | vm_compute; reflexivity].
Qed.

(** ** [getTimestampDirect] and [getTimestampSafe] *)

(** C10: when the pages list is not empty and its first page has a
    revision, both functions return that page's first revision's
    timestamp; when the pages list is empty [getTimestampDirect] returns
    [undefined]. *)
Theorem getTimestamp_agree (pageData : V12.PageData) :
  (forall firstPage,
     hd_error (V12.pages pageData) = Some firstPage ->
     V12.revisions firstPage <> [] ->
     V12.getTimestampDirect pageData = V12.getTimestampSafe pageData /\
     exists revision,
       hd_error (JS.values (V12.revisions firstPage)) = Some revision /\
       V12.getTimestampDirect pageData
       = JS.Returns (Some (V12.time_stamp (V12.rev_metadata revision)))) /\
  (V12.pages pageData = [] -> V12.getTimestampDirect pageData = JS.Returns None).
Proof.
  unfold V12.getTimestampDirect, V12.getTimestampSafe.
  destruct (V12.pages pageData) as [|page rest].
  - split; [intros firstPage H; discriminate H | reflexivity].
  - split; [|discriminate]. intros firstPage Hhd Hne.
    injection Hhd as <-. simpl.
    destruct (V12.revisions page) as [|[k revision] revs]; [contradiction|].
    simpl. rewrite String.eqb_refl.
    split; [reflexivity|]. exists revision. split; reflexivity.
Qed.

Lemma getTimestamp_agree_witness :
  V12.getTimestampDirect Examples.one_page = V12.getTimestampSafe Examples.one_page /\
  V12.getTimestampDirect {| V12.pages := [] |} = JS.Returns None.
Proof.
  split.
  - apply (proj1 (getTimestamp_agree Examples.one_page) _ eq_refl). discriminate.
  - apply (proj2 (getTimestamp_agree {| V12.pages := [] |})). reflexivity.
Defined.

(** ** Chain verification *)

Lemma get_in_middle {V} (pre suf : JS.obj V) (k : string) (v : V) :
  NoDup (JS.keys (pre ++ (k, v) :: suf)%list) ->
  JS.get k (pre ++ (k, v) :: suf)%list = Some v.
Proof.
  induction pre as [|[k' v'] pre IH]; simpl; intros Hnd.
  - now rewrite String.eqb_refl.
  - inversion Hnd as [|x xs Hnotin Hnd']; subst.
    destruct (String.eqb_spec k k') as [E|NE].
    + exfalso. apply Hnotin. subst k'. unfold JS.keys.
      rewrite map_app. apply in_or_app. right. simpl. now left.
    + now apply IH.
Qed.

Lemma verifyAquaChain_loop_all getTransaction recoverAddress base64_decode
  (alchemyKey : string) (suf : JS.obj V12.Revision) :
  forall (pre : JS.obj V12.Revision) (results : list V12.RevisionVerificationResult),
    NoDup (JS.keys (pre ++ suf)%list) ->
    V12.verifyAquaChain_loop getTransaction recoverAddress base64_decode
      (pre ++ suf)%list (JS.keys suf) alchemyKey results
    = JS.Returns
        (results ++
         map (fun revision =>
                V12.verifyRevision getTransaction recoverAddress base64_decode
                                   revision alchemyKey)
             (JS.values suf))%list.
Proof.
  induction suf as [|[k v] suf IH]; intros pre results Hnd.
  - simpl. now rewrite app_nil_r.
  - cbn [JS.keys JS.values map fst snd V12.verifyAquaChain_loop].
    rewrite (get_in_middle pre suf k v Hnd).
    change (pre ++ (k, v) :: suf)%list with (pre ++ [(k, v)] ++ suf)%list.
    rewrite app_assoc. rewrite (IH (pre ++ [(k, v)])%list).
    + now rewrite <- app_assoc.
    + now rewrite <- app_assoc.
Qed.

Lemma chain_successful_loop_forallb (results : list V12.RevisionVerificationResult) :
  V12.chain_successful_loop results = forallb V12.rev_successful results.
Proof.
  induction results as [|r rest IH]; simpl; [reflexivity|].
  destruct (V12.rev_successful r); simpl; [assumption | reflexivity].
Qed.

(** The hash that the legacy [verifyRevision] hands to the next turn of
    the loop, when it answers correct, is the one the server holds. *)
Lemma verifyRevision_correct_hash
  fetchVerifyPage getWitnessHash verifyWitness recoverAddress
  (apiURL : string) (revid : N) (prevRevId : option N)
  (previousVerificationHash : option string) (contentHash : string)
  (isHtml doVerifyMerkleProof : bool)
  (verificationHash : option string) (detail : Legacy.Detail) :
  Legacy.verifyRevision fetchVerifyPage getWitnessHash verifyWitness recoverAddress
    apiURL revid prevRevId previousVerificationHash contentHash isHtml
    doVerifyMerkleProof
  = (verificationHash, true, detail) ->
  exists data,
    fetchVerifyPage apiURL revid = Legacy.Ok data /\
    verificationHash = Some (Legacy.verification_hash data).
Proof.
  unfold Legacy.verifyRevision.
  destruct (fetchVerifyPage apiURL revid) as [e|data]; [discriminate|].
  destruct (match prevRevId with Some _ => _ | None => _ end)
    as [e|[[prevSignature prevPublicKey] prevWitnessHash]]; [discriminate|].
  destruct (verifyWitness _ _ _ _ _) as [witnessStatus witness_detail].
  destruct (negb _); [discriminate|].
  intros H. exists data. split; [reflexivity|].
  destruct (Legacy.signature data) as [[|c sig]|];
    exact (eq_sym (f_equal (fun r => fst (fst r)) H)).
Qed.

Lemma last_cons_default {A} (x : A) (xs : list A) (d d' : A) :
  List.last (x :: xs) d = List.last (x :: xs) d'.
Proof.
  revert x. induction xs as [|y ys IH]; intros x; [reflexivity|].
  change (List.last (y :: ys) d = List.last (y :: ys) d'). apply IH.
Qed.

Section LegacyPrefix.
Variable fetchBody : N -> Legacy.BodyFetch.
Variable fetchVerifyPage : string -> N -> Legacy.Fetch Legacy.RevisionInfo.
Variable getWitnessHash : string -> option N -> string.
Variable verifyWitness : string -> option N -> string -> bool -> bool -> string * string.
Variable recoverAddress : string -> string -> JS.try string.

(** A loop that runs through the revisions [verified] has added one
    detail for each of them, and goes on with what follows them from the
    last id and the hash of the last of them. *)
Lemma verifyPage_loop_after (apiURL : string) (doLog doVerifyMerkleProof : bool)
  (verified : list N) :
  forall (previousVerificationHash : option string) (previousRevId : option N)
         (count : nat) (revision_details : list Legacy.Detail)
         (count' : nat) (revision_details' : list Legacy.Detail),
    Legacy.verifyPage_loop fetchBody fetchVerifyPage getWitnessHash verifyWitness
      recoverAddress apiURL doLog doVerifyMerkleProof verified
      previousVerificationHash previousRevId count revision_details
    = JS.Returns (Legacy.Exhausted count' revision_details') ->
    List.length revision_details'
    = (List.length revision_details + List.length verified)%nat /\
    forall later : list N,
      Legacy.verifyPage_loop fetchBody fetchVerifyPage getWitnessHash verifyWitness
        recoverAddress apiURL doLog doVerifyMerkleProof (verified ++ later)%list
        previousVerificationHash previousRevId count revision_details
      = Legacy.verifyPage_loop fetchBody fetchVerifyPage getWitnessHash verifyWitness
          recoverAddress apiURL doLog doVerifyMerkleProof later
          (match verified with
           | [] => previousVerificationHash
           | _ => Notions.previous_hash fetchVerifyPage apiURL verified
           end)
          (List.last (map Some verified) previousRevId) count' revision_details'.
Proof.
  induction verified as [|revid rest IH];
    intros pvh prid count details count' details'.
  - cbn [Legacy.verifyPage_loop]. intros H. injection H as <- <-.
    split; [cbn; lia | reflexivity].
  - cbn [Legacy.verifyPage_loop app].
    destruct (fetchBody revid) as [e| |content]; try discriminate.
    destruct (negb (JS.truthy content)); [discriminate|].
    destruct (Legacy.verifyRevision _ _ _ _ _ _ _ _ _ _ _)
      as [[verificationHash isCorrect] detail] eqn:Hrev.
    destruct isCorrect; [|discriminate].
    destruct (verifyRevision_correct_hash _ _ _ _ _ _ _ _ _ _ _ _ _ Hrev)
      as (data & Hdata & ->).
    intros Hloop. destruct (IH _ _ _ _ _ _ Hloop) as [Hlen Hafter].
    split; [rewrite Hlen, length_app; cbn; lia|].
    intros later. rewrite Hafter. f_equal.
    + destruct rest as [|next rest'].
      * unfold Notions.previous_hash, Notions.previous_id. cbn [map List.last].
        now rewrite Hdata.
      * reflexivity.
    + destruct rest as [|next rest']; [reflexivity|].
      cbn [map].
      change (List.last (Some next :: map Some rest') (Some revid)
              = List.last (Some next :: map Some rest') prid).
      apply last_cons_default.
Qed.

End LegacyPrefix.

(** C3, as the code has it.  [verifyAquaChain] runs [verifyRevision] on
    every revision in insertion order, whatever earlier revisions gave,
    and its aggregate is the conjunction of the per-revision results.
    The legacy [verifyPage] is different: on a page whose revisions
    [verified] verify one after the other and whose next revision [revid]
    does not, it returns "INVALID" with the details of those revisions
    and of [revid] and of no other, whatever revisions follow and
    whatever the server would say about them. *)
Theorem chain_verification_policy :
  (forall getTransaction recoverAddress base64_decode
          (aquaChain : V12.HashChain) (alchemyKey : string),
     NoDup (JS.keys (V12.revisions aquaChain)) ->
     let results :=
       map (fun revision =>
              V12.verifyRevision getTransaction recoverAddress base64_decode
                                 revision alchemyKey)
           (JS.values (V12.revisions aquaChain)) in
     V12.verifyAquaChain getTransaction recoverAddress base64_decode aquaChain alchemyKey
     = JS.Returns {| V12.chain_successful := forallb V12.rev_successful results;
                     V12.revisionResults := results |}) /\
  (forall fetchAllRevs fetchBody fetchVerifyPage getWitnessHash verifyWitness
          recoverAddress
          (title server : string) (verbose doLog doVerifyMerkleProof : bool)
          (verified : list N) (revid : N) (later : list N)
          (count : nat) (revision_details : list Legacy.Detail)
          (content : string) (verificationHash : option string)
          (detail : Legacy.Detail),
     let apiURL := server ++ "/rest.php/data_accounting/v1" in
     existsb (Ascii.eqb "_"%char) (list_ascii_of_string title) = false ->
     fetchAllRevs (apiURL ++ "/get_page_all_revs/" ++ title)
     = Legacy.FetchRevIds (verified ++ revid :: later)%list ->
     Legacy.verifyPage_loop fetchBody fetchVerifyPage getWitnessHash verifyWitness
       recoverAddress apiURL doLog doVerifyMerkleProof verified (Some "") None 0 []
     = JS.Returns (Legacy.Exhausted count revision_details) ->
     fetchBody revid = Legacy.BodyWikitext content ->
     content <> "" ->
     Legacy.verifyRevision fetchVerifyPage getWitnessHash verifyWitness recoverAddress
       apiURL revid (Notions.previous_id verified)
       (Notions.previous_hash fetchVerifyPage apiURL verified)
       (Legacy.getHashSum content) (negb doLog) doVerifyMerkleProof
     = (verificationHash, false, detail) ->
     Legacy.verifyPage fetchAllRevs fetchBody fetchVerifyPage getWitnessHash verifyWitness
       recoverAddress title server verbose doLog doVerifyMerkleProof
     = JS.Returns (Legacy.PageStatus "INVALID" (verified ++ revid :: later)%list
                     (revision_details ++ [detail])%list) /\
     List.length (revision_details ++ [detail])%list = (List.length verified + 1)%nat).
Proof.
  split.
  - intros getTransaction recoverAddress base64_decode aquaChain alchemyKey Hnd results.
    unfold V12.verifyAquaChain.
    pose proof (verifyAquaChain_loop_all getTransaction recoverAddress base64_decode
                  alchemyKey (V12.revisions aquaChain) [] [] Hnd) as Hloop.
    cbn [app] in Hloop. rewrite Hloop.
    now rewrite chain_successful_loop_forallb.
  - intros fetchAllRevs fetchBody fetchVerifyPage getWitnessHash verifyWitness
           recoverAddress title server verbose doLog doVMP verified revid later
           count details content vh detail apiURL
           Htitle Hids Hverified Hbody Hcontent Hrev.
    destruct (verifyPage_loop_after _ _ _ _ _ _ _ _ _ _ _ _ _ _ _ Hverified)
      as [Hlen Hafter].
    split; [|rewrite length_app, Hlen; reflexivity].
    unfold Legacy.verifyPage. fold apiURL. rewrite Htitle, Hids, Hafter.
    replace (match verified with
             | [] => Some ""
             | _ => Notions.previous_hash fetchVerifyPage apiURL verified
             end)
      with (Notions.previous_hash fetchVerifyPage apiURL verified)
      by (destruct verified; reflexivity).
    fold (Notions.previous_id verified).
    cbn [Legacy.verifyPage_loop]. rewrite Hbody.
    unfold JS.truthy. destruct (String.eqb_spec content "") as [E|_]; [contradiction|].
    cbn [negb]. rewrite Hrev. reflexivity.
Qed.

Lemma forallb_of_map {A} (f : A -> bool) (xs : list A) :
  forallb f xs = forallb (fun b => b) (map f xs).
Proof. induction xs as [|x xs IH]; cbn; [reflexivity | now rewrite IH]. Qed.

Lemma mixed_chain_run :
  map V12.rev_successful
    (map (fun revision =>
            V12.verifyRevision Examples.no_transaction Examples.recover_v12
              Examples.no_base64 revision "key")
         (JS.values (V12.revisions Cases.mixed_chain)))
  = [false; true].
Proof. vm_compute. reflexivity. Qed.

Lemma broken_page_first_verifies :
  Legacy.verifyPage_loop Examples.any_wikitext Cases.broken_second_server
    Examples.no_witness_hash Examples.no_witness Examples.recover_v12
    ("http://localhost:9352" ++ "/rest.php/data_accounting/v1") false true
    [1%N] (Some "") None 0 []
  = JS.Returns (Legacy.Exhausted 1 [Cases.first_wiki_detail]).
Proof. vm_compute. reflexivity. Qed.

Lemma broken_page_second_fails :
  Legacy.verifyRevision Cases.broken_second_server Examples.no_witness_hash
    Examples.no_witness Examples.recover_v12
    ("http://localhost:9352" ++ "/rest.php/data_accounting/v1") 2%N
    (Notions.previous_id [1%N])
    (Notions.previous_hash Cases.broken_second_server
       ("http://localhost:9352" ++ "/rest.php/data_accounting/v1") [1%N])
    (Legacy.getHashSum "text") (negb false) true
  = (None, false, Cases.second_wiki_detail).
Proof. vm_compute. reflexivity. Qed.

Lemma chain_verification_policy_witness :
  (exists r,
     V12.verifyAquaChain Examples.no_transaction Examples.recover_v12 Examples.no_base64
       Cases.mixed_chain "key"
     = JS.Returns r /\
     map V12.rev_successful (V12.revisionResults r) = [false; true] /\
     V12.chain_successful r = false) /\
  Legacy.verifyPage Cases.three_revisions Examples.any_wikitext Cases.broken_second_server
    Examples.no_witness_hash Examples.no_witness Examples.recover_v12
    "Page" "http://localhost:9352" false false true
  = JS.Returns (Legacy.PageStatus "INVALID" [1%N; 2%N; 3%N]
                  [Cases.first_wiki_detail; Cases.second_wiki_detail]).
Proof.
  split.
  - eexists. split.
    + apply (proj1 chain_verification_policy).
      cbn. constructor; [|constructor; [intros H; exact H | constructor]].
      intros [H|H]; [discriminate H | exact H].
    + cbn [V12.revisionResults V12.chain_successful].
      split; [exact mixed_chain_run|].
      rewrite forallb_of_map, mixed_chain_run. reflexivity.
  - pose proof (proj2 chain_verification_policy Cases.three_revisions
                  Examples.any_wikitext Cases.broken_second_server
                  Examples.no_witness_hash Examples.no_witness Examples.recover_v12
                  "Page" "http://localhost:9352" false false true
                  [1%N] 2%N [3%N] 1%nat [Cases.first_wiki_detail] "text" None
                  Cases.second_wiki_detail) as H.
    cbv zeta in H.
    specialize (H eq_refl eq_refl broken_page_first_verifies eq_refl).
    destruct H as [H _]; [discriminate | exact broken_page_second_fails | exact H].
Defined.

(** C3 as stated fails for the legacy [verifyPage]: of two revisions
    whose first one does not verify, only the first one is verified,
    though the second one verifies against the first one's hash. *)
Lemma verifyPage_short_circuit_counterexample :
  Legacy.verifyPage Examples.two_revisions Examples.any_wikitext Examples.wiki_server
    Examples.no_witness_hash Examples.no_witness Examples.recover_v12
    "Page" "http://localhost:9352" false false true
  = JS.Returns (Legacy.PageStatus "INVALID" [1%N; 2%N] [Examples.wiki_detail_1]) /\
  fst (Legacy.verifyRevision Examples.wiki_server Examples.no_witness_hash
         Examples.no_witness Examples.recover_v12
         "http://localhost:9352/rest.php/data_accounting/v1" 2%N (Some 1%N)
         (Some "00") (Legacy.getHashSum "text") true true)
  = (Some Examples.wiki_hash_2, true).
Proof. split; vm_compute; reflexivity. Qed.

(** ** The chain builder *)

Lemma find_in {A} (f : A -> bool) (xs : list A) (x : A) :
  In x xs -> f x = true -> exists y, find f xs = Some y.
Proof.
  intros Hin Hfx. destruct (find f xs) as [y|] eqn:E; [now exists y|].
  rewrite (find_none f xs E x Hin) in Hfx. discriminate Hfx.
Qed.

Lemma checkFileHashAlreadyNotarized_duplicate {S}
  (content : string) (aqua : Notarize.AquaObject) (revision : Notarize.Revision) (s : S) :
  In revision (JS.values (Notarize.revisions aqua)) ->
  JS.get "file_hash" revision
  = Some (Notarize.JStr (Notarize.getHashSum_Buffer content)) ->
  Notarize.checkFileHashAlreadyNotarized (Notarize.getHashSum_Buffer content) aqua s
  = Notarize.Exit Notarize.DUPLICATE_CONTENT s.
Proof.
  intros Hin Hfh. unfold Notarize.checkFileHashAlreadyNotarized.
  destruct (find_in (Notarize.same_file_hash (Notarize.getHashSum_Buffer content))
                    _ revision Hin) as [y ->]; [|reflexivity].
  unfold Notarize.same_file_hash. rewrite Hfh.
  cbn [Notarize.truthy_val Notarize.strict_eq_string].
  rewrite String.eqb_refl, Bool.andb_true_r.
  unfold JS.truthy, Notarize.getHashSum_Buffer.
  destruct (String.eqb_spec (Keccak.sha3_512 content) "") as [E|_]; [|reflexivity].
  exfalso. exact (sha3_512_nonempty _ E).
Qed.

(** C7: when a [file] or [form] revision is appended whose source file
    hashes to the [file_hash] of a revision already in the chain,
    [createNewRevision] ends the process through the duplicate-content
    abort of [checkFileHashAlreadyNotarized], and the tree (revisions,
    file index, last revision hash) is as it was before the call. *)
Theorem duplicate_content_aborts (W : Notarize.World) (C : Notarize.Config)
  (t : Notarize.AquaTree) (timestamp revisionType sourceFile content : string)
  (enableScalar : bool) (revision : Notarize.Revision) :
  (revisionType = "file" /\ sourceFile = Notarize.filename C) \/
  (revisionType = "form" /\ Notarize.form_file_name C = Some sourceFile) ->
  Notarize.readFileSync W sourceFile = Some content ->
  In revision (JS.values (Notarize.revisions (Notarize.aquaObject t))) ->
  JS.get "file_hash" revision
  = Some (Notarize.JStr (Notarize.getHashSum_Buffer content)) ->
  Notarize.createNewRevision W C timestamp revisionType enableScalar t
  = Notarize.Exit Notarize.DUPLICATE_CONTENT t.
Proof.
  intros Hkind Hread Hin Hfh.
  unfold Notarize.createNewRevision, Notarize.bind at 1, Notarize.getS at 1.
  destruct Hkind as [[-> ->]|[-> Hform]].
  - change (negb (JS.includes Notarize.validRevisionTypes "file")) with false.
    cbv iota. unfold Notarize.bind at 1, Notarize.kind_fields.
    change ("file" =? "file") with true. cbv iota. rewrite Hread.
    unfold Notarize.bind at 1, Notarize.getS at 1.
    unfold Notarize.bind at 1.
    now rewrite (checkFileHashAlreadyNotarized_duplicate content _ revision t Hin Hfh).
  - change (negb (JS.includes Notarize.validRevisionTypes "form")) with false.
    cbv iota. unfold Notarize.bind at 1, Notarize.kind_fields.
    change ("form" =? "file") with false. change ("form" =? "signature") with false.
    change ("form" =? "witness") with false. change ("form" =? "form") with true.
    cbv iota. rewrite Hform, Hread.
    unfold Notarize.bind at 1, Notarize.getS at 1.
    unfold Notarize.bind at 1.
    now rewrite (checkFileHashAlreadyNotarized_duplicate content _ revision t Hin Hfh).
Qed.

Lemma duplicate_content_aborts_witness :
  Notarize.createNewRevision Examples.world Examples.config_file
    "20240102000000" "file" true Examples.hello_tree
  = Notarize.Exit Notarize.DUPLICATE_CONTENT Examples.hello_tree.
Proof.
  apply (duplicate_content_aborts Examples.world Examples.config_file Examples.hello_tree
           "20240102000000" "file" "hello.txt" ("hello" ++ Examples.newline) true
           (nth 0 (JS.values (Notarize.revisions
                                (Notarize.aquaObject Examples.hello_tree))) [])).
  - left. split; reflexivity.
  - reflexivity.
  - vm_compute. left. reflexivity.
  - vm_compute. reflexivity.
Defined.

(** C4 on the code: [removeLastRevision] never returns.  It throws, and
    the tree it leaves in memory still has every revision; nothing is
    written back or deleted. *)
Theorem removeLastRevision_never_removes (t : Notarize.AquaTree) :
  exists e t',
    Notarize.removeLastRevision t = Notarize.Throw e t' /\
    Notarize.revisions (Notarize.aquaObject t')
    = Notarize.revisions (Notarize.aquaObject t) /\
    Notarize.lastRevisionHash t' = Notarize.lastRevisionHash t.
Proof.
  unfold Notarize.removeLastRevision, Notarize.bind at 1, Notarize.getS at 1.
  destruct (JS.get _ _) as [lastRevision|]; [|now exists "TypeError", t].
  unfold Notarize.bind at 1.
  destruct (JS.get "revision_type" lastRevision) as [revision_type|];
    [|now eexists _, t].
  destruct (Notarize.strict_eq_string revision_type "file"); [now eexists _, _|].
  destruct (Notarize.strict_eq_string revision_type "link"); [|now eexists _, t].
  unfold Notarize.bind at 1.
  destruct (Notarize.iterate _) as [vhs|e]; [now eexists _, _ | now exists e, t].
Qed.

(** The chain of [hello.txt] and [--rm]: the run throws, and the tree
    still holds the file revision and its file-index entry, which is
    under the revision's verification hash while the code deletes the
    entry under its file hash. *)
Lemma remove_tip_of_hello :
  Notarize.removeLastRevision Examples.hello_tree
  = Notarize.Throw "ReferenceError: lastRevisionHash is not defined" Examples.hello_tree /\
  List.length (Notarize.revisions (Notarize.aquaObject Examples.hello_tree)) = 1%nat /\
  JS.keys (Notarize.file_index (Notarize.aquaObject Examples.hello_tree))
  = JS.keys (Notarize.revisions (Notarize.aquaObject Examples.hello_tree)).
Proof.
  split; [vm_compute; reflexivity|].
  split; vm_compute; reflexivity.
Qed.

(** ** The multi-chain witness *)

Lemma read_all_done {S} (W : Notarize.World) (files : list string) :
  forall (s s' : S) (objs : list Notarize.AquaObject),
    Notarize.mapM
      (fun file => match Notarize.readAquaFile W (file ++ ".aqua.json") with
                   | Notarize.FileMissing => Notarize.exit Notarize.AquaFileMissing
                   | Notarize.FileUnparsable => Notarize.exit Notarize.AquaFileUnreadable
                   | Notarize.FileParsed aqua => Notarize.ret aqua
                   end) files s
    = Notarize.Done s' objs ->
    s' = s /\
    Forall2 (fun file aqua =>
               Notarize.readAquaFile W (file ++ ".aqua.json") = Notarize.FileParsed aqua)
            files objs.
Proof.
  induction files as [|file rest IH]; intros s s' objs; cbn [Notarize.mapM].
  - intros H. injection H as <- <-. split; [reflexivity | constructor].
  - unfold Notarize.bind at 1.
    destruct (Notarize.readAquaFile W (file ++ ".aqua.json")) as [| |aqua] eqn:Hread;
      try discriminate.
    unfold Notarize.ret at 1, Notarize.bind at 1.
    destruct (Notarize.mapM _ rest s) as [s1 objs1| |] eqn:Hrest; try discriminate.
    unfold Notarize.ret. intros H. injection H as <- <-.
    destruct (IH _ _ _ Hrest) as [-> Hall].
    split; [reflexivity | now constructor].
Qed.

(** The shape of what [prepareWitness] returns. *)
Lemma prepareWitness_done {S} (W : Notarize.World) (C : Notarize.Config)
  (verificationHash : Notarize.jsval) (s s' : S) (witness : Notarize.Revision) :
  Notarize.prepareWitness W C verificationHash s = Notarize.Done s' witness ->
  s' = s /\
  exists timestamp network address transaction publisher,
    witness =
    [ ("witness_merkle_root", verificationHash);
      ("witness_timestamp", timestamp);
      ("witness_network", network);
      ("witness_smart_contract_address", address);
      ("witness_transaction_hash", transaction);
      ("witness_sender_account_address", publisher);
      ("witness_merkle_proof", Notarize.JArr [verificationHash]) ].
Proof.
  unfold Notarize.prepareWitness.
  destruct (Notarize.witnessMethod C) as [[|c method']|]; try discriminate.
  set (method := String c method').
  unfold Notarize.bind.
  destruct (method =? "nostr").
  { destruct (Notarize.witnessNostr W _) as [[[tx pub] ts]|]; [|discriminate].
    cbn. intros H. injection H as <- <-. split; [reflexivity|].
    now eexists _, _, _, _, _. }
  destruct (method =? "tsa").
  { destruct (Notarize.witnessTsa W _ _) as [[[tx pub] ts]|]; [|discriminate].
    cbn. intros H. injection H as <- <-. split; [reflexivity|].
    now eexists _, _, _, _, _. }
  destruct (method =? "eth"); [|discriminate].
  destruct (Notarize.witnessEth W _ _ _) as [[tx pub]|]; [|discriminate].
  cbn. intros H. injection H as <- <-. split; [reflexivity|].
  now eexists _, _, _, _, _.
Qed.

Lemma witness_all_done (W : Notarize.World) (C : Notarize.Config)
  (timestamp : string) (witnessResult : Notarize.Revision)
  (entries : list (string * Notarize.AquaObject)) :
  forall (written written' : list (string * Notarize.AquaObject)) (u : unit),
    Notarize.forEachM (Notarize.witness_one_chain W C timestamp "witness" witnessResult)
                      entries written
    = Notarize.Done written' u ->
    exists new,
      written' = (written ++ new)%list /\
      Forall2 (fun entry file =>
                 Notarize.witnessed_chain W C timestamp "witness" witnessResult entry
                 = JS.Returns file) entries new.
Proof.
  induction entries as [|entry rest IH]; intros written written' u;
    cbn [Notarize.forEachM].
  - intros H. injection H as <- _. exists []. split; [now rewrite app_nil_r | constructor].
  - unfold Notarize.bind at 1, Notarize.witness_one_chain at 1, Notarize.bind at 1.
    destruct (Notarize.witnessed_chain W C timestamp "witness" witnessResult entry)
      as [[filePath aqua]|e] eqn:Hone; [|discriminate].
    unfold Notarize.lift_try, Notarize.serializeAquaObject, Notarize.ret at 1.
    cbn [fst snd].
    destruct (Notarize.writeFileSync W filePath aqua); cbn; [|discriminate].
    intros Hrest. destruct (IH _ _ _ Hrest) as [new [-> Hall]].
    exists ((filePath, aqua) :: new).
    split; [now rewrite <- app_assoc | now constructor].
Qed.

(** C2, as the code has it: in the multi-chain witness every chain's
    appended witness revision is parented at that chain's tip, carries the
    shared root, and carries as [witness_merkle_proof] the list of the
    tips of all the chains, the same list for every chain. *)
Theorem multi_chain_witness_proof (W : Notarize.World) (C : Notarize.Config)
  (timestamp : string) (written0 written : list (string * Notarize.AquaObject))
  (b : bool) :
  Notarize.createRevisionWithMultipleAquaChain W C timestamp "witness" written0
  = Notarize.Done written b ->
  exists (chains : list Notarize.AquaObject) (new : list (string * Notarize.AquaObject)),
    Forall2 (fun file aqua =>
               Notarize.readAquaFile W (file ++ ".aqua.json") = Notarize.FileParsed aqua)
            (Notarize.split_comma (Notarize.filename C)) chains /\
    written = (written0 ++ new)%list /\
    let tip := fun aqua =>
      Notarize.of_option_string (Notarize.last_key (Notarize.revisions aqua)) in
    Forall2 (fun aqua file =>
               exists verificationHash revision,
                 Notarize.revisions (snd file)
                 = JS.set verificationHash revision (Notarize.revisions aqua) /\
                 JS.get "previous_verification_hash" revision = Some (tip aqua) /\
                 JS.get "witness_merkle_root" revision
                 = Some (Notarize.JStr (Notarize.getHexRoot W (map tip chains))) /\
                 JS.get "witness_merkle_proof" revision
                 = Some (Notarize.JArr (map tip chains)))
            chains new.
Proof.
  unfold Notarize.createRevisionWithMultipleAquaChain.
  destruct (negb _); [discriminate|].
  unfold Notarize.bind at 1.
  destruct (Notarize.mapM _ _ written0) as [s1 chains| |] eqn:Hread; try discriminate.
  destruct (read_all_done W _ _ _ _ Hread) as [-> Hfiles].
  unfold Notarize.bind at 1.
  destruct (Notarize.prepareWitness W C _ written0) as [s2 witness| |] eqn:Hwit;
    try discriminate.
  destruct (prepareWitness_done W C _ _ _ _ Hwit)
    as [-> (ts & net & addr & tx & pub & ->)].
  unfold Notarize.bind at 1.
  destruct (Notarize.forEachM _ _ written0) as [s3 u| |] eqn:Hloop; try discriminate.
  unfold Notarize.ret. intros H. injection H as <- <-.
  destruct (witness_all_done W C timestamp _ _ _ _ _ Hloop) as [new [-> Hall]].
  exists chains, new. split; [assumption|]. split; [reflexivity|].
  cbv zeta.
  set (tips := map _ chains) in *. clearbody tips. clear Hread Hwit Hloop.
  revert new Hall.
  induction Hfiles as [|file aqua files chains' Hone Hrest IH]; intros new Hall;
    cbn [combine] in Hall; inversion Hall as [|e f es fs Hchain Hall']; subst;
    constructor.
  - unfold Notarize.witnessed_chain in Hchain. cbn in Hchain.
    injection Hchain as <-. cbn [snd Notarize.revisions].
    eexists _, _. split; [reflexivity|].
    split; [reflexivity|]. split; reflexivity.
  - now apply IH.
Qed.

Lemma multi_run_computed :
  Notarize.createRevisionWithMultipleAquaChain Examples.world Examples.config_multi
    "20240103000000" "witness" []
  = Notarize.Done Examples.multi_written true.
Proof. vm_compute. reflexivity. Qed.

Lemma multi_chain_witness_proof_witness :
  exists (chains : list Notarize.AquaObject) (new : list (string * Notarize.AquaObject)),
    Examples.multi_written = ([] ++ new)%list /\
    List.length chains = 2%nat /\
    List.length new = 2%nat.
Proof.
  destruct (multi_chain_witness_proof Examples.world Examples.config_multi
              "20240103000000" [] Examples.multi_written true multi_run_computed)
    as (chains & new & Hfiles & Hwritten & Hall).
  exists chains, new. split; [exact Hwritten|].
  pose proof (Forall2_length Hfiles) as Hlen.
  pose proof (Forall2_length Hall) as Hlen'.
  split; [|rewrite <- Hlen']; rewrite <- Hlen; reflexivity.
Defined.

(** C2 as stated fails: the two chains, whose tips differ, receive the
    same [witness_merkle_proof], the list of both tips, where the proof of
    sibling hashes would be the other chain's tip. *)
Lemma multi_chain_same_proof_counterexample :
  Examples.tip_a <> Examples.tip_b /\
  Examples.written_proofs
    (Notarize.createRevisionWithMultipleAquaChain Examples.world Examples.config_multi
       "20240103000000" "witness" [])
  = [ Some (Notarize.JArr [Notarize.JStr Examples.tip_a; Notarize.JStr Examples.tip_b]);
      Some (Notarize.JArr [Notarize.JStr Examples.tip_a; Notarize.JStr Examples.tip_b]) ] /\
  Spec.merkle_proof 2 [Examples.tip_a; Examples.tip_b] 0 = [Examples.tip_b] /\
  Spec.merkle_proof 2 [Examples.tip_a; Examples.tip_b] 1 = [Examples.tip_a].
Proof.
  split; [discriminate|]. rewrite multi_run_computed.
  split; [vm_compute; reflexivity|].
  split; vm_compute; reflexivity.
Qed.

(* ================================================================= *)
(** * Further properties *)

(** ** The v1.2 verifier *)

(** X1: When the first page has no revision, [getTimestampDirect] throws a
    TypeError (it reads [metadata] of [undefined]) where
    [getTimestampSafe] returns [undefined]. *)
Theorem getTimestamp_first_page_empty (pageData : V12.PageData) (firstPage : V12.HashChain) :
  hd_error (V12.pages pageData) = Some firstPage ->
  V12.revisions firstPage = [] ->
  V12.getTimestampDirect pageData = JS.Throws "TypeError" /\
  V12.getTimestampSafe pageData = JS.Returns None.
Proof.
  unfold V12.getTimestampDirect, V12.getTimestampSafe.
  destruct (V12.pages pageData) as [|page rest]; [discriminate|].
  intros H Hrevs. injection H as ->. cbn. rewrite Hrevs. split; reflexivity.
Qed.

Lemma getTimestamp_first_page_empty_witness :
  V12.getTimestampDirect {| V12.pages := [ {| V12.revisions := [] |} ] |}
  = JS.Throws "TypeError" /\
  V12.getTimestampSafe {| V12.pages := [ {| V12.revisions := [] |} ] |}
  = JS.Returns None.
Proof.
  apply (getTimestamp_first_page_empty
           {| V12.pages := [ {| V12.revisions := [] |} ] |} {| V12.revisions := [] |});
    reflexivity.
Defined.

(** X2: [checkTransaction] reports success only for a transaction that the
    provider returned, whose input data starts with the selector and
    carries the expected hash, letter case apart; its two flags always
    agree. *)
Theorem checkTransaction_success_needs_transaction
  (getTransaction : string -> string -> V12.TxLookup)
  (network txHash expected alchemyKey : string) :
  let r := V12.checkTransaction getTransaction network txHash expected alchemyKey in
  V12.verificationHashMatches r = V12.successful r /\
  (V12.successful r = true <->
   exists inputData,
     getTransaction
       (JS.nullish_or (JS.lookup network V12.networkRpcMap) "undefined" ++ alchemyKey) txHash
     = V12.TxFound inputData /\
     JS.startsWith inputData "0x9cef4ea1" = true /\
     JS.toLowerCase (JS.slice inputData 10 138) = JS.toLowerCase expected).
Proof.
  intros r. subst r. unfold V12.checkTransaction.
  rewrite rpcUrl_truthy. cbn [negb].
  destruct (getTransaction _ txHash) as [e| |inputData].
  - cbn. split; [reflexivity|].
    split; [discriminate | intros (d & H & _); discriminate H].
  - cbn. split; [reflexivity|].
    split; [discriminate | intros (d & H & _); discriminate H].
  - unfold V12.functionSelector.
    destruct (JS.startsWith inputData "0x9cef4ea1") eqn:Hsel; cbn.
    + split; [reflexivity|]. change (10 + 128) with 138. rewrite String.eqb_eq.
      split.
      * intros H. exists inputData. now repeat split.
      * intros (d & Hd & _ & H). injection Hd as <-. exact H.
    + split; [reflexivity|].
      split; [discriminate|].
      intros (d & Hd & Hs & _). injection Hd as <-. rewrite Hsel in Hs. discriminate Hs.
Qed.

(** X3: For a network that [networkRpcMap] does not list, [checkTransaction]
    does not report an unsupported network.  The RPC URL is what the
    lookup gives, followed by the key: the text of the property for a name
    that every object inherits (such as [toString]), "undefined" for any
    other name.  It is never empty, so the provider is asked at that URL
    and its answer decides the message. *)
Theorem checkTransaction_unlisted_network
  (getTransaction : string -> string -> V12.TxLookup)
  (network txHash expected alchemyKey : string) :
  JS.get network V12.networkRpcMap = None ->
  let rpcUrl :=
    JS.nullish_or (JS.get network JS.Object_prototype) "undefined" ++ alchemyKey in
  let r := V12.checkTransaction getTransaction network txHash expected alchemyKey in
  match getTransaction rpcUrl txHash with
  | V12.TxThrows error => V12.message r = "An error occurred: " ++ error
  | V12.TxNull => V12.message r = "Transaction not found"
  | V12.TxFound inputData =>
      V12.message r <> "An error occurred: Unsupported network: " ++ network
  end.
Proof.
  intros Hnet rpcUrl r. subst rpcUrl r. unfold V12.checkTransaction.
  rewrite rpcUrl_truthy. cbn [negb]. unfold JS.lookup. rewrite Hnet.
  destruct (getTransaction _ txHash) as [e| |inputData]; [reflexivity | reflexivity |].
  destruct (JS.startsWith inputData V12.functionSelector); cbn; [|discriminate].
  destruct (_ =? _); discriminate.
Qed.

Lemma checkTransaction_unlisted_network_witness :
  V12.message
    (V12.checkTransaction Cases.provider_at_inherited_url "toString" "0x01" "00" "key")
  = "An error occurred: could not detect network" /\
  V12.message
    (V12.checkTransaction Cases.provider_at_inherited_url "goerli" "0x01" "00" "key")
  = "Transaction not found".
Proof.
  split.
  - exact (checkTransaction_unlisted_network Cases.provider_at_inherited_url
             "toString" "0x01" "00" "key" eq_refl).
  - exact (checkTransaction_unlisted_network Cases.provider_at_inherited_url
             "goerli" "0x01" "00" "key" eq_refl).
Defined.

(** X4: The aggregate of [verifyRevision]: a revision is successful exactly
    when the file, content and metadata checks succeed and the signature
    and the witness, where the revision has them, verify. *)
Theorem verifyRevision_successful_iff getTransaction recoverAddress base64_decode
  (revision : V12.Revision) (alchemyKey : string) :
  let previous :=
    JS.nullish_or (V12.previous_verification_hash (V12.rev_metadata revision)) "" in
  V12.rev_successful
    (V12.verifyRevision getTransaction recoverAddress base64_decode revision alchemyKey)
  = true
  <-> fst (V12.verifyFileUtil base64_decode (V12.rev_content revision)) = true /\
      fst (V12.verifyContentUtil (V12.rev_content revision)) = true /\
      fst (V12.verifyMetadataUtil (V12.rev_metadata revision)) = true /\
      (forall sig,
         V12.rev_signature revision = Some sig ->
         fst (fst (V12.verifySignatureUtil recoverAddress sig previous)) = true) /\
      (forall witness,
         V12.rev_witness revision = Some witness ->
         fst (V12.verifyWitnessUtil getTransaction witness previous
                (1 <? List.length (V12.structured_merkle_proof witness))%nat alchemyKey)
         = true).
Proof.
  intros previous. subst previous. unfold V12.verifyRevision.
  destruct (V12.verifyFileUtil base64_decode (V12.rev_content revision))
    as [fileIsCorrect fileOut].
  cbn [V12.rev_successful V12.allSuccessful_loop V12.available V12.status
       V12.res_successful V12.is_available fst andb].
  destruct fileIsCorrect; cbn [negb];
    [|split; [discriminate | intros [H _]; discriminate H]].
  destruct (fst (V12.verifyContentUtil (V12.rev_content revision))); cbn [negb];
    [|split; [discriminate | intros (_ & H & _); discriminate H]].
  destruct (V12.rev_witness revision) as [witness|].
  - cbn [V12.status V12.res_successful V12.available V12.is_available andb].
    destruct (fst (V12.verifyWitnessUtil _ witness _ _ _)) eqn:Hw; cbn [negb].
    + destruct (V12.rev_signature revision) as [sig|].
      * cbn [V12.status V12.res_successful V12.available V12.is_available andb].
        destruct (fst (fst (V12.verifySignatureUtil _ sig _))) eqn:Hs; cbn [negb].
        -- destruct (fst (V12.verifyMetadataUtil _)); cbn [negb].
           ++ split; [|reflexivity]. intros _. repeat split.
              ** intros sig' E. injection E as <-. exact Hs.
              ** intros w' E. injection E as <-. exact Hw.
           ++ split; [discriminate | intros (_ & _ & H & _); discriminate H].
        -- split; [discriminate|]. intros (_ & _ & _ & H & _).
           specialize (H sig eq_refl). rewrite Hs in H. discriminate H.
      * cbn [V12.defaultResultStatus V12.status V12.is_available andb].
        destruct (fst (V12.verifyMetadataUtil _)); cbn [negb].
        -- split; [|reflexivity]. intros _. repeat split.
           ++ intros sig' E. discriminate E.
           ++ intros w' E. injection E as <-. exact Hw.
        -- split; [discriminate | intros (_ & _ & H & _); discriminate H].
    + split; [discriminate|]. intros (_ & _ & _ & _ & H).
      specialize (H witness eq_refl). rewrite Hw in H. discriminate H.
  - cbn [V12.defaultResultStatus V12.status V12.is_available andb].
    destruct (V12.rev_signature revision) as [sig|].
    + cbn [V12.status V12.res_successful V12.available V12.is_available andb].
      destruct (fst (fst (V12.verifySignatureUtil _ sig _))) eqn:Hs; cbn [negb].
      * destruct (fst (V12.verifyMetadataUtil _)); cbn [negb].
        -- split; [|reflexivity]. intros _. repeat split.
           ++ intros sig' E. injection E as <-. exact Hs.
           ++ intros w' E. discriminate E.
        -- split; [discriminate | intros (_ & _ & H & _); discriminate H].
      * split; [discriminate|]. intros (_ & _ & _ & H & _).
        specialize (H sig eq_refl). rewrite Hs in H. discriminate H.
    + cbn [V12.defaultResultStatus V12.status V12.is_available andb].
      destruct (fst (V12.verifyMetadataUtil _)); cbn [negb].
      * split; [|reflexivity]. intros _. repeat split.
        -- intros sig' E. discriminate E.
        -- intros w' E. discriminate E.
      * split; [discriminate | intros (_ & _ & H & _); discriminate H].
Qed.

Lemma verifyWitnessUtil_proof_any_provider getTransaction getTransaction'
  (witnessData : V12.RevisionWitness) (verification_hash alchemyKey : string) :
  V12.verifyWitnessUtil getTransaction witnessData verification_hash true alchemyKey
  = V12.verifyWitnessUtil getTransaction' witnessData verification_hash true alchemyKey.
Proof.
  unfold V12.verifyWitnessUtil. destruct (negb _); reflexivity.
Qed.

(** X5: A revision whose witness carries a Merkle proof of more than one node
    is verified without regard to the chain lookup: whatever the provider
    answers, [verifyRevision] gives the same result. *)
Theorem verifyRevision_proof_ignores_transaction
  getTransaction getTransaction' recoverAddress base64_decode
  (revision : V12.Revision) (alchemyKey : string) :
  (forall witness,
     V12.rev_witness revision = Some witness ->
     (1 < List.length (V12.structured_merkle_proof witness))%nat) ->
  V12.verifyRevision getTransaction recoverAddress base64_decode revision alchemyKey
  = V12.verifyRevision getTransaction' recoverAddress base64_decode revision alchemyKey.
Proof.
  intros Hproof. unfold V12.verifyRevision.
  destruct (V12.verifyFileUtil _ _) as [fileIsCorrect fileOut].
  destruct (V12.rev_witness revision) as [witness|]; [|reflexivity].
  specialize (Hproof witness eq_refl). apply Nat.ltb_lt in Hproof. rewrite Hproof.
  now rewrite (verifyWitnessUtil_proof_any_provider getTransaction getTransaction').
Qed.

Lemma verifyFileUtil_no_file_hash base64_decode (data : V12.RevisionContent) :
  JS.get "file_hash" (V12.content data) = None \/
  JS.get "file_hash" (V12.content data) = Some "" ->
  V12.verifyFileUtil base64_decode data
  = (false, Some "Revision contains a file, but no file content hash").
Proof.
  unfold V12.verifyFileUtil. intros [-> | ->]; reflexivity.
Qed.

Lemma verifyRevision_no_file_hash getTransaction recoverAddress base64_decode
  (revision : V12.Revision) (alchemyKey : string) :
  JS.get "file_hash" (V12.content (V12.rev_content revision)) = None \/
  JS.get "file_hash" (V12.content (V12.rev_content revision)) = Some "" ->
  V12.rev_successful
    (V12.verifyRevision getTransaction recoverAddress base64_decode revision alchemyKey)
  = false.
Proof.
  intros H. unfold V12.verifyRevision.
  now rewrite (verifyFileUtil_no_file_hash base64_decode _ H).
Qed.

(** X6: [verifyRevision] always takes the file check as available, so a chain
    that holds a revision without a [file_hash] slot (or with an empty
    one) never verifies: [verifyAquaChain] returns, and its aggregate is
    unsuccessful. *)
Theorem chain_without_file_hash_fails getTransaction recoverAddress base64_decode
  (aquaChain : V12.HashChain) (revision : V12.Revision) (alchemyKey : string) :
  NoDup (JS.keys (V12.revisions aquaChain)) ->
  In revision (JS.values (V12.revisions aquaChain)) ->
  JS.get "file_hash" (V12.content (V12.rev_content revision)) = None \/
  JS.get "file_hash" (V12.content (V12.rev_content revision)) = Some "" ->
  exists r,
    V12.verifyAquaChain getTransaction recoverAddress base64_decode aquaChain alchemyKey
    = JS.Returns r /\
    V12.chain_successful r = false /\
    List.length (V12.revisionResults r) = List.length (V12.revisions aquaChain).
Proof.
  intros Hnd Hin Hfile. unfold V12.verifyAquaChain.
  pose proof (verifyAquaChain_loop_all getTransaction recoverAddress base64_decode
                alchemyKey (V12.revisions aquaChain) [] [] Hnd) as Hloop.
  cbn [app] in Hloop. rewrite Hloop.
  eexists. split; [reflexivity|].
  cbn [V12.chain_successful V12.revisionResults]. split.
  - rewrite chain_successful_loop_forallb.
    apply Bool.not_true_is_false. intros Hall.
    rewrite forallb_forall in Hall.
    specialize (Hall _ (in_map _ _ _ Hin)). cbv beta in Hall.
    rewrite (verifyRevision_no_file_hash _ _ _ _ _ Hfile) in Hall. discriminate Hall.
  - unfold JS.values. now rewrite !length_map.
Qed.

Lemma chain_without_file_hash_fails_witness :
  exists r,
    V12.verifyAquaChain Examples.no_transaction Examples.recover_v12 Examples.no_base64
      {| V12.revisions := [("h1", Examples.signed_revision)] |} "key"
    = JS.Returns r /\
    V12.chain_successful r = false /\
    List.length (V12.revisionResults r) = 1%nat.
Proof.
  apply (chain_without_file_hash_fails Examples.no_transaction Examples.recover_v12
           Examples.no_base64 {| V12.revisions := [("h1", Examples.signed_revision)] |}
           Examples.signed_revision "key").
  - cbn. constructor; [intros H; exact H | constructor].
  - cbn. left. reflexivity.
  - left. reflexivity.
Defined.

(** X7: A signed revision whose previous verification hash is empty or
    [null], as that of a first revision is, never verifies: the signature
    check is available and fails before any address is recovered. *)
Theorem signed_first_revision_fails getTransaction recoverAddress base64_decode
  (revision : V12.Revision) (sig : V12.RevisionSignature) (alchemyKey : string) :
  V12.rev_signature revision = Some sig ->
  JS.nullish_or (V12.previous_verification_hash (V12.rev_metadata revision)) "" = "" ->
  V12.rev_successful
    (V12.verifyRevision getTransaction recoverAddress base64_decode revision alchemyKey)
  = false.
Proof.
  intros Hsig Hprev. unfold V12.verifyRevision.
  destruct (V12.verifyFileUtil _ _) as [fileIsCorrect fileOut].
  rewrite Hsig, Hprev.
  change (V12.verifySignatureUtil recoverAddress sig "")
    with ((false, "Verification hash must not be empty"), @nil V12.RecoverCall).
  cbn [V12.rev_successful V12.allSuccessful_loop V12.available V12.status
       V12.res_successful V12.is_available fst andb negb].
  repeat match goal with
         | |- (if ?b then false else _) = false => destruct b; [reflexivity|]
         end.
  reflexivity.
Qed.

Lemma forallb_permutation {A} (f : A -> bool) (xs ys : list A) :
  Permutation xs ys -> forallb f xs = forallb f ys.
Proof.
  induction 1 as [|x xs ys _ IH|x y xs|xs ys zs _ IH1 _ IH2]; cbn.
  - reflexivity.
  - now rewrite IH.
  - destruct (f x), (f y); reflexivity.
  - now rewrite IH1.
Qed.

(** X29: [verifyAquaChain] looks at the revisions one by one and at nothing
    else: it never compares a revision's key with a hash, nor one
    revision's previous verification hash with the revision before it.
    Two chains that hold the same revisions, under whatever keys and in
    whatever order, get the same verdict and the same per-revision
    results up to their order. *)
Theorem verifyAquaChain_ignores_keys_and_order getTransaction recoverAddress base64_decode
  (aquaChain aquaChain' : V12.HashChain) (alchemyKey : string) :
  NoDup (JS.keys (V12.revisions aquaChain)) ->
  NoDup (JS.keys (V12.revisions aquaChain')) ->
  Permutation (JS.values (V12.revisions aquaChain))
              (JS.values (V12.revisions aquaChain')) ->
  exists r r',
    V12.verifyAquaChain getTransaction recoverAddress base64_decode aquaChain alchemyKey
    = JS.Returns r /\
    V12.verifyAquaChain getTransaction recoverAddress base64_decode aquaChain' alchemyKey
    = JS.Returns r' /\
    V12.chain_successful r = V12.chain_successful r' /\
    Permutation (V12.revisionResults r) (V12.revisionResults r').
Proof.
  intros Hnd Hnd' Hperm. unfold V12.verifyAquaChain.
  pose proof (verifyAquaChain_loop_all getTransaction recoverAddress base64_decode
                alchemyKey (V12.revisions aquaChain) [] [] Hnd) as Hloop.
  pose proof (verifyAquaChain_loop_all getTransaction recoverAddress base64_decode
                alchemyKey (V12.revisions aquaChain') [] [] Hnd') as Hloop'.
  cbn [app] in Hloop, Hloop'. rewrite Hloop, Hloop'.
  eexists _, _. split; [reflexivity|]. split; [reflexivity|].
  cbn [V12.chain_successful V12.revisionResults].
  pose proof (Permutation_map
                (fun revision =>
                   V12.verifyRevision getTransaction recoverAddress base64_decode
                                      revision alchemyKey) Hperm) as Hresults.
  split; [|exact Hresults].
  rewrite !chain_successful_loop_forallb. now apply forallb_permutation.
Qed.

Lemma verifyAquaChain_ignores_keys_and_order_witness :
  exists r r',
    V12.verifyAquaChain Examples.no_transaction Examples.recover_v12 Examples.no_base64
      {| V12.revisions := [("h1", Examples.signed_revision);
                           ("h2", Cases.first_signed_revision)] |} "key"
    = JS.Returns r /\
    V12.verifyAquaChain Examples.no_transaction Examples.recover_v12 Examples.no_base64
      {| V12.revisions := [("x", Cases.first_signed_revision);
                           ("y", Examples.signed_revision)] |} "key"
    = JS.Returns r' /\
    V12.chain_successful r = V12.chain_successful r'.
Proof.
  destruct (verifyAquaChain_ignores_keys_and_order Examples.no_transaction
              Examples.recover_v12 Examples.no_base64
              {| V12.revisions := [("h1", Examples.signed_revision);
                                   ("h2", Cases.first_signed_revision)] |}
              {| V12.revisions := [("x", Cases.first_signed_revision);
                                   ("y", Examples.signed_revision)] |} "key")
    as (r & r' & Hr & Hr' & Hsame & _).
  - cbn. repeat constructor; cbn; intuition discriminate.
  - cbn. repeat constructor; cbn; intuition discriminate.
  - cbn. apply perm_swap.
  - exists r, r'. split; [exact Hr|]. split; [exact Hr' | exact Hsame].
Defined.

(** ** The [AquaVerifier] class *)

(** X8: With an empty Alchemy key, which is what the constructor's default
    argument gives, [verifyRevision], [verifyWitness] and
    [verifyAquaChain] throw before they look at their argument, whatever
    the version; [verifySignature] has no such guard and verifies. *)
Theorem aquaVerifier_requires_key getTransaction recoverAddress base64_decode
  (options : AquaVerifier.VerificationOptions) :
  AquaVerifier.alchemyKey options = "" ->
  (forall revision,
     AquaVerifier.verifyRevision getTransaction recoverAddress base64_decode options
       revision = JS.Throws "ALCHEMY KEY NOT SET") /\
  (forall witness verification_hash doVerifyMerkleProof,
     AquaVerifier.verifyWitness getTransaction options witness verification_hash
       doVerifyMerkleProof = JS.Throws "ALCHEMY KEY NOT SET") /\
  (forall hashChain,
     AquaVerifier.verifyAquaChain getTransaction recoverAddress base64_decode options
       hashChain = JS.Throws "ALCHEMY KEY NOT SET") /\
  (forall signature previous_hash,
     AquaVerifier.is_1_2 options = true ->
     AquaVerifier.verifySignature recoverAddress options signature previous_hash
     = JS.Returns (Some (V12.verifySignature recoverAddress signature previous_hash))).
Proof.
  intros Hkey.
  unfold AquaVerifier.verifyRevision, AquaVerifier.verifyWitness,
    AquaVerifier.verifyAquaChain, AquaVerifier.verifySignature.
  rewrite Hkey. cbn [String.eqb].
  split; [reflexivity|]. split; [reflexivity|]. split; [reflexivity|].
  intros signature previous_hash ->. reflexivity.
Qed.

Lemma aquaVerifier_requires_key_witness :
  AquaVerifier.verifyAquaChain Examples.no_transaction Examples.recover_v12
    Examples.no_base64 (AquaVerifier.constructor None)
    {| V12.revisions := [("h1", Examples.signed_revision)] |}
  = JS.Throws "ALCHEMY KEY NOT SET" /\
  AquaVerifier.verifySignature Examples.recover_v12 (AquaVerifier.constructor None)
    Examples.signed_payload Examples.parent_hash
  = JS.Returns (Some (V12.verifySignature Examples.recover_v12 Examples.signed_payload
                        Examples.parent_hash)).
Proof.
  pose proof (aquaVerifier_requires_key Examples.no_transaction Examples.recover_v12
                Examples.no_base64 (AquaVerifier.constructor None) eq_refl)
    as (_ & _ & Hchain & Hsig).
  split; [apply Hchain | apply Hsig; reflexivity].
Defined.

(** ** The legacy page verifier *)

Section LegacyLoop.
Variable fetchBody : N -> Legacy.BodyFetch.
Variable fetchVerifyPage : string -> N -> Legacy.Fetch Legacy.RevisionInfo.
Variable getWitnessHash : string -> option N -> string.
Variable verifyWitness : string -> option N -> string -> bool -> bool -> string * string.
Variable recoverAddress : string -> string -> JS.try string.

Lemma verifyRevision_correct_detail (apiURL : string) (revid : N) (prevRevId : option N)
  (previousVerificationHash : option string) (contentHash : string)
  (isHtml doVerifyMerkleProof : bool)
  (verificationHash : option string) (detail : Legacy.Detail) :
  Legacy.verifyRevision fetchVerifyPage getWitnessHash verifyWitness recoverAddress
    apiURL revid prevRevId previousVerificationHash contentHash isHtml
    doVerifyMerkleProof
  = (verificationHash, true, detail) ->
  Notions.verified_detail detail.
Proof.
  unfold Legacy.verifyRevision, Notions.verified_detail.
  destruct (fetchVerifyPage apiURL revid) as [e|data]; [discriminate|].
  destruct (match prevRevId with Some _ => _ | None => _ end)
    as [e|[[prevSignature prevPublicKey] prevWitnessHash]]; [discriminate|].
  destruct (verifyWitness _ _ _ _ _) as [witnessStatus witness_detail].
  destruct (negb _); [discriminate|].
  destruct (Legacy.signature data) as [[|c sig]|].
  - intros H. injection H as _ <-. eexists. split; [reflexivity|].
    split; [reflexivity | discriminate].
  - destruct (andb _ _); [discriminate|].
    destruct (match recoverAddress _ _ with JS.Returns _ => _ | JS.Throws _ => _ end);
      [|discriminate].
    intros H. injection H as _ <-. eexists. split; [reflexivity|].
    split; reflexivity.
  - intros H. injection H as _ <-. eexists. split; [reflexivity|].
    split; [reflexivity | discriminate].
Qed.

Lemma verifyPage_loop_exhausted (apiURL : string) (doLog doVerifyMerkleProof : bool)
  (verifiedRevIds : list N) :
  forall (previousVerificationHash : option string) (previousRevId : option N)
         (count : nat) (revision_details : list Legacy.Detail)
         (count' : nat) (revision_details' : list Legacy.Detail),
    Legacy.verifyPage_loop fetchBody fetchVerifyPage getWitnessHash verifyWitness
      recoverAddress apiURL doLog doVerifyMerkleProof verifiedRevIds
      previousVerificationHash previousRevId count revision_details
    = JS.Returns (Legacy.Exhausted count' revision_details') ->
    count' = (count + List.length verifiedRevIds)%nat /\
    exists new,
      revision_details' = (revision_details ++ new)%list /\
      List.length new = List.length verifiedRevIds /\
      Forall Notions.verified_detail new.
Proof.
  induction verifiedRevIds as [|revid rest IH];
    intros pvh prid count details count' details'; cbn [Legacy.verifyPage_loop].
  - intros H. injection H as <- <-. split; [cbn; lia|].
    exists []. split; [now rewrite app_nil_r|]. split; [reflexivity | constructor].
  - destruct (fetchBody revid) as [e| |content]; try discriminate.
    destruct (negb (JS.truthy content)); [discriminate|].
    destruct (Legacy.verifyRevision _ _ _ _ _ _ _ _ _ _ _)
      as [[verificationHash isCorrect] detail] eqn:Hrev.
    destruct isCorrect; [|discriminate].
    intros Hloop. destruct (IH _ _ _ _ _ _ Hloop) as [-> (new & -> & Hlen & Hall)].
    split; [cbn; lia|].
    exists (detail :: new). split; [now rewrite <- app_assoc|].
    split; [cbn; now rewrite Hlen|].
    constructor; [|assumption]. exact (verifyRevision_correct_detail _ _ _ _ _ _ _ _ _ Hrev).
Qed.

Lemma verifyPage_loop_early (apiURL : string) (doLog doVerifyMerkleProof : bool)
  (verifiedRevIds : list N) :
  forall (previousVerificationHash : option string) (previousRevId : option N)
         (count : nat) (revision_details revision_details' : list Legacy.Detail),
    Legacy.verifyPage_loop fetchBody fetchVerifyPage getWitnessHash verifyWitness
      recoverAddress apiURL doLog doVerifyMerkleProof verifiedRevIds
      previousVerificationHash previousRevId count revision_details
    = JS.Returns (Legacy.EarlyReturn revision_details') ->
    exists new,
      revision_details' = (revision_details ++ new)%list /\
      (1 <= List.length new <= List.length verifiedRevIds)%nat.
Proof.
  induction verifiedRevIds as [|revid rest IH];
    intros pvh prid count details details'; cbn [Legacy.verifyPage_loop].
  - discriminate.
  - destruct (fetchBody revid) as [e| |content]; try discriminate.
    destruct (negb (JS.truthy content)); [discriminate|].
    destruct (Legacy.verifyRevision _ _ _ _ _ _ _ _ _ _ _)
      as [[verificationHash isCorrect] detail] eqn:Hrev.
    destruct isCorrect.
    + intros Hloop. destruct (IH _ _ _ _ _ Hloop) as (new & -> & Hlen).
      exists (detail :: new). split; [now rewrite <- app_assoc | cbn; lia].
    + intros H. injection H as <-. exists [detail]. split; [reflexivity | cbn; lia].
Qed.

End LegacyLoop.

(** X9: What the status of [verifyPage] says.  "NORECORD" is given exactly
    for a page without revision ids.  "VERIFIED" means that there is at
    least one revision id and one detail per id, each with a matching
    verification hash and, where signed, a valid signature.  "INVALID"
    comes only from the early return inside the loop (the count after the
    loop always equals the number of ids), with the details of the
    revisions up to the failing one.  There is no fourth status. *)
Theorem verifyPage_status
  fetchAllRevs fetchBody fetchVerifyPage getWitnessHash verifyWitness recoverAddress
  (title server : string) (verbose doLog doVerifyMerkleProof : bool)
  (status : string) (verified_ids : list N) (revision_details : list Legacy.Detail) :
  Legacy.verifyPage fetchAllRevs fetchBody fetchVerifyPage getWitnessHash verifyWitness
    recoverAddress title server verbose doLog doVerifyMerkleProof
  = JS.Returns (Legacy.PageStatus status verified_ids revision_details) ->
  (status = "NORECORD" /\ verified_ids = [] /\ revision_details = []) \/
  (status = "VERIFIED" /\ verified_ids <> [] /\
   List.length revision_details = List.length verified_ids /\
   Forall Notions.verified_detail revision_details) \/
  (status = "INVALID" /\
   (1 <= List.length revision_details <= List.length verified_ids)%nat).
Proof.
  unfold Legacy.verifyPage.
  destruct (existsb _ _); [discriminate|].
  destruct (fetchAllRevs _) as [e|e|e|ids]; try discriminate.
  destruct (Legacy.verifyPage_loop _ _ _ _ _ _ _ _ ids _ _ _ _)
    as [[details|count details]|e] eqn:Hloop; [| |discriminate].
  - intros H. injection H as <- <- <-.
    destruct (verifyPage_loop_early _ _ _ _ _ _ _ _ _ _ _ _ _ _ Hloop) as (new & -> & Hlen).
    right. right. split; [reflexivity | exact Hlen].
  - destruct (verifyPage_loop_exhausted _ _ _ _ _ _ _ _ _ _ _ _ _ _ _ Hloop)
      as [-> (new & -> & Hlen & Hall)].
    cbn [Nat.add app]. rewrite Nat.eqb_refl.
    intros H. injection H as <- <- <-.
    destruct ids as [|revid rest].
    + left. destruct new; [|discriminate Hlen]. now repeat split.
    + right. left. split; [reflexivity|]. split; [discriminate|].
      split; assumption.
Qed.

(** X10: The verdict of the legacy [verifyRevision], read from the detail it
    returns: the revision is correct exactly when its verification hash
    matched and it is either unsigned or carries a valid signature and a
    witness status other than "INCONSISTENT".  An unsigned revision is
    correct whatever the witness check said. *)
Theorem legacy_verifyRevision_verdict
  fetchVerifyPage getWitnessHash verifyWitness recoverAddress
  (apiURL : string) (revid : N) (prevRevId : option N)
  (previousVerificationHash : option string) (contentHash : string)
  (isHtml doVerifyMerkleProof : bool)
  (verificationHash : option string) (isCorrect : bool) (d : Legacy.RevisionDetail) :
  Legacy.verifyRevision fetchVerifyPage getWitnessHash verifyWitness recoverAddress
    apiURL revid prevRevId previousVerificationHash contentHash isHtml
    doVerifyMerkleProof
  = (verificationHash, isCorrect, Legacy.DetailOf d) ->
  let witnessStatus :=
    fst (verifyWitness apiURL (Legacy.witness_event_id (Legacy.info d))
           (Legacy.verification_hash (Legacy.info d)) doVerifyMerkleProof isHtml) in
  (isCorrect = true <->
   Legacy.verification_status d = Some "VERIFIED" /\
   (Legacy.is_signed d = false \/
    (Legacy.valid_signature d = true /\ witnessStatus <> "INCONSISTENT"))) /\
  (Legacy.verification_status d = Some "VERIFIED" ->
   verificationHash = Some (Legacy.verification_hash (Legacy.info d))).
Proof.
  unfold Legacy.verifyRevision.
  destruct (fetchVerifyPage apiURL revid) as [e|data]; [discriminate|].
  destruct (match prevRevId with Some _ => _ | None => _ end)
    as [e|[[prevSignature prevPublicKey] prevWitnessHash]]; [discriminate|].
  destruct (verifyWitness apiURL (Legacy.witness_event_id data) _ _ _)
    as [witnessStatus witness_detail] eqn:Hw.
  destruct (negb _).
  { intros H. injection H as <- <- <-. cbn. split.
    - split; [discriminate | intros [H _]; discriminate H].
    - discriminate. }
  destruct (Legacy.signature data) as [[|c sig]|].
  - intros H. injection H as <- <- <-. cbn. split; [|reflexivity].
    split; [intros _; split; [reflexivity | now left] | reflexivity].
  - intros H. injection H as <- <- <-. cbn [Legacy.info Legacy.witness_event_id
      Legacy.verification_hash Legacy.verification_status Legacy.is_signed
      Legacy.valid_signature].
    rewrite Hw. cbn [fst]. split; [|reflexivity].
    assert (Hnw : (witnessStatus =? "INCONSISTENT") = true ->
                  negb (witnessStatus =? "NO_WITNESS") = true).
    { intros E. apply String.eqb_eq in E. subst witnessStatus. reflexivity. }
    destruct (String.eqb_spec witnessStatus "INCONSISTENT") as [E|NE].
    + rewrite (Hnw eq_refl). cbn [andb]. split; [discriminate|].
      intros [_ [H|[_ H]]]; [discriminate H | contradiction].
    + rewrite Bool.andb_false_r.
      split.
      * intros H. split; [reflexivity|]. right. split; assumption.
      * intros [_ [H|[H _]]]; [discriminate H | exact H].
  - intros H. injection H as <- <- <-. cbn. split; [|reflexivity].
    split; [intros _; split; [reflexivity | now left] | reflexivity].
Qed.

(** ** Witness lookups of the legacy verifier *)

(** X11: [verifyWitnessMerkleProof] accepts exactly when the server answers
    with a proof that is not empty and is a consistent path from the
    verification hash; [verifyMerkleIntegrity] alone accepts the empty
    proof. *)
Theorem verifyWitnessMerkleProof_accepts_iff
  (fetchMerkleProof : string -> Legacy.Fetch (list MerkleNode))
  (apiURL : string) (witness_event_id : option N) (verificationHash : string) :
  Wiki.verifyWitnessMerkleProof fetchMerkleProof apiURL witness_event_id verificationHash
  = true
  <-> exists witnessMerkleProof,
        fetchMerkleProof
          (apiURL ++ "/standard/request_merkle_proof?var1="
           ++ Wiki.id_text witness_event_id ++ "&var2=" ++ verificationHash)
        = Legacy.Ok witnessMerkleProof /\
        witnessMerkleProof <> [] /\
        Spec.proof_path Spec.hashed_successor verificationHash witnessMerkleProof.
Proof.
  unfold Wiki.verifyWitnessMerkleProof.
  destruct (fetchMerkleProof _) as [e|proof].
  - split; [discriminate | intros (p & H & _); discriminate H].
  - destruct proof as [|node rest].
    + cbn. split; [discriminate|]. intros (p & H & Hne & _).
      injection H as <-. contradiction.
    + change (List.length (node :: rest) =? 0)%nat with false. cbv iota.
      unfold Legacy.verifyMerkleIntegrity. rewrite legacy_loop_path_check.
      rewrite (path_check_iff _ hashed_successor_start (node :: rest)
                              verificationHash None); [|discriminate].
      cbn [Spec.sought]. split.
      * intros H. exists (node :: rest). split; [reflexivity|].
        split; [discriminate | exact H].
      * intros (p & H & _ & Hp). injection H as <-. exact Hp.
Qed.

Section WikiWitness.
Variable fetchWitnessData : string -> Wiki.WitnessResponse.
Variable fetchMerkleProof : string -> Legacy.Fetch (list MerkleNode).

Lemma verifyWitness_status_any_lookup (checkEtherScan checkEtherScan' : string -> string -> string -> string)
  (apiURL : string) (witness_event_id : option N) (verification_hash : string)
  (doVerifyMerkleProof isHtml : bool) :
  fst (Wiki.verifyWitness fetchWitnessData fetchMerkleProof checkEtherScan apiURL
         witness_event_id verification_hash doVerifyMerkleProof isHtml)
  = fst (Wiki.verifyWitness fetchWitnessData fetchMerkleProof checkEtherScan' apiURL
           witness_event_id verification_hash doVerifyMerkleProof isHtml).
Proof.
  unfold Wiki.verifyWitness.
  destruct (negb (Wiki.ok _)); [reflexivity|].
  destruct (Wiki.text _) as [|witnessData]; [reflexivity|].
  destruct (negb (_ =? _)); [reflexivity|].
  destruct doVerifyMerkleProof; [|reflexivity].
  destruct (_ =? _); [reflexivity|].
  destruct (Wiki.verifyWitnessMerkleProof _ _ _ _); reflexivity.
Qed.

End WikiWitness.

(** X12: [verifyWitness] answers "MATCHES" exactly when the server knows the
    witness event, the event's verification hash is the hash of the
    domain manifest hash and the Merkle root, and, when the Merkle proof
    is asked for, the revision is the domain manifest or its Merkle proof
    is accepted.  The Etherscan lookup has no part in it. *)
Theorem verifyWitness_matches_iff
  (fetchWitnessData : string -> Wiki.WitnessResponse)
  (fetchMerkleProof : string -> Legacy.Fetch (list MerkleNode))
  (checkEtherScan : string -> string -> string -> string)
  (apiURL : string) (witness_event_id : option N) (verification_hash : string)
  (doVerifyMerkleProof isHtml : bool) :
  fst (Wiki.verifyWitness fetchWitnessData fetchMerkleProof checkEtherScan apiURL
         witness_event_id verification_hash doVerifyMerkleProof isHtml)
  = "MATCHES"
  <-> exists witnessData,
        let witnessResponse :=
          fetchWitnessData (apiURL ++ "/standard/get_witness_data?var1="
                            ++ Wiki.id_text witness_event_id) in
        Wiki.ok witnessResponse = true /\
        Wiki.text witnessResponse = Wiki.WitnessJson witnessData /\
        Legacy.getHashSum (Wiki.domain_manifest_verification_hash witnessData
                           ++ Wiki.merkle_root witnessData)
        = Wiki.witness_event_verification_hash witnessData /\
        (doVerifyMerkleProof = false \/
         verification_hash = Wiki.domain_manifest_verification_hash witnessData \/
         Wiki.verifyWitnessMerkleProof fetchMerkleProof apiURL witness_event_id
           verification_hash = true).
Proof.
  unfold Wiki.verifyWitness.
  destruct (Wiki.ok _) eqn:Hok; cbn [negb].
  2:{ cbn. split; [discriminate | intros (d & H & _); discriminate H]. }
  destruct (Wiki.text _) as [|witnessData] eqn:Htext.
  { cbn. split; [discriminate | intros (d & _ & H & _); discriminate H]. }
  destruct (String.eqb_spec
              (Legacy.getHashSum (Wiki.domain_manifest_verification_hash witnessData
                                  ++ Wiki.merkle_root witnessData))
              (Wiki.witness_event_verification_hash witnessData)) as [E|NE]; cbn [negb].
  2:{ cbn [fst]. split; [discriminate|].
      intros (d & _ & H & Hh & _). injection H as <-. contradiction. }
  destruct doVerifyMerkleProof.
  2:{ cbn [fst]. split; [|reflexivity]. intros _. exists witnessData.
      cbv zeta. repeat split; try assumption. now left. }
  destruct (String.eqb_spec verification_hash
              (Wiki.domain_manifest_verification_hash witnessData)) as [Ed|NEd].
  { cbn [fst]. split; [|reflexivity]. intros _. exists witnessData.
    cbv zeta. repeat split; try assumption. right. now left. }
  destruct (Wiki.verifyWitnessMerkleProof _ _ _ _) eqn:Hmp; cbn [fst].
  - split; [|reflexivity]. intros _. exists witnessData.
    cbv zeta. repeat split; try assumption. right. now right.
  - split; [discriminate|].
    intros (d & _ & H & _ & [Hf|[Hd|Hp]]); injection H as <-;
      [discriminate Hf | contradiction | discriminate Hp].
Qed.

Section WikiLookup.
Variable fetchWitnessData : string -> Wiki.WitnessResponse.
Variable fetchMerkleProof : string -> Legacy.Fetch (list MerkleNode).
Variable checkEtherScan checkEtherScan' : string -> string -> string -> string.
Variable fetchAllRevs : string -> Legacy.AllRevsFetch.
Variable fetchBody : N -> Legacy.BodyFetch.
Variable fetchVerifyPage : string -> N -> Legacy.Fetch Legacy.RevisionInfo.
Variable recoverAddress : string -> string -> JS.try string.

Lemma verifyRevision_verdict_any_lookup (apiURL : string) (revid : N)
  (prevRevId : option N) (previousVerificationHash : option string)
  (contentHash : string) (isHtml doVerifyMerkleProof : bool) :
  fst (Wiki.verifyRevision fetchWitnessData fetchMerkleProof checkEtherScan
         fetchVerifyPage recoverAddress apiURL revid prevRevId previousVerificationHash
         contentHash isHtml doVerifyMerkleProof)
  = fst (Wiki.verifyRevision fetchWitnessData fetchMerkleProof checkEtherScan'
           fetchVerifyPage recoverAddress apiURL revid prevRevId
           previousVerificationHash contentHash isHtml doVerifyMerkleProof).
Proof.
  unfold Wiki.verifyRevision, Legacy.verifyRevision.
  destruct (fetchVerifyPage apiURL revid) as [e|data]; [reflexivity|].
  destruct (match prevRevId with Some _ => _ | None => _ end)
    as [e|[[prevSignature prevPublicKey] prevWitnessHash]]; [reflexivity|].
  pose proof (verifyWitness_status_any_lookup fetchWitnessData fetchMerkleProof
                checkEtherScan checkEtherScan' apiURL (Legacy.witness_event_id data)
                (Legacy.verification_hash data) doVerifyMerkleProof isHtml) as Hstatus.
  destruct (Wiki.verifyWitness _ _ checkEtherScan _ _ _ _ _) as [witnessStatus detail].
  destruct (Wiki.verifyWitness _ _ checkEtherScan' _ _ _ _ _) as [witnessStatus' detail'].
  cbn [fst] in Hstatus. subst witnessStatus'.
  destruct (negb _); [reflexivity|].
  destruct (Legacy.signature data) as [[|c sig]|]; reflexivity.
Qed.

(** The two loops end the same way, whatever details they collect. *)
Lemma verifyPage_loop_any_lookup (apiURL : string) (doLog doVerifyMerkleProof : bool)
  (verifiedRevIds : list N) :
  forall (previousVerificationHash : option string) (previousRevId : option N)
         (count : nat) (revision_details revision_details' : list Legacy.Detail),
    List.length revision_details = List.length revision_details' ->
    match
      Legacy.verifyPage_loop fetchBody fetchVerifyPage
        (Wiki.getWitnessHash fetchWitnessData)
        (Wiki.verifyWitness fetchWitnessData fetchMerkleProof checkEtherScan)
        recoverAddress apiURL doLog doVerifyMerkleProof verifiedRevIds
        previousVerificationHash previousRevId count revision_details,
      Legacy.verifyPage_loop fetchBody fetchVerifyPage
        (Wiki.getWitnessHash fetchWitnessData)
        (Wiki.verifyWitness fetchWitnessData fetchMerkleProof checkEtherScan')
        recoverAddress apiURL doLog doVerifyMerkleProof verifiedRevIds
        previousVerificationHash previousRevId count revision_details'
    with
    | JS.Throws e, JS.Throws e' => e = e'
    | JS.Returns (Legacy.EarlyReturn d), JS.Returns (Legacy.EarlyReturn d') =>
        List.length d = List.length d'
    | JS.Returns (Legacy.Exhausted c d), JS.Returns (Legacy.Exhausted c' d') =>
        c = c' /\ List.length d = List.length d'
    | _, _ => False
    end.
Proof.
  induction verifiedRevIds as [|revid rest IH];
    intros pvh prid count details details' Hlen; cbn [Legacy.verifyPage_loop].
  - split; [reflexivity | assumption].
  - destruct (fetchBody revid) as [e| |content]; try reflexivity.
    destruct (negb (JS.truthy content)); [reflexivity|].
    pose proof (verifyRevision_verdict_any_lookup apiURL revid prid pvh
                  (Legacy.getHashSum content) (negb doLog) doVerifyMerkleProof) as Hv.
    unfold Wiki.verifyRevision in Hv.
    destruct (Legacy.verifyRevision _ _ (Wiki.verifyWitness _ _ checkEtherScan) _ _ _ _ _ _ _ _)
      as [[verificationHash isCorrect] detail].
    destruct (Legacy.verifyRevision _ _ (Wiki.verifyWitness _ _ checkEtherScan') _ _ _ _ _ _ _ _)
      as [[verificationHash' isCorrect'] detail'].
    cbn [fst] in Hv. injection Hv as <- <-.
    destruct isCorrect.
    + apply IH. rewrite !length_app. cbn. now rewrite Hlen.
    + rewrite !length_app. cbn. now rewrite Hlen.
Qed.

End WikiLookup.

(** X13: The status that [verifyPage] reports never depends on the Etherscan
    lookup: with any other answers of [checkEtherScan] the page gets the
    same status over the same revision ids, with as many details; only
    the witness log inside the details can differ. *)
Theorem verifyPage_ignores_etherscan
  (fetchWitnessData : string -> Wiki.WitnessResponse)
  (fetchMerkleProof : string -> Legacy.Fetch (list MerkleNode))
  (checkEtherScan checkEtherScan' : string -> string -> string -> string)
  fetchAllRevs fetchBody fetchVerifyPage recoverAddress
  (title server : string) (verbose doLog doVerifyMerkleProof : bool)
  (status : string) (verified_ids : list N) (revision_details : list Legacy.Detail) :
  Wiki.verifyPage fetchWitnessData fetchMerkleProof checkEtherScan fetchAllRevs fetchBody
    fetchVerifyPage recoverAddress title server verbose doLog doVerifyMerkleProof
  = JS.Returns (Legacy.PageStatus status verified_ids revision_details) ->
  exists revision_details',
    Wiki.verifyPage fetchWitnessData fetchMerkleProof checkEtherScan' fetchAllRevs
      fetchBody fetchVerifyPage recoverAddress title server verbose doLog
      doVerifyMerkleProof
    = JS.Returns (Legacy.PageStatus status verified_ids revision_details') /\
    List.length revision_details' = List.length revision_details.
Proof.
  unfold Wiki.verifyPage, Legacy.verifyPage.
  destruct (existsb _ _); [discriminate|].
  destruct (fetchAllRevs _) as [e|e|e|ids]; try discriminate.
  pose proof (verifyPage_loop_any_lookup fetchWitnessData fetchMerkleProof
                checkEtherScan checkEtherScan' fetchBody fetchVerifyPage recoverAddress
                (server ++ "/rest.php/data_accounting/v1") doLog doVerifyMerkleProof ids
                (Some "") None 0%nat [] [] eq_refl) as Hloops.
  destruct (Legacy.verifyPage_loop _ _ _ (Wiki.verifyWitness _ _ checkEtherScan) _ _ _ _ _ _ _ _ _)
    as [[d|c d]|e];
    destruct (Legacy.verifyPage_loop _ _ _ (Wiki.verifyWitness _ _ checkEtherScan') _ _ _ _ _ _ _ _ _)
      as [[d'|c' d']|e']; try contradiction; try discriminate.
  - intros H. injection H as <- <- <-. exists d'. split; [reflexivity | now symmetry].
  - destruct Hloops as [<- Hlen].
    intros H. injection H as <- <- <-. exists d'. split; [reflexivity | now symmetry].
Qed.

(** ** Timestamps *)

Lemma append_assoc (a b c : string) : (a ++ b) ++ c = a ++ b ++ c.
Proof. induction a as [|d a IH]; cbn; [reflexivity | now rewrite IH]. Qed.

Lemma append_empty_r (s : string) : s ++ "" = s.
Proof. induction s as [|c s IH]; cbn; [reflexivity | now rewrite IH]. Qed.

Lemma remove_all_app (c : ascii) (a b : string) :
  Text.remove_all c (a ++ b) = Text.remove_all c a ++ Text.remove_all c b.
Proof.
  induction a as [|d a IH]; cbn; [reflexivity|].
  destruct (Ascii.eqb d c); cbn; now rewrite IH.
Qed.

Lemma remove_all_absent (c : ascii) (s : string) :
  Forall (fun d => d <> c) (list_ascii_of_string s) -> Text.remove_all c s = s.
Proof.
  induction s as [|d s IH]; cbn; intros H; [reflexivity|].
  inversion H as [|x xs Hd Hs]; subst.
  destruct (Ascii.eqb_spec d c) as [E|_]; [contradiction|]. now rewrite IH.
Qed.

Lemma remove_first_absent_app (c : ascii) (a b : string) :
  Forall (fun d => d <> c) (list_ascii_of_string a) ->
  Text.remove_first c (a ++ b) = a ++ Text.remove_first c b.
Proof.
  induction a as [|d a IH]; cbn; intros H; [reflexivity|].
  inversion H as [|x xs Hd Hs]; subst.
  destruct (Ascii.eqb_spec d c) as [E|_]; [contradiction|]. now rewrite IH.
Qed.

Lemma indexOf_absent_app (c : ascii) (a b : string) :
  Forall (fun d => d <> c) (list_ascii_of_string a) ->
  Text.indexOf c (a ++ String c b) = Some (String.length a).
Proof.
  induction a as [|d a IH]; cbn; intros H.
  - now rewrite Ascii.eqb_refl.
  - inversion H as [|x xs Hd Hs]; subst.
    destruct (Ascii.eqb_spec d c) as [E|_]; [contradiction|]. now rewrite IH.
Qed.

Lemma substring_prefix (a b : string) :
  String.substring 0 (String.length a) (a ++ b) = a.
Proof.
  induction a as [|d a IH]; cbn; [now destruct b | now rewrite IH].
Qed.

Lemma digits_without (c : ascii) (s : string) :
  Notions.digits s = true ->
  (nat_of_ascii c <? 48)%nat || (57 <? nat_of_ascii c)%nat = true ->
  Forall (fun d => d <> c) (list_ascii_of_string s).
Proof.
  unfold Notions.digits. intros Hs Hc. rewrite forallb_forall in Hs.
  apply Forall_forall. intros d Hd E. subst d.
  specialize (Hs c Hd). apply Bool.andb_true_iff in Hs. destruct Hs as [H1 H2].
  apply Nat.leb_le in H1, H2.
  apply Bool.orb_true_iff in Hc. destruct Hc as [H|H]; apply Nat.ltb_lt in H; lia.
Qed.

Lemma digits_app (a b : string) :
  Notions.digits a = true -> Notions.digits b = true -> Notions.digits (a ++ b) = true.
Proof.
  unfold Notions.digits. induction a as [|c a IH]; cbn; intros Ha Hb; [assumption|].
  apply Bool.andb_true_iff in Ha. destruct Ha as [Hc Ha].
  rewrite Hc. cbn. now apply IH.
Qed.

Lemma strip_separators (date1 date2 date3 time1 time2 time3 tail : string) :
  Notions.digits date1 = true -> Notions.digits date2 = true ->
  Notions.digits date3 = true -> Notions.digits time1 = true ->
  Notions.digits time2 = true -> Notions.digits time3 = true ->
  tail = "" \/ tail = "Z" ->
  Text.remove_first "Z"
    (Text.remove_first "T"
       (Text.remove_all ":"
          (Text.remove_all "-"
             (date1 ++ "-" ++ date2 ++ "-" ++ date3 ++ "T"
              ++ time1 ++ ":" ++ time2 ++ ":" ++ time3 ++ tail))))
  = date1 ++ date2 ++ date3 ++ time1 ++ time2 ++ time3.
Proof.
  intros H1 H2 H3 H4 H5 H6 Htail.
  assert (Hd : forall s, Notions.digits s = true -> Text.remove_all "-" s = s)
    by (intros s Hs; apply remove_all_absent, digits_without; [assumption | reflexivity]).
  assert (Hc : forall s, Notions.digits s = true -> Text.remove_all ":" s = s)
    by (intros s Hs; apply remove_all_absent, digits_without; [assumption | reflexivity]).
  repeat first [ rewrite remove_all_app
               | rewrite Hd by assumption
               | progress cbn [append Text.remove_all Ascii.eqb Bool.eqb] ].
  replace (Text.remove_all "-" tail) with tail by (destruct Htail as [-> | ->]; reflexivity).
  repeat first [ rewrite remove_all_app
               | rewrite Hc by assumption
               | progress cbn [append Text.remove_all Ascii.eqb Bool.eqb] ].
  replace (Text.remove_all ":" tail) with tail by (destruct Htail as [-> | ->]; reflexivity).
  assert (E : date1 ++ date2 ++ date3 ++ String "T" (time1 ++ time2 ++ time3 ++ tail)
              = (date1 ++ date2 ++ date3) ++ String "T" ((time1 ++ time2 ++ time3) ++ tail)).
  { now rewrite !append_assoc. }
  rewrite E.
  rewrite remove_first_absent_app
    by (apply digits_without; [now repeat apply digits_app | reflexivity]).
  cbn [Text.remove_first Ascii.eqb Bool.eqb].
  rewrite remove_first_absent_app
    by (apply digits_without; [now repeat apply digits_app | reflexivity]).
  rewrite remove_first_absent_app
    by (apply digits_without; [now repeat apply digits_app | reflexivity]).
  destruct Htail as [-> | ->]; cbn [Text.remove_first Ascii.eqb Bool.eqb];
    now rewrite append_empty_r, !append_assoc.
Qed.

(** X14: [formatMwTimestamp] turns an ISO 8601 time, with or without its
    final "Z", into the MediaWiki form: the digits of the date and the
    time, in order, and nothing else. *)
Theorem formatMwTimestamp_iso (date1 date2 date3 time1 time2 time3 tail : string) :
  Notions.digits date1 = true -> Notions.digits date2 = true ->
  Notions.digits date3 = true -> Notions.digits time1 = true ->
  Notions.digits time2 = true -> Notions.digits time3 = true ->
  tail = "" \/ tail = "Z" ->
  let ts := date1 ++ "-" ++ date2 ++ "-" ++ date3 ++ "T"
            ++ time1 ++ ":" ++ time2 ++ ":" ++ time3 ++ tail in
  Wiki.formatMwTimestamp ts = date1 ++ date2 ++ date3 ++ time1 ++ time2 ++ time3 /\
  ScriptVerify.formatMwTimestamp ts = Wiki.formatMwTimestamp ts /\
  Genesis.formatMwTimestamp ts = Wiki.formatMwTimestamp ts.
Proof.
  intros H1 H2 H3 H4 H5 H6 Htail ts. subst ts.
  split; [|split; reflexivity].
  now apply strip_separators.
Qed.

Lemma formatMwTimestamp_iso_witness :
  Wiki.formatMwTimestamp "2021-09-27T07:51:24Z" = "20210927075124".
Proof.
  exact (proj1 (formatMwTimestamp_iso "2021" "09" "27" "07" "51" "24" "Z"
                  eq_refl eq_refl eq_refl eq_refl eq_refl eq_refl (or_intror eq_refl))).
Defined.

(** X15: The timestamp that the main function of [notarize.js] gives to a
    revision: from the ISO 8601 time of [toISOString], which carries
    milliseconds, the fourteen digits of date and time down to the
    second. *)
Theorem timestamp_of_iso (date1 date2 date3 time1 time2 time3 millis : string) :
  Notions.digits date1 = true -> Notions.digits date2 = true ->
  Notions.digits date3 = true -> Notions.digits time1 = true ->
  Notions.digits time2 = true -> Notions.digits time3 = true ->
  Genesis.timestamp_of
    (date1 ++ "-" ++ date2 ++ "-" ++ date3 ++ "T"
     ++ time1 ++ ":" ++ time2 ++ ":" ++ time3 ++ "." ++ millis ++ "Z")
  = date1 ++ date2 ++ date3 ++ time1 ++ time2 ++ time3.
Proof.
  intros H1 H2 H3 H4 H5 H6. unfold Genesis.timestamp_of, Genesis.formatMwTimestamp.
  set (head := date1 ++ "-" ++ date2 ++ "-" ++ date3 ++ "T"
               ++ time1 ++ ":" ++ time2 ++ ":" ++ time3).
  assert (E : date1 ++ "-" ++ date2 ++ "-" ++ date3 ++ "T"
              ++ time1 ++ ":" ++ time2 ++ ":" ++ time3 ++ "." ++ millis ++ "Z"
              = head ++ String "." (millis ++ "Z")).
  { subst head. cbn [append]. rewrite !append_assoc. cbn [append].
    repeat (rewrite ?append_assoc; cbn [append]). reflexivity. }
  rewrite E.
  assert (Hdot : Forall (fun d => d <> "."%char) (list_ascii_of_string head)).
  { subst head.
    assert (Hp : forall s, Notions.digits s = true ->
                           Forall (fun d => d <> "."%char) (list_ascii_of_string s))
      by (intros s Hs; apply digits_without; [assumption | reflexivity]).
    assert (Happ : forall a b,
               Forall (fun d => d <> "."%char) (list_ascii_of_string a) ->
               Forall (fun d => d <> "."%char) (list_ascii_of_string b) ->
               Forall (fun d => d <> "."%char) (list_ascii_of_string (a ++ b))).
    { intros a b Ha Hb. induction a as [|c a IH]; cbn; [assumption|].
      inversion Ha; subst. constructor; [assumption | now apply IH]. }
    repeat (apply Happ; [first [now apply Hp | repeat constructor; discriminate]|]).
    now apply Hp. }
  rewrite (indexOf_absent_app _ _ _ Hdot).
  unfold Text.slice_to, JS.slice. rewrite Nat.sub_0_r, substring_prefix.
  subst head.
  pose proof (strip_separators date1 date2 date3 time1 time2 time3 ""
                H1 H2 H3 H4 H5 H6 (or_introl eq_refl)) as Hs.
  rewrite append_empty_r in Hs. exact Hs.
Qed.

Lemma timestamp_of_iso_witness :
  Genesis.timestamp_of "2024-01-01T00:00:00.000Z" = "20240101000000".
Proof.
  exact (timestamp_of_iso "2024" "01" "01" "00" "00" "00" "000"
           eq_refl eq_refl eq_refl eq_refl eq_refl eq_refl).
Defined.

(** ** The chain builder, kind by kind *)

(** ** Objects *)

Lemma get_after_set {V} (k : string) (v : V) (o : JS.obj V) :
  JS.get k (JS.set k v o) = Some v.
Proof.
  induction o as [|[k' v'] o IH]; cbn.
  - now rewrite String.eqb_refl.
  - destruct (String.eqb_spec k k') as [E|NE]; cbn.
    + now rewrite String.eqb_refl.
    + destruct (String.eqb_spec k k') as [E|_]; [contradiction | exact IH].
Qed.

Lemma get_after_set_other {V} (k k' : string) (v : V) (o : JS.obj V) :
  k <> k' -> JS.get k (JS.set k' v o) = JS.get k o.
Proof.
  intros Hne. induction o as [|[k'' v''] o IH]; cbn.
  - destruct (String.eqb_spec k k') as [E|_]; [contradiction | reflexivity].
  - destruct (String.eqb_spec k' k'') as [E|NE]; cbn.
    + subst k''. destruct (String.eqb_spec k k') as [E|_]; [contradiction | reflexivity].
    + destruct (String.eqb_spec k k''); [reflexivity | exact IH].
Qed.

Lemma get_after_spread_other {V} (k : string) (b : JS.obj V) :
  forall a : JS.obj V,
    ~ In k (JS.keys b) -> JS.get k (JS.spread a b) = JS.get k a.
Proof.
  unfold JS.spread. induction b as [|[k' v'] b IH]; intros a Hnotin; cbn; [reflexivity|].
  rewrite IH.
  - apply get_after_set_other. intros E. apply Hnotin. cbn. now left.
  - intros Hin. apply Hnotin. cbn. now right.
Qed.

Lemma keys_after_set {V} (k : string) (v : V) (o : JS.obj V) :
  JS.keys (JS.set k v o) = if JS.has k o then JS.keys o else (JS.keys o ++ [k])%list.
Proof.
  unfold JS.has, JS.keys. induction o as [|[k' v'] o IH]; cbn; [reflexivity|].
  destruct (String.eqb_spec k k') as [E|NE]; cbn.
  - now subst k'.
  - rewrite IH. now destruct (JS.get k o).
Qed.

Lemma in_keys_after_set {V} (k k' : string) (v : V) (o : JS.obj V) :
  In k (JS.keys (JS.set k' v o)) -> k = k' \/ In k (JS.keys o).
Proof.
  rewrite keys_after_set. destruct (JS.has k' o); [now right|].
  intros H. apply in_app_or in H. destruct H as [H|[H|[]]]; [now right | now left].
Qed.

(** ** Steps of the builder that leave the tree alone *)

Section Keeps.
Import Notarize.
Context {S : Type}.

Lemma keeps_ret {A} (a : A) : Steps.keeps_state (@ret S A a).
Proof. intros s. reflexivity. Qed.

Lemma keeps_exit {A} (r : ExitReason) : Steps.keeps_state (@exit S A r).
Proof. intros s. reflexivity. Qed.

Lemma keeps_throw {A} (e : string) : Steps.keeps_state (@throw S A e).
Proof. intros s. reflexivity. Qed.

Lemma keeps_getS : Steps.keeps_state (@getS S).
Proof. intros s. reflexivity. Qed.

Lemma keeps_lift_try {A} (r : JS.try A) : Steps.keeps_state (@lift_try S A r).
Proof. intros s. destruct r; reflexivity. Qed.

Lemma keeps_bind {A B} (m : M S A) (k : A -> M S B) :
  Steps.keeps_state m -> (forall a, Steps.keeps_state (k a)) ->
  Steps.keeps_state (bind m k).
Proof.
  intros Hm Hk s. unfold bind. specialize (Hm s).
  destruct (m s) as [s' a|r s'|e s']; subst; [|reflexivity|reflexivity].
  exact (Hk a s).
Qed.

Lemma keeps_mapM {A B} (f : A -> M S B) (xs : list A) :
  (forall x, Steps.keeps_state (f x)) -> Steps.keeps_state (mapM f xs).
Proof.
  intros Hf. induction xs as [|x rest IH]; cbn [mapM]; [apply keeps_ret|].
  apply keeps_bind; [apply Hf|]. intros y.
  apply keeps_bind; [exact IH|]. intros ys. apply keeps_ret.
Qed.

Lemma keeps_prepareSignature (W : World) (C : Config) (previousVerificationHash : jsval) :
  Steps.keeps_state (@prepareSignature W C S previousVerificationHash).
Proof.
  unfold prepareSignature.
  destruct (_ =? "metamask").
  { destruct (metamaskSign W _) as [[[sig addr] pk]|]; [apply keeps_ret | apply keeps_exit]. }
  destruct (_ =? "cli").
  { destruct (cliWallet W); [apply keeps_ret | apply keeps_exit]. }
  destruct (_ =? "did"); [|apply keeps_ret].
  destruct (didSign W _) as [[jws key]|]; [apply keeps_ret | apply keeps_exit].
Qed.

Lemma keeps_prepareWitness (W : World) (C : Config) (verificationHash : jsval) :
  Steps.keeps_state (@prepareWitness W C S verificationHash).
Proof.
  unfold prepareWitness.
  destruct (witnessMethod C) as [[|c method]|]; try apply keeps_exit.
  apply keeps_bind.
  - destruct (_ =? "nostr").
    { destruct (witnessNostr W _) as [[[tx pub] ts]|]; [apply keeps_ret | apply keeps_throw]. }
    destruct (_ =? "tsa").
    { destruct (witnessTsa W _ _) as [[[tx pub] ts]|]; [apply keeps_ret | apply keeps_throw]. }
    destruct (_ =? "eth"); [|apply keeps_exit].
    destruct (witnessEth W _ _ _) as [[tx pub]|]; [apply keeps_ret | apply keeps_exit].
  - intros [[[[net addr] tx] pub] ts]. apply keeps_ret.
Qed.

Lemma keeps_getLatestVH (W : World) (uri : string) :
  Steps.keeps_state (@getLatestVH W S uri).
Proof.
  unfold getLatestVH. destruct (readAquaFile W uri);
    [apply keeps_throw | apply keeps_throw | apply keeps_ret].
Qed.

Lemma keeps_checkFileHashAlreadyNotarized (fileHash : string) (aqua : AquaObject) :
  Steps.keeps_state (@checkFileHashAlreadyNotarized S fileHash aqua).
Proof.
  unfold checkFileHashAlreadyNotarized.
  destruct (find _ _); [apply keeps_exit | apply keeps_ret].
Qed.

End Keeps.

Lemma keeps_kind_fields (W : Notarize.World) (C : Notarize.Config)
  (revisionType : string) (previousVerificationHash : Notarize.jsval)
  (verificationData : Notarize.Revision) :
  Steps.keeps_state
    (Notarize.kind_fields W C revisionType previousVerificationHash verificationData).
Proof.
  unfold Notarize.kind_fields.
  destruct (revisionType =? "file").
  { destruct (Notarize.readFileSync W _); [|apply keeps_throw].
    apply keeps_bind; [apply keeps_getS|]. intros t.
    apply keeps_bind; [apply keeps_checkFileHashAlreadyNotarized|]. intros _.
    apply keeps_ret. }
  destruct (revisionType =? "signature").
  { apply keeps_bind; [apply keeps_prepareSignature|]. intros sigData. apply keeps_ret. }
  destruct (revisionType =? "witness").
  { apply keeps_bind; [apply keeps_prepareWitness|]. intros witness. apply keeps_ret. }
  destruct (revisionType =? "form").
  { destruct (match Notarize.form_file_name C with Some _ => _ | None => _ end);
      [|apply keeps_exit].
    apply keeps_bind; [apply keeps_getS|]. intros t.
    apply keeps_bind; [apply keeps_checkFileHashAlreadyNotarized|]. intros _.
    destruct (Notarize.JSON_parse W _); [|apply keeps_exit].
    apply keeps_bind; [apply keeps_lift_try|]. intros entries. apply keeps_ret. }
  destruct (revisionType =? "link"); [|apply keeps_ret].
  destruct (Notarize.linkURIs C); [|apply keeps_throw].
  destruct (existsb _ _); [apply keeps_exit|].
  apply keeps_bind; [apply keeps_mapM; intros uri; apply keeps_getLatestVH|].
  intros linkVHs.
  apply keeps_bind.
  { apply keeps_mapM. intros uri.
    destruct (Notarize.getFileHashSum W uri); [apply keeps_ret | apply keeps_throw]. }
  intros linkFileHashes.
  apply keeps_bind; [apply keeps_getS|]. intros t.
  destruct (existsb _ _); [apply keeps_exit | apply keeps_ret].
Qed.

(** ** [createNewRevision] *)

Lemma valid_type_cases (revisionType : string) :
  JS.includes Notarize.validRevisionTypes revisionType = true ->
  revisionType = "file" \/ revisionType = "signature" \/ revisionType = "witness" \/
  revisionType = "form" \/ revisionType = "link".
Proof.
  unfold JS.includes, Notarize.validRevisionTypes. cbn [existsb].
  rewrite !Bool.orb_true_iff, !String.eqb_eq. intuition discriminate.
Qed.

Lemma forms_keys (entries : JS.obj Notarize.jsval) :
  forall (acc : JS.obj Notarize.jsval) (k : string),
    In k (JS.keys (fold_left (fun acc kv => JS.set ("forms_" ++ fst kv) (snd kv) acc)
                             entries acc)) ->
    In k (JS.keys acc) \/ exists k', k = "forms_" ++ k'.
Proof.
  induction entries as [|[k0 v0] entries IH]; intros acc k; cbn [fold_left fst snd].
  - now left.
  - intros H. destruct (IH _ _ H) as [Hin|Hex]; [|now right].
    destruct (in_keys_after_set _ _ _ _ Hin) as [-> | Hin']; [right; now exists k0 | now left].
Qed.

(** The payload of a revision keeps what it starts from: the fields a
    kind adds never replace the parent hash, the timestamp or the type. *)
Lemma kind_fields_base (W : Notarize.World) (C : Notarize.Config)
  (t t1 : Notarize.AquaTree) (revisionType : string)
  (previousVerificationHash : Notarize.jsval)
  (base verificationData : Notarize.Revision) (k : string) :
  In k ["previous_verification_hash"; "local_timestamp"; "revision_type"] ->
  Notarize.kind_fields W C revisionType previousVerificationHash base t
  = Notarize.Done t1 verificationData ->
  JS.get k verificationData = JS.get k base.
Proof.
  intros Hk. unfold Notarize.kind_fields.
  assert (Hset : forall k' v (o : Notarize.Revision),
             In k' ["content"; "file_hash"; "file_nonce"] ->
             JS.get k (JS.set k' v o) = JS.get k o).
  { intros k' v o Hk'. apply get_after_set_other. intros E. subst k'.
    cbn in Hk, Hk'. intuition (subst; discriminate). }
  destruct (revisionType =? "file").
  { destruct (Notarize.readFileSync W _) as [fileContent|]; [|discriminate].
    unfold Notarize.bind, Notarize.getS.
    destruct (Notarize.checkFileHashAlreadyNotarized _ _ t) as [s u| |]; try discriminate.
    unfold Notarize.ret. intros H. injection H as _ <-.
    rewrite !Hset by (cbn; auto).
    destruct (Notarize.enableContent C); [|reflexivity].
    change (JS.get k (JS.set "content" (Notarize.JStr fileContent) base) = JS.get k base).
    apply Hset; cbn; auto. }
  destruct (revisionType =? "signature").
  { unfold Notarize.bind.
    destruct (Notarize.prepareSignature W C _ t) as [s sigData| |] eqn:Hsig; try discriminate.
    unfold Notarize.ret. intros H. injection H as _ <-.
    apply get_after_spread_other.
    unfold Notarize.prepareSignature in Hsig.
    assert (Hfields : forall a b c d,
               ~ In k (JS.keys (Notarize.signature_fields a b c d))).
    { intros a b c d Hin. cbn in Hk, Hin. intuition (subst; discriminate). }
    set (method := JS.nullish_or (Notarize.signMethod C) "") in Hsig.
    destruct (method =? "metamask").
    { destruct (Notarize.metamaskSign W _) as [[[sig addr] pk]|]; [|discriminate Hsig].
      injection Hsig as _ <-. apply Hfields. }
    destruct (method =? "cli").
    { destruct (Notarize.cliWallet W) as [wallet|]; [|discriminate Hsig].
      injection Hsig as _ <-. apply Hfields. }
    destruct (method =? "did").
    { destruct (Notarize.didSign W _) as [[jws key]|]; [|discriminate Hsig].
      injection Hsig as _ <-. apply Hfields. }
    injection Hsig as _ <-. apply Hfields. }
  destruct (revisionType =? "witness").
  { unfold Notarize.bind.
    destruct (Notarize.prepareWitness W C _ t) as [s witness| |] eqn:Hwit; try discriminate.
    unfold Notarize.ret. intros H. injection H as _ <-.
    destruct (prepareWitness_done W C _ _ _ _ Hwit)
      as [_ (ts & net & addr & tx & pub & ->)].
    apply get_after_spread_other.
    intros Hin. cbn in Hk, Hin. intuition (subst; discriminate). }
  destruct (revisionType =? "form").
  { destruct (match Notarize.form_file_name C with Some _ => _ | None => _ end)
      as [form_data|]; [|discriminate].
    unfold Notarize.bind, Notarize.getS.
    destruct (Notarize.checkFileHashAlreadyNotarized _ _ t) as [s u| |]; try discriminate.
    destruct (Notarize.JSON_parse W form_data) as [form_data_json|]; [|discriminate].
    unfold Notarize.lift_try.
    destruct (Notarize.own_entries form_data_json) as [entries|e]; [|discriminate].
    unfold Notarize.ret. intros H. injection H as _ <-.
    rewrite get_after_spread_other; [rewrite !Hset by (cbn; auto); reflexivity|].
    intros Hin. destruct (forms_keys _ _ _ Hin) as [[]|[k' E]].
    cbn in Hk. intuition (subst; discriminate). }
  destruct (revisionType =? "link"); [|intros H; injection H as _ <-; reflexivity].
  destruct (Notarize.linkURIs C) as [uris|]; [|discriminate].
  destruct (existsb _ _); [discriminate|].
  unfold Notarize.bind.
  destruct (Notarize.mapM _ _ t) as [s1 linkVHs| |]; try discriminate.
  destruct (Notarize.mapM _ _ s1) as [s2 linkFileHashes| |]; try discriminate.
  unfold Notarize.getS. destruct (existsb _ _); [discriminate|].
  unfold Notarize.ret. intros H. injection H as _ <-.
  repeat (rewrite get_after_set_other;
          [|intros E; subst k; cbn in Hk; intuition discriminate]).
  reflexivity.
Qed.

(** The two ways [createNewRevision] names a revision. *)
Lemma createNewRevision_done (W : Notarize.World) (C : Notarize.Config)
  (timestamp revisionType : string) (enableScalar : bool)
  (t t' : Notarize.AquaTree) (out : Notarize.Out) :
  Notarize.createNewRevision W C timestamp revisionType enableScalar t
  = Notarize.Done t' out ->
  JS.includes Notarize.validRevisionTypes revisionType = true /\
  exists verificationData aqua,
    Notarize.kind_fields W C revisionType
      (Notarize.of_option_string (Notarize.lastRevisionHash t))
      (Steps.base_fields t timestamp revisionType) t
    = Notarize.Done t verificationData /\
    out = (if enableScalar then
             {| Notarize.verification_hash :=
                  "0x" ++ Notarize.getHashSum (Notarize.JSON_stringify W verificationData);
                Notarize.data := verificationData |}
           else
             {| Notarize.verification_hash :=
                  Notarize.getHexRoot W
                    (map Notarize.JStr (Notarize.dict2Leaves W verificationData));
                Notarize.data :=
                  JS.set "leaves"
                    (Notarize.JArr
                       (map Notarize.JStr (Notarize.dict2Leaves W verificationData)))
                    verificationData |}) /\
    Notarize.maybeUpdateFileIndex C
      {| Notarize.revisions :=
           JS.set (Notarize.verification_hash out) (Notarize.data out)
                  (Notarize.revisions (Notarize.aquaObject t));
         Notarize.file_index := Notarize.file_index (Notarize.aquaObject t) |}
      out revisionType
    = JS.Returns aqua /\
    t' = {| Notarize.aquaObject := aqua;
            Notarize.lastRevisionHash := Some (Notarize.verification_hash out);
            Notarize.aquaFilename := Notarize.aquaFilename t |}.
Proof.
  unfold Notarize.createNewRevision.
  unfold Notarize.bind at 1, Notarize.getS at 1.
  destruct (JS.includes Notarize.validRevisionTypes revisionType); [|discriminate].
  cbn [negb]. unfold Notarize.bind at 1.
  fold (Steps.base_fields t timestamp revisionType).
  pose proof (keeps_kind_fields W C revisionType
                (Notarize.of_option_string (Notarize.lastRevisionHash t))
                (Steps.base_fields t timestamp revisionType) t) as Hkeep.
  destruct (Notarize.kind_fields W C revisionType _ _ t) as [t1 verificationData| |];
    try discriminate.
  subst t1.
  unfold Notarize.bind, Notarize.getS, Notarize.putS, Notarize.lift_try, Notarize.ret,
    Notarize.with_aquaObject.
  destruct (Notarize.maybeUpdateFileIndex C _ _ revisionType) as [aqua|e] eqn:Hindex;
    [|unfold Notarize.throw; discriminate].
  intros H. injection H as <- <-.
  split; [reflexivity|]. exists verificationData, aqua.
  split; [reflexivity|].
  destruct enableScalar; (split; [reflexivity|]); (split; [exact Hindex | reflexivity]).
Qed.

Lemma maybeUpdateFileIndex_revisions (C : Notarize.Config) (aqua aqua' : Notarize.AquaObject)
  (verificationData : Notarize.Out) (revisionType : string) :
  Notarize.maybeUpdateFileIndex C aqua verificationData revisionType = JS.Returns aqua' ->
  Notarize.revisions aqua' = Notarize.revisions aqua.
Proof.
  unfold Notarize.maybeUpdateFileIndex.
  destruct (revisionType =? "form"); [intros H; injection H as <-; reflexivity|].
  destruct (revisionType =? "file"); [intros H; injection H as <-; reflexivity|].
  destruct (revisionType =? "link"); [|intros H; injection H as <-; reflexivity].
  destruct (Notarize.linkURIs C); [|discriminate].
  destruct (JS.get _ _) as [[]|]; try discriminate.
  intros H; injection H as <-; reflexivity.
Qed.

(** X16: A revision that [createNewRevision] appends is stored under the hash
    it returns, which becomes the tip; it is parented at the tip there was
    before and carries the timestamp and the type it was asked for; the
    revisions that were there stay, and the type is one of the five. *)
Theorem createNewRevision_appends (W : Notarize.World) (C : Notarize.Config)
  (timestamp revisionType : string) (enableScalar : bool)
  (t t' : Notarize.AquaTree) (out : Notarize.Out) :
  Notarize.createNewRevision W C timestamp revisionType enableScalar t
  = Notarize.Done t' out ->
  Notarize.lastRevisionHash t' = Some (Notarize.verification_hash out) /\
  Notarize.revisions (Notarize.aquaObject t')
  = JS.set (Notarize.verification_hash out) (Notarize.data out)
           (Notarize.revisions (Notarize.aquaObject t)) /\
  JS.get (Notarize.verification_hash out) (Notarize.revisions (Notarize.aquaObject t'))
  = Some (Notarize.data out) /\
  JS.get "previous_verification_hash" (Notarize.data out)
  = Some (Notarize.of_option_string (Notarize.lastRevisionHash t)) /\
  JS.get "local_timestamp" (Notarize.data out) = Some (Notarize.JStr timestamp) /\
  JS.get "revision_type" (Notarize.data out) = Some (Notarize.JStr revisionType) /\
  In revisionType Notarize.validRevisionTypes /\
  Notarize.aquaFilename t' = Notarize.aquaFilename t.
Proof.
  intros Hrun.
  destruct (createNewRevision_done _ _ _ _ _ _ _ _ Hrun)
    as [Hvalid (verificationData & aqua & Hkind & Hout & Hindex & ->)].
  pose proof (maybeUpdateFileIndex_revisions _ _ _ _ _ Hindex) as Hrevs.
  cbn [Notarize.revisions] in Hrevs.
  cbn [Notarize.lastRevisionHash Notarize.aquaObject Notarize.aquaFilename].
  split; [reflexivity|]. split; [exact Hrevs|].
  split; [rewrite Hrevs; apply get_after_set|].
  assert (Hbase : forall k,
             In k ["previous_verification_hash"; "local_timestamp"; "revision_type"] ->
             JS.get k (Notarize.data out)
             = JS.get k (Steps.base_fields t timestamp revisionType)).
  { intros k Hk. rewrite <- (kind_fields_base W C t t revisionType _ _ _ k Hk Hkind).
    rewrite Hout. destruct enableScalar; cbn [Notarize.data]; [reflexivity|].
    apply get_after_set_other. intros E. subst k. cbn in Hk. intuition discriminate. }
  split; [apply Hbase; cbn; auto|].
  split; [apply Hbase; cbn; auto|].
  split; [apply Hbase; cbn; auto|].
  split; [|reflexivity].
  destruct (valid_type_cases _ Hvalid) as [->|[->|[->|[->| ->]]]]; cbn; auto 6.
Qed.

Lemma mapM_keeps_done {S A B} (f : A -> Notarize.M S B) (xs : list A)
  (s s' : S) (ys : list B) :
  (forall x, Steps.keeps_state (f x)) ->
  Notarize.mapM f xs s = Notarize.Done s' ys ->
  s' = s /\ Forall2 (fun x y => f x s = Notarize.Done s y) xs ys.
Proof.
  intros Hf. revert ys. induction xs as [|x rest IH]; intros ys; cbn [Notarize.mapM].
  - intros H. injection H as <- <-. split; [reflexivity | constructor].
  - unfold Notarize.bind at 1. pose proof (Hf x s) as Hx.
    destruct (f x s) as [s1 y| |] eqn:Hfx; try discriminate. subst s1.
    unfold Notarize.bind at 1.
    destruct (Notarize.mapM f rest s) as [s2 ys'| |] eqn:Hrest; try discriminate.
    unfold Notarize.ret. intros H. injection H as <- <-.
    destruct (IH _ eq_refl) as [-> Hall]. split; [reflexivity | now constructor].
Qed.

Lemma Forall2_of_map {A B C} (f : A -> B) (R : B -> C -> Prop) (xs : list A) :
  forall ys, Forall2 R (map f xs) ys -> Forall2 (fun x y => R (f x) y) xs ys.
Proof.
  induction xs as [|x xs IH]; intros ys H; inversion H; subst; constructor;
    [assumption | now apply IH].
Qed.

(** What a [link] revision is made of. *)
Lemma kind_fields_link_done (W : Notarize.World) (C : Notarize.Config)
  (previousVerificationHash : Notarize.jsval) (base verificationData : Notarize.Revision)
  (t t1 : Notarize.AquaTree) :
  Notarize.kind_fields W C "link" previousVerificationHash base t
  = Notarize.Done t1 verificationData ->
  exists uris linkVHs linkFileHashes,
    Notarize.linkURIs C = Some uris /\
    existsb (fun uri => Notarize.endsWith uri ".aqua.json") (Notarize.split_comma uris)
    = false /\
    Forall2 (fun uri vh =>
               exists aqua,
                 Notarize.readAquaFile W (uri ++ ".aqua.json") = Notarize.FileParsed aqua /\
                 vh = Notarize.of_option_string
                        (Notarize.last_key (Notarize.revisions aqua)))
            (Notarize.split_comma uris) linkVHs /\
    Forall2 (fun uri fh => Notarize.getFileHashSum W uri = Some fh)
            (Notarize.split_comma uris) linkFileHashes /\
    existsb (fun fh => JS.has fh (Notarize.file_index (Notarize.aquaObject t)))
            linkFileHashes = false /\
    verificationData
    = JS.spread base
        [ ("link_type", Notarize.JStr "aqua");
          ("link_require_indepth_verification", Notarize.JBool true);
          ("link_verification_hashes", Notarize.JArr linkVHs);
          ("link_file_hashes", Notarize.JArr (map Notarize.JStr linkFileHashes)) ].
Proof.
  unfold Notarize.kind_fields.
  change ("link" =? "file") with false. change ("link" =? "signature") with false.
  change ("link" =? "witness") with false. change ("link" =? "form") with false.
  change ("link" =? "link") with true. cbv iota.
  destruct (Notarize.linkURIs C) as [uris|]; [|discriminate].
  destruct (existsb _ (Notarize.split_comma uris)) eqn:Hsuffix; [discriminate|].
  unfold Notarize.bind at 1.
  destruct (Notarize.mapM _ _ t) as [s1 linkVHs| |] eqn:Hvhs; try discriminate.
  destruct (mapM_keeps_done _ _ _ _ _ (fun uri => keeps_getLatestVH W uri) Hvhs)
    as [-> Hall1].
  unfold Notarize.bind at 1.
  match goal with
  | |- context [Notarize.mapM ?f ?xs t] =>
      destruct (Notarize.mapM f xs t) as [s2 linkFileHashes| |] eqn:Hfhs
  end; try discriminate.
  assert (Hkeep : forall uri,
             Steps.keeps_state
               (match Notarize.getFileHashSum W uri with
                | Some h => Notarize.ret h
                | None => @Notarize.throw Notarize.AquaTree string "ENOENT"
                end)).
  { intros uri. destruct (Notarize.getFileHashSum W uri);
      [apply keeps_ret | apply keeps_throw]. }
  destruct (mapM_keeps_done _ _ _ _ _ Hkeep Hfhs) as [-> Hall2].
  unfold Notarize.bind at 1, Notarize.getS at 1.
  destruct (existsb _ linkFileHashes) eqn:Hindex; [discriminate|].
  unfold Notarize.ret. intros H. injection H as _ <-.
  exists uris, linkVHs, linkFileHashes.
  split; [reflexivity|]. split; [exact Hsuffix|].
  split.
  { clear - Hall1. apply Forall2_of_map in Hall1.
    induction Hall1 as [|uri vh uris' vhs Hone Hrest IH]; constructor; [|exact IH].
    unfold Notarize.getLatestVH in Hone.
    destruct (Notarize.readAquaFile W (uri ++ ".aqua.json")) as [| |aqua];
      try discriminate.
    injection Hone as <-. now exists aqua. }
  split.
  { clear - Hall2.
    induction Hall2 as [|uri fh uris' fhs Hone Hrest IH]; constructor; [|exact IH].
    destruct (Notarize.getFileHashSum W uri); [|discriminate].
    now injection Hone as <-. }
  split; [exact Hindex | reflexivity].
Qed.

(** X17: [createNewRevision] changes the tree only when it succeeds: when it
    ends the process or throws, for whatever reason, the revisions, the
    file index and the tip are those it started with. *)
Theorem createNewRevision_atomic (W : Notarize.World) (C : Notarize.Config)
  (timestamp revisionType : string) (enableScalar : bool) (t : Notarize.AquaTree) :
  match Notarize.createNewRevision W C timestamp revisionType enableScalar t with
  | Notarize.Done _ _ => True
  | Notarize.Exit _ t' | Notarize.Throw _ t' => t' = t
  end.
Proof.
  unfold Notarize.createNewRevision.
  unfold Notarize.bind at 1, Notarize.getS at 1.
  destruct (JS.includes Notarize.validRevisionTypes revisionType); [|reflexivity].
  cbn [negb]. unfold Notarize.bind at 1.
  pose proof (keeps_kind_fields W C revisionType
                (Notarize.of_option_string (Notarize.lastRevisionHash t))
                [ ("previous_verification_hash",
                   Notarize.of_option_string (Notarize.lastRevisionHash t));
                  ("local_timestamp", Notarize.JStr timestamp);
                  ("revision_type", Notarize.JStr revisionType) ] t) as Hkeep.
  destruct (Notarize.kind_fields W C revisionType _ _ t) as [t1 verificationData| |] eqn:Hkind;
    [|exact Hkeep | exact Hkeep].
  subst t1.
  unfold Notarize.bind, Notarize.getS, Notarize.putS, Notarize.lift_try, Notarize.ret.
  destruct (Notarize.maybeUpdateFileIndex C _ _ revisionType) as [aqua|e] eqn:Hindex;
    [exact I|].
  exfalso. revert Hindex. unfold Notarize.maybeUpdateFileIndex.
  destruct (revisionType =? "form"); [discriminate|].
  destruct (revisionType =? "file"); [discriminate|].
  destruct (String.eqb_spec revisionType "link") as [E|_]; [|discriminate].
  subst revisionType.
  destruct (kind_fields_link_done _ _ _ _ _ _ _ Hkind)
    as (uris & linkVHs & linkFileHashes & -> & _ & _ & _ & _ & ->).
  destruct enableScalar; cbn; discriminate.
Qed.

(** X18: A [file] revision.  When the file can be read and no revision of the
    chain carries its hash, [createNewRevision] succeeds: the revision
    holds the SHA3-512 digest of the file's bytes and the nonce, holds the
    content only with [--content], and the file index maps the revision's
    verification hash (not the file hash) to the file name.  When the
    file cannot be read the call throws and the tree stays as it was. *)
Theorem file_revision_appended (W : Notarize.World) (C : Notarize.Config)
  (timestamp : string) (enableScalar : bool) (t : Notarize.AquaTree) :
  (forall fileContent,
     Notarize.readFileSync W (Notarize.filename C) = Some fileContent ->
     find (Notarize.same_file_hash (Notarize.getHashSum_Buffer fileContent))
          (JS.values (Notarize.revisions (Notarize.aquaObject t))) = None ->
     exists t' out,
       Notarize.createNewRevision W C timestamp "file" enableScalar t
       = Notarize.Done t' out /\
       JS.get "file_hash" (Notarize.data out)
       = Some (Notarize.JStr (Notarize.getHashSum_Buffer fileContent)) /\
       JS.get "file_nonce" (Notarize.data out)
       = Some (Notarize.JStr (Notarize.randomNonce W)) /\
       JS.get "content" (Notarize.data out)
       = (if Notarize.enableContent C then Some (Notarize.JStr fileContent) else None) /\
       Notarize.file_index (Notarize.aquaObject t')
       = JS.set (Notarize.verification_hash out) (Notarize.JStr (Notarize.filename C))
                (Notarize.file_index (Notarize.aquaObject t))) /\
  (Notarize.readFileSync W (Notarize.filename C) = None ->
   Notarize.createNewRevision W C timestamp "file" enableScalar t
   = Notarize.Throw "ENOENT" t).
Proof.
  split.
  - intros fileContent Hread Hfind.
    unfold Notarize.createNewRevision, Notarize.kind_fields,
      Notarize.checkFileHashAlreadyNotarized, Notarize.maybeUpdateFileIndex.
    change (negb (JS.includes Notarize.validRevisionTypes "file")) with false.
    change ("file" =? "file") with true. change ("file" =? "form") with false.
    run_builder. rewrite Hread. run_builder. rewrite Hfind.
    destruct enableScalar, (Notarize.enableContent C);
      (eexists _, _; split; [reflexivity|]);
      cbn [Notarize.data Notarize.file_index Notarize.aquaObject
           Notarize.verification_hash];
      (split; [reflexivity|]); (split; [reflexivity|]); split; reflexivity.
  - intros Hread.
    unfold Notarize.createNewRevision, Notarize.kind_fields.
    change (negb (JS.includes Notarize.validRevisionTypes "file")) with false.
    change ("file" =? "file") with true.
    run_builder. rewrite Hread. reflexivity.
Qed.

Lemma createNewRevision_kind_done (W : Notarize.World) (C : Notarize.Config)
  (timestamp revisionType : string) (enableScalar : bool)
  (t t' : Notarize.AquaTree) (out : Notarize.Out) :
  Notarize.createNewRevision W C timestamp revisionType enableScalar t
  = Notarize.Done t' out ->
  exists verificationData,
    Notarize.kind_fields W C revisionType
      (Notarize.of_option_string (Notarize.lastRevisionHash t))
      (Steps.base_fields t timestamp revisionType) t
    = Notarize.Done t verificationData /\
    (forall k, k <> "leaves" ->
               JS.get k (Notarize.data out) = JS.get k verificationData) /\
    Notarize.maybeUpdateFileIndex C
      {| Notarize.revisions :=
           JS.set (Notarize.verification_hash out) (Notarize.data out)
                  (Notarize.revisions (Notarize.aquaObject t));
         Notarize.file_index := Notarize.file_index (Notarize.aquaObject t) |}
      out revisionType
    = JS.Returns (Notarize.aquaObject t').
Proof.
  intros Hrun.
  destruct (createNewRevision_done _ _ _ _ _ _ _ _ Hrun)
    as [_ (verificationData & aqua & Hkind & Hout & Hindex & ->)].
  exists verificationData. split; [exact Hkind|]. split; [|exact Hindex].
  intros k Hk. rewrite Hout. destruct enableScalar; cbn [Notarize.data]; [reflexivity|].
  now apply get_after_set_other.
Qed.

(** X19: A [witness] revision of a single chain: the Merkle root that is
    witnessed is the tip of the chain, the Merkle proof is the list of
    that one hash, the network is "nostr", "TSA_RFC3161", "mainnet" or
    "sepolia", and the file index is not touched. *)
Theorem witness_revision_single_chain (W : Notarize.World) (C : Notarize.Config)
  (timestamp : string) (enableScalar : bool)
  (t t' : Notarize.AquaTree) (out : Notarize.Out) :
  Notarize.createNewRevision W C timestamp "witness" enableScalar t
  = Notarize.Done t' out ->
  let tip := Notarize.of_option_string (Notarize.lastRevisionHash t) in
  JS.get "witness_merkle_root" (Notarize.data out) = Some tip /\
  JS.get "witness_merkle_proof" (Notarize.data out) = Some (Notarize.JArr [tip]) /\
  (exists witness_network,
     JS.get "witness_network" (Notarize.data out) = Some (Notarize.JStr witness_network) /\
     In witness_network ["nostr"; "TSA_RFC3161"; "mainnet"; "sepolia"]) /\
  Notarize.file_index (Notarize.aquaObject t')
  = Notarize.file_index (Notarize.aquaObject t).
Proof.
  intros Hrun tip.
  destruct (createNewRevision_kind_done _ _ _ _ _ _ _ _ Hrun)
    as (verificationData & Hkind & Hdata & Hindex).
  rewrite !Hdata by discriminate.
  injection Hindex as Hindex. rewrite <- Hindex. cbn [Notarize.file_index].
  clear Hrun Hdata Hindex. revert Hkind.
  unfold Notarize.kind_fields.
  change ("witness" =? "file") with false. change ("witness" =? "signature") with false.
  change ("witness" =? "witness") with true. cbv iota.
  unfold Notarize.bind at 1. fold tip.
  destruct (Notarize.prepareWitness W C tip t) as [s witness| |] eqn:Hwit; try discriminate.
  unfold Notarize.ret. intros H. injection H as _ <-.
  revert Hwit. unfold Notarize.prepareWitness.
  destruct (Notarize.witnessMethod C) as [[|c method']|]; try discriminate.
  set (method := String c method').
  unfold Notarize.bind.
  destruct (method =? "nostr").
  { destruct (Notarize.witnessNostr W _) as [[[tx pub] ts]|]; [|discriminate].
    cbn. intros H. injection H as _ <-.
    split; [reflexivity|]. split; [reflexivity|]. split; [|reflexivity].
    exists "nostr". split; [reflexivity | cbn; auto]. }
  destruct (method =? "tsa").
  { destruct (Notarize.witnessTsa W _ _) as [[[tx pub] ts]|]; [|discriminate].
    cbn. intros H. injection H as _ <-.
    split; [reflexivity|]. split; [reflexivity|]. split; [|reflexivity].
    exists "TSA_RFC3161". split; [reflexivity | cbn; auto]. }
  destruct (method =? "eth"); [|discriminate].
  destruct (Notarize.witnessEth W _ _ _) as [[tx pub]|]; [|discriminate].
  cbn. intros H. injection H as _ <-.
  split; [reflexivity|]. split; [reflexivity|]. split; [|reflexivity].
  destruct (Notarize.network C) as [n|]; [destruct (n =? "mainnet")|];
    eexists; (split; [reflexivity | cbn; auto]).
Qed.

(** X20: A [signature] revision made with the wallet of the command line: the
    call succeeds, and the revision carries the wallet's signature of
    "I sign this revision: [" followed by the tip of the chain and "]",
    the wallet's public key and address, and the type "ethereum:eip-191";
    the file index is not touched. *)
Theorem signature_revision_cli (W : Notarize.World) (C : Notarize.Config)
  (timestamp : string) (enableScalar : bool) (t : Notarize.AquaTree)
  (wallet : Notarize.Wallet) :
  Notarize.signMethod C = Some "cli" ->
  Notarize.cliWallet W = Some wallet ->
  exists t' out,
    Notarize.createNewRevision W C timestamp "signature" enableScalar t
    = Notarize.Done t' out /\
    JS.get "signature" (Notarize.data out)
    = Some (Notarize.JStr
              (Notarize.signMessage wallet
                 ("I sign this revision: ["
                  ++ Notarize.to_key
                       (Notarize.of_option_string (Notarize.lastRevisionHash t))
                  ++ "]"))) /\
    JS.get "signature_public_key" (Notarize.data out)
    = Some (Notarize.JStr (Notarize.publicKey wallet)) /\
    JS.get "signature_wallet_address" (Notarize.data out)
    = Some (Notarize.JStr (Notarize.walletAddress wallet)) /\
    JS.get "signature_type" (Notarize.data out)
    = Some (Notarize.JStr "ethereum:eip-191") /\
    Notarize.file_index (Notarize.aquaObject t')
    = Notarize.file_index (Notarize.aquaObject t).
Proof.
  intros Hmethod Hwallet.
  unfold Notarize.createNewRevision, Notarize.kind_fields, Notarize.prepareSignature,
    Notarize.maybeUpdateFileIndex, Notarize.doSign.
  change (negb (JS.includes Notarize.validRevisionTypes "signature")) with false.
  change ("signature" =? "file") with false.
  change ("signature" =? "signature") with true.
  change ("signature" =? "form") with false.
  change ("signature" =? "link") with false.
  rewrite Hmethod. cbn [JS.nullish_or].
  change ("cli" =? "metamask") with false. change ("cli" =? "cli") with true.
  run_builder. rewrite Hwallet. run_builder.
  destruct enableScalar;
    (eexists _, _; split; [reflexivity|]);
    cbn [Notarize.data Notarize.file_index Notarize.aquaObject];
    (split; [reflexivity|]); (split; [reflexivity|]); (split; [reflexivity|]);
    split; reflexivity.
Qed.

(** X21: A [--sign] method other than "metamask", "cli" and "did" is not
    refused: [prepareSignature] has no default case, so the call succeeds
    and appends a signature revision whose four signature fields are
    [undefined], without any signer having been asked. *)
Theorem signature_unknown_method (W : Notarize.World) (C : Notarize.Config)
  (timestamp : string) (enableScalar : bool) (t : Notarize.AquaTree) (method : string) :
  Notarize.signMethod C = Some method ->
  method <> "metamask" -> method <> "cli" -> method <> "did" ->
  exists t' out,
    Notarize.createNewRevision W C timestamp "signature" enableScalar t
    = Notarize.Done t' out /\
    JS.get "revision_type" (Notarize.data out) = Some (Notarize.JStr "signature") /\
    JS.get "signature" (Notarize.data out) = Some Notarize.JUndefined /\
    JS.get "signature_public_key" (Notarize.data out) = Some Notarize.JUndefined /\
    JS.get "signature_wallet_address" (Notarize.data out) = Some Notarize.JUndefined /\
    JS.get "signature_type" (Notarize.data out) = Some Notarize.JUndefined.
Proof.
  intros Hmethod H1 H2 H3.
  unfold Notarize.createNewRevision, Notarize.kind_fields, Notarize.prepareSignature,
    Notarize.maybeUpdateFileIndex.
  change (negb (JS.includes Notarize.validRevisionTypes "signature")) with false.
  change ("signature" =? "file") with false.
  change ("signature" =? "signature") with true.
  change ("signature" =? "form") with false.
  change ("signature" =? "link") with false.
  rewrite Hmethod. cbn [JS.nullish_or].
  destruct (String.eqb_spec method "metamask") as [E|_]; [contradiction|].
  destruct (String.eqb_spec method "cli") as [E|_]; [contradiction|].
  destruct (String.eqb_spec method "did") as [E|_]; [contradiction|].
  run_builder.
  destruct enableScalar;
    (eexists _, _; split; [reflexivity|]); cbn [Notarize.data];
    (split; [reflexivity|]); (split; [reflexivity|]); (split; [reflexivity|]);
    split; reflexivity.
Qed.


Lemma get_some_in_keys {V} (k : string) (v : V) (o : JS.obj V) :
  JS.get k o = Some v -> In k (JS.keys o).
Proof.
  induction o as [|[k' v'] o IH]; cbn; [discriminate|].
  destruct (String.eqb_spec k k') as [E|_]; [now left | right; now apply IH].
Qed.

Lemma has_false_not_in_keys {V} (k : string) (o : JS.obj V) :
  JS.has k o = false -> ~ In k (JS.keys o).
Proof.
  unfold JS.has. induction o as [|[k' v'] o IH]; cbn; [tauto|].
  destruct (String.eqb_spec k k') as [E|NE]; [discriminate|].
  intros H [E|Hin]; [now apply NE | now apply IH].
Qed.

Lemma nodup_keys_after_set {V} (k : string) (v : V) (o : JS.obj V) :
  NoDup (JS.keys o) -> NoDup (JS.keys (JS.set k v o)).
Proof.
  intros Hnd. rewrite keys_after_set. destruct (JS.has k o) eqn:Hhas; [assumption|].
  apply NoDup_app; [assumption | repeat constructor; intros [] |].
  intros x Hx [<-|[]]. exact (has_false_not_in_keys _ _ Hhas Hx).
Qed.

Lemma get_after_spread_in {V} (k : string) (b : JS.obj V) :
  forall a : JS.obj V,
    NoDup (JS.keys b) -> In k (JS.keys b) -> JS.get k (JS.spread a b) = JS.get k b.
Proof.
  induction b as [|[k' v'] b IH]; intros a Hnd Hin; [contradiction|].
  cbn [JS.keys map fst] in Hnd, Hin. inversion Hnd as [|x xs Hnotin Hnd']; subst.
  change (JS.spread a ((k', v') :: b)) with (JS.spread (JS.set k' v' a) b).
  cbn [JS.get]. destruct (String.eqb_spec k k') as [E|NE].
  - subst k'. rewrite get_after_spread_other by exact Hnotin. apply get_after_set.
  - destruct Hin as [E|Hin]; [now symmetry in E|]. now apply IH.
Qed.

Lemma prefixed_inj (p a b : string) : p ++ a = p ++ b -> a = b.
Proof. induction p as [|c p IH]; cbn; intros H; [assumption|]. injection H as H. auto. Qed.

Lemma forms_nodup (entries : JS.obj Notarize.jsval) :
  forall acc : JS.obj Notarize.jsval,
    NoDup (JS.keys acc) ->
    NoDup (JS.keys (fold_left (fun acc kv => JS.set ("forms_" ++ fst kv) (snd kv) acc)
                              entries acc)).
Proof.
  induction entries as [|[k v] entries IH]; intros acc Hnd; cbn [fold_left fst snd];
    [assumption|].
  apply IH. now apply nodup_keys_after_set.
Qed.

Lemma forms_get_other (entries : JS.obj Notarize.jsval) (key : string) :
  forall acc : JS.obj Notarize.jsval,
    ~ In key (JS.keys entries) ->
    JS.get ("forms_" ++ key)
      (fold_left (fun acc kv => JS.set ("forms_" ++ fst kv) (snd kv) acc) entries acc)
    = JS.get ("forms_" ++ key) acc.
Proof.
  induction entries as [|[k v] entries IH]; intros acc Hnotin; cbn [fold_left fst snd];
    [reflexivity|].
  rewrite IH by (intros Hin; apply Hnotin; cbn; now right).
  apply get_after_set_other. intros E. apply prefixed_inj in E.
  apply Hnotin. cbn. now left.
Qed.

Lemma forms_get (entries : JS.obj Notarize.jsval) (key : string) (value : Notarize.jsval) :
  forall acc : JS.obj Notarize.jsval,
    NoDup (JS.keys entries) ->
    JS.get key entries = Some value ->
    JS.get ("forms_" ++ key)
      (fold_left (fun acc kv => JS.set ("forms_" ++ fst kv) (snd kv) acc) entries acc)
    = Some value.
Proof.
  induction entries as [|[k v] entries IH]; intros acc Hnd; cbn [JS.get];
    [discriminate|].
  cbn [JS.keys map fst] in Hnd. inversion Hnd as [|x xs Hnotin Hnd']; subst.
  cbn [fold_left fst snd].
  destruct (String.eqb_spec key k) as [E|NE].
  - intros H. injection H as <-. subst k.
    rewrite forms_get_other by exact Hnotin. apply get_after_set.
  - intros H. now apply IH.
Qed.

(** X23: A [form] revision holds the form file's SHA3-512 digest and every
    field of the form's JSON under the key "forms_" followed by the
    field's name, and the file index maps the revision's hash to the name
    of the form file. *)
Theorem form_revision (W : Notarize.World) (C : Notarize.Config)
  (timestamp : string) (enableScalar : bool)
  (t t' : Notarize.AquaTree) (out : Notarize.Out) :
  Notarize.createNewRevision W C timestamp "form" enableScalar t
  = Notarize.Done t' out ->
  exists name form_data form_data_json entries,
    Notarize.form_file_name C = Some name /\
    Notarize.readFileSync W name = Some form_data /\
    Notarize.JSON_parse W form_data = Some form_data_json /\
    Notarize.own_entries form_data_json = JS.Returns entries /\
    JS.get "file_hash" (Notarize.data out)
    = Some (Notarize.JStr (Notarize.getHashSum_Buffer form_data)) /\
    (NoDup (JS.keys entries) ->
     forall key value,
       JS.get key entries = Some value ->
       JS.get ("forms_" ++ key) (Notarize.data out) = Some value) /\
    Notarize.file_index (Notarize.aquaObject t')
    = JS.set (Notarize.verification_hash out) (Notarize.JStr name)
             (Notarize.file_index (Notarize.aquaObject t)).
Proof.
  intros Hrun.
  destruct (createNewRevision_kind_done _ _ _ _ _ _ _ _ Hrun)
    as (verificationData & Hkind & Hdata & Hindex).
  revert Hkind Hindex.
  unfold Notarize.kind_fields, Notarize.maybeUpdateFileIndex.
  change ("form" =? "file") with false. change ("form" =? "signature") with false.
  change ("form" =? "witness") with false. change ("form" =? "form") with true.
  cbv iota.
  destruct (Notarize.form_file_name C) as [name|] eqn:Hname; [|discriminate].
  destruct (Notarize.readFileSync W name) as [form_data|] eqn:Hread; [|discriminate].
  unfold Notarize.bind at 1, Notarize.getS at 1. unfold Notarize.bind at 1.
  destruct (Notarize.checkFileHashAlreadyNotarized _ _ t) as [s u| |]; try discriminate.
  destruct (Notarize.JSON_parse W form_data) as [form_data_json|] eqn:Hparse;
    [|discriminate].
  unfold Notarize.bind, Notarize.lift_try.
  destruct (Notarize.own_entries form_data_json) as [entries|e] eqn:Hentries;
    [|discriminate].
  unfold Notarize.ret. intros Hkind Hindex. injection Hkind as _ <-.
  injection Hindex as <-.
  exists name, form_data, form_data_json, entries.
  split; [reflexivity|]. split; [exact Hread|]. split; [exact Hparse|].
  split; [exact Hentries|].
  split.
  { rewrite Hdata by discriminate. rewrite get_after_spread_other; [reflexivity|].
    intros Hin. destruct (forms_keys _ _ _ Hin) as [[]|[k' E]]. discriminate E. }
  split; [|reflexivity].
  intros Hnd key value Hget.
  rewrite Hdata by (cbn; discriminate).
  pose proof (forms_get entries key value [] Hnd Hget) as Hform.
  rewrite get_after_spread_in; [exact Hform | | exact (get_some_in_keys _ _ _ Hform)].
  apply forms_nodup. constructor.
Qed.

Lemma last_key_after_set {V} (k : string) (v : V) (o : JS.obj V) :
  JS.has k o = false -> Notarize.last_key (JS.set k v o) = Some k.
Proof.
  intros Hnew. unfold Notarize.last_key.
  rewrite keys_after_set, Hnew, map_app. cbn [map]. apply last_last.
Qed.

(** X24: Writing and reading back keeps the tip.  When the hash of the
    appended revision is not yet a key of the chain, the revision is the
    last key of the object that [createNewRevision] leaves, so [read] of
    a file that parses to that object finds the same tip and the same
    object. *)
Theorem appended_tip_read_back (W : Notarize.World) (C : Notarize.Config)
  (timestamp revisionType : string) (enableScalar : bool)
  (t t' : Notarize.AquaTree) (out : Notarize.Out) (aquaFilename : string) :
  Notarize.createNewRevision W C timestamp revisionType enableScalar t
  = Notarize.Done t' out ->
  JS.has (Notarize.verification_hash out) (Notarize.revisions (Notarize.aquaObject t))
  = false ->
  Notarize.readAquaFile W aquaFilename = Notarize.FileParsed (Notarize.aquaObject t') ->
  Notarize.read W aquaFilename
  = JS.Returns {| Notarize.aquaObject := Notarize.aquaObject t';
                  Notarize.lastRevisionHash := Notarize.lastRevisionHash t';
                  Notarize.aquaFilename := Some aquaFilename |}.
Proof.
  intros Hrun Hnew Hparse. unfold Notarize.read. rewrite Hparse.
  destruct (createNewRevision_done _ _ _ _ _ _ _ _ Hrun)
    as [_ (verificationData & aqua & _ & _ & Hindex & ->)].
  cbn [Notarize.aquaObject Notarize.lastRevisionHash].
  rewrite (maybeUpdateFileIndex_revisions _ _ _ _ _ Hindex). cbn [Notarize.revisions].
  now rewrite (last_key_after_set _ _ _ Hnew).
Qed.

(** ** The multi-chain witness, as a whole *)

Lemma map_fst_combine {A B} (xs : list A) (ys : list B) :
  List.length xs = List.length ys -> map fst (combine xs ys) = xs.
Proof.
  revert ys. induction xs as [|x xs IH]; intros [|y ys] H; try discriminate;
    [reflexivity|]. cbn. injection H as H. now rewrite IH.
Qed.

Lemma read_all_exit {S} (W : Notarize.World) (files : list string) :
  forall (s s' : S) (r : Notarize.ExitReason),
    Notarize.mapM
      (fun file => match Notarize.readAquaFile W (file ++ ".aqua.json") with
                   | Notarize.FileMissing => Notarize.exit Notarize.AquaFileMissing
                   | Notarize.FileUnparsable => Notarize.exit Notarize.AquaFileUnreadable
                   | Notarize.FileParsed aqua => Notarize.ret aqua
                   end) files s
    = Notarize.Exit r s' ->
    r <> Notarize.WriteFailed.
Proof.
  induction files as [|file rest IH]; intros s s' r; cbn [Notarize.mapM];
    [discriminate|].
  unfold Notarize.bind at 1.
  destruct (Notarize.readAquaFile W (file ++ ".aqua.json")) as [| |aqua];
    [intros H; injection H as <- _; discriminate
    |intros H; injection H as <- _; discriminate|].
  unfold Notarize.ret at 1, Notarize.bind at 1.
  destruct (Notarize.mapM _ rest s) as [s1 objs1|r1 s1|e1 s1] eqn:Hrest;
    [discriminate| |discriminate].
  intros H. injection H as <- _. exact (IH _ _ _ Hrest).
Qed.

Lemma prepareWitness_exit {S} (W : Notarize.World) (C : Notarize.Config)
  (verificationHash : Notarize.jsval) (s s' : S) (r : Notarize.ExitReason) :
  Notarize.prepareWitness W C verificationHash s = Notarize.Exit r s' ->
  r <> Notarize.WriteFailed.
Proof.
  unfold Notarize.prepareWitness.
  destruct (Notarize.witnessMethod C) as [[|c method']|];
    try (intros H; injection H as <- _; discriminate).
  set (method := String c method').
  unfold Notarize.bind.
  destruct (method =? "nostr").
  { destruct (Notarize.witnessNostr W _) as [[[tx pub] ts]|]; discriminate. }
  destruct (method =? "tsa").
  { destruct (Notarize.witnessTsa W _ _) as [[[tx pub] ts]|]; discriminate. }
  destruct (method =? "eth"); [|intros H; injection H as <- _; discriminate].
  destruct (Notarize.witnessEth W _ _ _) as [[tx pub]|];
    [discriminate | intros H; injection H as <- _; discriminate].
Qed.

(** The last loop: it goes on while the writes succeed, and a failed
    write ends the process with the files of the earlier turns written. *)
Lemma witness_loop_writes (W : Notarize.World) (C : Notarize.Config)
  (timestamp : string) (witnessResult : Notarize.Revision)
  (entries : list (string * Notarize.AquaObject)) :
  forall written : list (string * Notarize.AquaObject),
    match Notarize.forEachM
            (Notarize.witness_one_chain W C timestamp "witness" witnessResult)
            entries written with
    | Notarize.Done written' _ =>
        exists new,
          written' = (written ++ new)%list /\
          map fst new = map (fun entry => fst entry ++ ".aqua.json") entries /\
          Forall (fun file => Notarize.writeFileSync W (fst file) (snd file) = true) new
    | Notarize.Exit r written' =>
        r = Notarize.WriteFailed /\
        exists new failed later,
          written' = (written ++ new)%list /\
          map (fun entry => fst entry ++ ".aqua.json") entries
          = (map fst new ++ fst failed :: later)%list /\
          Forall (fun file => Notarize.writeFileSync W (fst file) (snd file) = true) new /\
          Notarize.writeFileSync W (fst failed) (snd failed) = false
    | Notarize.Throw _ _ => False
    end.
Proof.
  induction entries as [|[file aqua] rest IH]; intros written; cbn [Notarize.forEachM].
  - exists []. split; [now rewrite app_nil_r|]. split; [reflexivity | constructor].
  - unfold Notarize.bind at 1, Notarize.witness_one_chain at 1,
      Notarize.witnessed_chain, Notarize.maybeUpdateFileIndex,
      Notarize.serializeAquaObject.
    change ("witness" =? "form") with false. change ("witness" =? "file") with false.
    change ("witness" =? "link") with false.
    run_builder. cbn [fst snd].
    match goal with
    | |- context [Notarize.writeFileSync W ?path ?object] =>
        set (filePath := path); set (written_object := object);
        destruct (Notarize.writeFileSync W filePath written_object) eqn:Hwrite
    end.
    + specialize (IH (written ++ [(filePath, written_object)])%list).
      destruct (Notarize.forEachM _ rest _) as [written' u|r written'|e written'].
      * destruct IH as (new & -> & Hnames & Hall).
        exists ((filePath, written_object) :: new).
        split; [now rewrite <- app_assoc|].
        split; [cbn [map fst]; now rewrite Hnames|].
        constructor; assumption.
      * destruct IH as (-> & new & failed & later & -> & Hnames & Hall & Hfailed).
        split; [reflexivity|].
        exists ((filePath, written_object) :: new), failed, later.
        split; [now rewrite <- app_assoc|].
        split; [cbn [map fst app]; now rewrite Hnames|].
        split; [constructor; assumption | assumption].
      * exact IH.
    + split; [reflexivity|].
      exists [], (filePath, written_object),
             (map (fun entry => fst entry ++ ".aqua.json") rest).
      split; [now rewrite app_nil_r|].
      split; [reflexivity|]. split; [constructor | exact Hwrite].
Qed.

(** X25: What the multi-chain witness has written when it ends.  When it
    succeeds it has written one file per chain, <name>.aqua.json for the
    names of the command line in order.  When it throws, or ends the
    process for any reason but a failed write (no comma in the argument,
    a chain file missing or unreadable, the witness backend failing), it
    has written nothing.  A failed write ends the process in the middle
    of the loop: the files of the chains before the failing one are
    written, that of the failing one and of the chains after it are not. *)
Theorem multi_chain_witness_writes (W : Notarize.World) (C : Notarize.Config)
  (timestamp : string) (written0 : list (string * Notarize.AquaObject)) :
  let names :=
    map (fun file => file ++ ".aqua.json") (Notarize.split_comma (Notarize.filename C)) in
  let succeeded :=
    Forall (fun file => Notarize.writeFileSync W (fst file) (snd file) = true) in
  match Notarize.createRevisionWithMultipleAquaChain W C timestamp "witness" written0 with
  | Notarize.Done written _ =>
      exists new,
        written = (written0 ++ new)%list /\ map fst new = names /\ succeeded new
  | Notarize.Exit Notarize.WriteFailed written =>
      exists new failed later,
        written = (written0 ++ new)%list /\
        names = (map fst new ++ fst failed :: later)%list /\
        succeeded new /\
        Notarize.writeFileSync W (fst failed) (snd failed) = false
  | Notarize.Exit _ written | Notarize.Throw _ written => written = written0
  end.
Proof.
  intros names succeeded. subst names succeeded.
  unfold Notarize.createRevisionWithMultipleAquaChain.
  destruct (negb _); [reflexivity|].
  unfold Notarize.bind at 1.
  assert (Hkeep : forall file,
             Steps.keeps_state
               (match Notarize.readAquaFile W (file ++ ".aqua.json") with
                | Notarize.FileMissing =>
                    @Notarize.exit (list (string * Notarize.AquaObject)) _
                      Notarize.AquaFileMissing
                | Notarize.FileUnparsable => Notarize.exit Notarize.AquaFileUnreadable
                | Notarize.FileParsed aqua => Notarize.ret aqua
                end)).
  { intros file. destruct (Notarize.readAquaFile W _);
      [apply keeps_exit | apply keeps_exit | apply keeps_ret]. }
  pose proof (keeps_mapM _ (Notarize.split_comma (Notarize.filename C)) Hkeep written0)
    as Hread_keeps.
  destruct (Notarize.mapM _ _ written0) as [s1 chains|r s1|e s1] eqn:Hread;
    [| |exact Hread_keeps].
  2:{ pose proof (read_all_exit W _ _ _ _ Hread) as Hr.
      destruct r; try exact Hread_keeps. now contradiction Hr. }
  subst s1.
  destruct (read_all_done W _ _ _ _ Hread) as [_ Hfiles].
  unfold Notarize.bind at 1.
  pose proof (keeps_prepareWitness (S := list (string * Notarize.AquaObject)) W C
                (Notarize.JStr
                   (Notarize.getHexRoot W
                      (map (fun file => Notarize.of_option_string
                                          (Notarize.last_key (Notarize.revisions file)))
                           chains))) written0) as Hwit_keeps.
  destruct (Notarize.prepareWitness W C _ written0) as [s2 witness|r s2|e s2] eqn:Hwit;
    [| |exact Hwit_keeps].
  2:{ pose proof (prepareWitness_exit W C _ _ _ _ Hwit) as Hr.
      destruct r; try exact Hwit_keeps. now contradiction Hr. }
  subst s2.
  unfold Notarize.bind at 1.
  assert (Hnames :
            map (fun entry : string * Notarize.AquaObject => fst entry ++ ".aqua.json")
                (combine (Notarize.split_comma (Notarize.filename C)) chains)
            = map (fun file => file ++ ".aqua.json")
                  (Notarize.split_comma (Notarize.filename C))).
  { transitivity
      (map (fun file => file ++ ".aqua.json")
           (map fst (combine (Notarize.split_comma (Notarize.filename C)) chains))).
    - now rewrite map_map.
    - now rewrite (map_fst_combine _ _ (Forall2_length Hfiles)). }
  match goal with
  | |- context [Notarize.forEachM (Notarize.witness_one_chain W C timestamp "witness" ?wr)
                                  ?entries written0] =>
      pose proof (witness_loop_writes W C timestamp wr entries written0) as Hloop;
      destruct (Notarize.forEachM (Notarize.witness_one_chain W C timestamp "witness" wr)
                                  entries written0) as [written u|r written|e written]
  end.
  - unfold Notarize.ret. destruct Hloop as (new & -> & Hnew & Hall).
    exists new. split; [reflexivity|]. split; [|exact Hall].
    now rewrite Hnew.
  - destruct Hloop as (-> & new & failed & later & -> & Hnew & Hall & Hfailed).
    exists new, failed, later. split; [reflexivity|].
    split; [now rewrite <- Hnames|]. split; assumption.
  - contradiction.
Qed.

(** [notarize.js a,b --witness nostr] when the second write fails: the
    process ends with the witnessed chain of [a] on disk and the chain of
    [b] as it was. *)
Lemma partial_run_computed :
  Notarize.createRevisionWithMultipleAquaChain Cases.second_write_fails
    Examples.config_multi "20240103000000" "witness" []
  = Notarize.Exit Notarize.WriteFailed Cases.partly_written.
Proof. vm_compute. reflexivity. Qed.

Lemma multi_chain_witness_writes_witness :
  exists new (failed : string * Notarize.AquaObject) later,
    Cases.partly_written = ([] ++ new)%list /\
    ["a.aqua.json"; "b.aqua.json"] = (map fst new ++ fst failed :: later)%list /\
    List.length new = 1%nat.
Proof.
  pose proof (multi_chain_witness_writes Cases.second_write_fails Examples.config_multi
                "20240103000000" []) as H.
  cbv zeta in H. rewrite partial_run_computed in H.
  destruct H as (new & failed & later & Hwritten & Hnames & _ & _).
  exists new, failed, later. split; [exact Hwritten|]. split; [exact Hnames|].
  cbn [app] in Hwritten. rewrite <- Hwritten. reflexivity.
Defined.

(** ** The first revision of a chain *)

(** X26: [createGenesisRevision] for a file: when the file can be read, the
    chain that is written has exactly one revision, of type "file", with
    the empty string as its previous verification hash and the file's
    SHA3-512 digest as its [file_hash], and its file index has the one
    entry from the revision's hash to the file name. *)
Theorem genesis_file_chain (W : Notarize.World) (C : Notarize.Config)
  (enableScalar : bool) (aquaFilename timestamp fileContent : string) :
  Notarize.form_file_name C = None ->
  Notarize.readFileSync W (Notarize.filename C) = Some fileContent ->
  exists verificationHash verificationData,
    Genesis.createGenesisRevision W C false enableScalar aquaFilename timestamp
    = Genesis.Serialized aquaFilename
        {| Notarize.revisions := [(verificationHash, verificationData)];
           Notarize.file_index :=
             [(verificationHash, Notarize.JStr (Notarize.filename C))] |}
        None /\
    JS.get "previous_verification_hash" verificationData = Some (Notarize.JStr "") /\
    JS.get "local_timestamp" verificationData = Some (Notarize.JStr timestamp) /\
    JS.get "revision_type" verificationData = Some (Notarize.JStr "file") /\
    JS.get "file_hash" verificationData
    = Some (Notarize.JStr (Notarize.getHashSum_Buffer fileContent)).
Proof.
  intros Hform Hread.
  unfold Genesis.createGenesisRevision, Notarize.new_AquaTree,
    Notarize.createNewRevision, Notarize.kind_fields,
    Notarize.checkFileHashAlreadyNotarized, Notarize.maybeUpdateFileIndex.
  rewrite Hform. cbn [andb].
  change (negb (JS.includes Notarize.validRevisionTypes "file")) with false.
  change ("file" =? "file") with true. change ("file" =? "form") with false.
  run_builder. rewrite Hread. run_builder.
  cbn [Notarize.aquaObject Notarize.revisions Notarize.createNewAquaObject JS.values
       map find].
  destruct enableScalar, (Notarize.enableContent C);
    (eexists _, _; split; [reflexivity|]);
    (split; [reflexivity|]); (split; [reflexivity|]); split; reflexivity.
Qed.

(** X27: [createGenesisRevision] for a file that cannot be read.  The
    exception is raised inside the [async] [createNewRevision], which the
    constructor does not await, so [createGenesisRevision] goes on and
    serialises the object as it is: an Aqua file without any revision is
    written. *)
Theorem genesis_unreadable_file (W : Notarize.World) (C : Notarize.Config)
  (enableScalar : bool) (aquaFilename timestamp : string) :
  Notarize.form_file_name C = None ->
  Notarize.readFileSync W (Notarize.filename C) = None ->
  Genesis.createGenesisRevision W C false enableScalar aquaFilename timestamp
  = Genesis.Serialized aquaFilename Notarize.createNewAquaObject (Some "ENOENT").
Proof.
  intros Hform Hread.
  unfold Genesis.createGenesisRevision, Notarize.new_AquaTree,
    Notarize.createNewRevision, Notarize.kind_fields.
  rewrite Hform. cbn [andb].
  change (negb (JS.includes Notarize.validRevisionTypes "file")) with false.
  change ("file" =? "file") with true.
  run_builder. rewrite Hread. reflexivity.
Qed.

(** ** The stand-alone script *)

(** X28: [verifyRevision] of [verifier.js] recovers the signer's address only
    to print a line: whenever recovery returns, the result is the same
    whatever address it returns, so a revision with a matching hash is
    reported correct even when its signature is not the wallet's. *)
Theorem script_verifyRevision_ignores_signer
  (synchronousGet : N -> ScriptVerify.VerifyPageText)
  (recoverAddress recoverAddress' : string -> string -> JS.try string)
  (revid : N) (prevRevId : option N) (previousVerificationHash : option string)
  (contentHash : string) :
  (forall digest signature, exists address,
     recoverAddress digest signature = JS.Returns address) ->
  (forall digest signature, exists address,
     recoverAddress' digest signature = JS.Returns address) ->
  ScriptVerify.verifyRevision synchronousGet recoverAddress revid prevRevId
    previousVerificationHash contentHash
  = ScriptVerify.verifyRevision synchronousGet recoverAddress' revid prevRevId
      previousVerificationHash contentHash /\
  forall verificationHash isCorrect,
    ScriptVerify.verifyRevision synchronousGet recoverAddress revid prevRevId
      previousVerificationHash contentHash
    = JS.Returns (verificationHash, isCorrect) ->
    (isCorrect = true <->
     exists obj, synchronousGet revid = ScriptVerify.Record_ obj /\
                 verificationHash = Some (ScriptVerify.verification_hash obj)).
Proof.
  intros Htotal Htotal'. unfold ScriptVerify.verifyRevision.
  destruct (synchronousGet revid) as [|obj].
  { split; [reflexivity|]. intros vh ok H. injection H as <- <-.
    split; [discriminate | intros (o & H & _); discriminate H]. }
  destruct (negb _).
  { split; [reflexivity|]. intros vh ok H. injection H as <- <-.
    split; [discriminate | intros (o & _ & H); discriminate H]. }
  destruct (ScriptVerify.signature obj) as [[|c sig]|].
  - split; [reflexivity|]. intros vh ok H. injection H as <- <-.
    split; [intros _; now exists obj | reflexivity].
  - destruct (Htotal (Ethers.hashMessage
                        ("I sign the following page verification_hash: [0x"
                         ++ ScriptVerify.verification_hash obj ++ "]")) (String c sig))
      as [address ->].
    destruct (Htotal' (Ethers.hashMessage
                         ("I sign the following page verification_hash: [0x"
                          ++ ScriptVerify.verification_hash obj ++ "]")) (String c sig))
      as [address' ->].
    split; [reflexivity|]. intros vh ok H. injection H as <- <-.
    split; [intros _; now exists obj | reflexivity].
  - split; [reflexivity|]. intros vh ok H. injection H as <- <-.
    split; [intros _; now exists obj | reflexivity].
Qed.

(** ** Runs on concrete inputs *)

Lemma verifyRevision_proof_ignores_transaction_witness :
  V12.verifyRevision Examples.no_transaction Examples.recover_v12 Examples.no_base64
    Cases.witnessed_revision "key"
  = V12.verifyRevision Cases.found_transaction Examples.recover_v12 Examples.no_base64
      Cases.witnessed_revision "key".
Proof.
  apply (verifyRevision_proof_ignores_transaction Examples.no_transaction
           Cases.found_transaction Examples.recover_v12 Examples.no_base64
           Cases.witnessed_revision "key").
  intros witness H. injection H as <-. cbn. lia.
Defined.

Lemma signed_first_revision_fails_witness :
  V12.rev_successful
    (V12.verifyRevision Examples.no_transaction Examples.recover_v12 Examples.no_base64
       Cases.first_signed_revision "key")
  = false.
Proof.
  apply (signed_first_revision_fails Examples.no_transaction Examples.recover_v12
           Examples.no_base64 Cases.first_signed_revision Examples.signed_payload "key");
    reflexivity.
Defined.

(** The page of one witnessed revision verifies. *)
Lemma wiki_page_run :
  Wiki.verifyPage Cases.witness_server Cases.no_proof Cases.etherscan_true
    Cases.one_revision
    Examples.any_wikitext Cases.witnessed_wiki_server Examples.recover_v12
    "Page" "http://localhost:9352" false false false
  = JS.Returns (Legacy.PageStatus "VERIFIED" [1%N]
                  [Legacy.DetailOf Cases.wiki_revision_detail]).
Proof. vm_compute. reflexivity. Qed.

(** The same run, with the witness functions in the page verifier. *)
Lemma legacy_page_run :
  Legacy.verifyPage Cases.one_revision Examples.any_wikitext Cases.witnessed_wiki_server
    (Wiki.getWitnessHash Cases.witness_server)
    (Wiki.verifyWitness Cases.witness_server Cases.no_proof Cases.etherscan_true)
    Examples.recover_v12 "Page" "http://localhost:9352" false false false
  = JS.Returns (Legacy.PageStatus "VERIFIED" [1%N]
                  [Legacy.DetailOf Cases.wiki_revision_detail]).
Proof. vm_compute. reflexivity. Qed.

Lemma verifyPage_status_witness :
  ("VERIFIED" = "NORECORD" /\ [1%N] = [] /\
   [Legacy.DetailOf Cases.wiki_revision_detail] = []) \/
  ("VERIFIED" = "VERIFIED" /\ [1%N] <> [] /\
   List.length [Legacy.DetailOf Cases.wiki_revision_detail] = List.length [1%N] /\
   Forall Notions.verified_detail [Legacy.DetailOf Cases.wiki_revision_detail]) \/
  ("VERIFIED" = "INVALID" /\
   (1 <= List.length [Legacy.DetailOf Cases.wiki_revision_detail] <= List.length [1%N])%nat).
Proof.
  exact (verifyPage_status Cases.one_revision Examples.any_wikitext
           Cases.witnessed_wiki_server (Wiki.getWitnessHash Cases.witness_server)
           (Wiki.verifyWitness Cases.witness_server Cases.no_proof Cases.etherscan_true)
           Examples.recover_v12 "Page" "http://localhost:9352" false false false
           "VERIFIED" [1%N] [Legacy.DetailOf Cases.wiki_revision_detail]
           legacy_page_run).
Defined.

Lemma verifyPage_ignores_etherscan_witness :
  exists revision_details',
    Wiki.verifyPage Cases.witness_server Cases.no_proof Cases.etherscan_down
      Cases.one_revision Examples.any_wikitext Cases.witnessed_wiki_server
      Examples.recover_v12 "Page" "http://localhost:9352" false false false
    = JS.Returns (Legacy.PageStatus "VERIFIED" [1%N] revision_details') /\
    List.length revision_details' = 1%nat.
Proof.
  exact (verifyPage_ignores_etherscan Cases.witness_server Cases.no_proof
           Cases.etherscan_true Cases.etherscan_down Cases.one_revision
           Examples.any_wikitext Cases.witnessed_wiki_server Examples.recover_v12
           "Page" "http://localhost:9352" false false false
           "VERIFIED" [1%N] [Legacy.DetailOf Cases.wiki_revision_detail]
           wiki_page_run).
Defined.

Lemma wiki_revision_run :
  Legacy.verifyRevision Cases.witnessed_wiki_server
    (Wiki.getWitnessHash Cases.witness_server)
    (Wiki.verifyWitness Cases.witness_server Cases.no_proof Cases.etherscan_true)
    Examples.recover_v12 Cases.wiki_api 1%N None (Some "") (Legacy.getHashSum "text")
    true false
  = (Some Cases.wiki_hash_1, true, Legacy.DetailOf Cases.wiki_revision_detail).
Proof. vm_compute. reflexivity. Qed.

Lemma legacy_verifyRevision_verdict_witness :
  (true = true <->
   Legacy.verification_status Cases.wiki_revision_detail = Some "VERIFIED" /\
   (Legacy.is_signed Cases.wiki_revision_detail = false \/
    (Legacy.valid_signature Cases.wiki_revision_detail = true /\
     fst (Wiki.verifyWitness Cases.witness_server Cases.no_proof Cases.etherscan_true
            Cases.wiki_api
            (Legacy.witness_event_id (Legacy.info Cases.wiki_revision_detail))
            (Legacy.verification_hash (Legacy.info Cases.wiki_revision_detail))
            false true)
     <> "INCONSISTENT"))) /\
  (Legacy.verification_status Cases.wiki_revision_detail = Some "VERIFIED" ->
   Some Cases.wiki_hash_1
   = Some (Legacy.verification_hash (Legacy.info Cases.wiki_revision_detail))).
Proof.
  exact (legacy_verifyRevision_verdict Cases.witnessed_wiki_server
           (Wiki.getWitnessHash Cases.witness_server)
           (Wiki.verifyWitness Cases.witness_server Cases.no_proof Cases.etherscan_true)
           Examples.recover_v12 Cases.wiki_api 1%N None (Some "")
           (Legacy.getHashSum "text") true false
           (Some Cases.wiki_hash_1) true Cases.wiki_revision_detail wiki_revision_run).
Defined.

Lemma script_verifyRevision_ignores_signer_witness :
  ScriptVerify.verifyRevision Cases.script_server Cases.recover_signer 1%N None
    (Some "") "00"
  = ScriptVerify.verifyRevision Cases.script_server Cases.recover_other 1%N None
      (Some "") "00".
Proof.
  apply (script_verifyRevision_ignores_signer Cases.script_server Cases.recover_signer
           Cases.recover_other 1%N None (Some "") "00").
  - intros digest signature. exists Examples.signer_address. reflexivity.
  - intros digest signature. exists Examples.other_address. reflexivity.
Defined.

(** The first run of [notarize.js hello.txt]. *)
Lemma hello_run :
  Notarize.createNewRevision Cases.world Examples.config_file "20240101000000" "file"
    true Examples.empty_tree
  = Notarize.Done Cases.hello_run_tree Cases.hello_run_out.
Proof. vm_compute. reflexivity. Qed.

Lemma createNewRevision_appends_witness :
  Notarize.lastRevisionHash Cases.hello_run_tree
  = Some (Notarize.verification_hash Cases.hello_run_out) /\
  JS.get "previous_verification_hash" (Notarize.data Cases.hello_run_out)
  = Some (Notarize.of_option_string (Notarize.lastRevisionHash Examples.empty_tree)).
Proof.
  pose proof (createNewRevision_appends Cases.world Examples.config_file
                "20240101000000" "file" true Examples.empty_tree Cases.hello_run_tree
                Cases.hello_run_out hello_run) as (Htip & _ & _ & Hparent & _).
  split; [exact Htip | exact Hparent].
Defined.

Lemma file_revision_appended_witness :
  exists t' out,
    Notarize.createNewRevision Examples.world Examples.config_file "20240101000000"
      "file" true Examples.empty_tree
    = Notarize.Done t' out /\
    JS.get "content" (Notarize.data out) = None.
Proof.
  destruct (proj1 (file_revision_appended Examples.world Examples.config_file
                     "20240101000000" true Examples.empty_tree)
              ("hello" ++ Examples.newline) eq_refl eq_refl)
    as (t' & out & Hrun & _ & _ & Hcontent & _).
  exists t', out. split; [exact Hrun | exact Hcontent].
Defined.

Lemma witness_run_nostr (W : Notarize.World) (C : Notarize.Config)
  (timestamp : string) (enableScalar : bool) (t : Notarize.AquaTree)
  (answer : string * string * Z) :
  Notarize.witnessMethod C = Some "nostr" ->
  Notarize.witnessNostr W
    (Notarize.to_key (Notarize.of_option_string (Notarize.lastRevisionHash t)))
  = Some answer ->
  exists t' out,
    Notarize.createNewRevision W C timestamp "witness" enableScalar t
    = Notarize.Done t' out.
Proof.
  intros Hmethod Hanswer. destruct answer as [[tx pub] ts].
  unfold Notarize.createNewRevision, Notarize.kind_fields, Notarize.prepareWitness,
    Notarize.maybeUpdateFileIndex.
  change (negb (JS.includes Notarize.validRevisionTypes "witness")) with false.
  change ("witness" =? "file") with false. change ("witness" =? "signature") with false.
  change ("witness" =? "witness") with true. change ("witness" =? "form") with false.
  change ("witness" =? "link") with false.
  rewrite Hmethod. change ("nostr" =? "nostr") with true.
  run_builder. rewrite Hanswer. run_builder.
  destruct enableScalar; now eexists _, _.
Qed.

Lemma witness_revision_single_chain_witness :
  exists t' out,
    Notarize.createNewRevision Cases.world Cases.config_witness "20240102000000"
      "witness" true Cases.hello_run_tree
    = Notarize.Done t' out /\
    JS.get "witness_merkle_proof" (Notarize.data out)
    = Some (Notarize.JArr
              [Notarize.of_option_string (Notarize.lastRevisionHash Cases.hello_run_tree)]).
Proof.
  destruct (witness_run_nostr Cases.world Cases.config_witness "20240102000000" true
              Cases.hello_run_tree ("event-id", "npub", 1700000000%Z) eq_refl eq_refl)
    as (t' & out & Hrun).
  exists t', out. split; [exact Hrun|].
  exact (proj1 (proj2 (witness_revision_single_chain _ _ _ _ _ _ _ Hrun))).
Defined.

Lemma signature_revision_cli_witness :
  exists t' out,
    Notarize.createNewRevision Cases.world Cases.config_sign_cli "20240102000000"
      "signature" true Cases.hello_run_tree
    = Notarize.Done t' out /\
    JS.get "signature_type" (Notarize.data out) = Some (Notarize.JStr "ethereum:eip-191").
Proof.
  destruct (signature_revision_cli Cases.world Cases.config_sign_cli "20240102000000"
              true Cases.hello_run_tree Cases.wallet eq_refl eq_refl)
    as (t' & out & Hrun & _ & _ & _ & Htype & _).
  exists t', out. split; [exact Hrun | exact Htype].
Defined.

Lemma signature_unknown_method_witness :
  exists t' out,
    Notarize.createNewRevision Cases.world Cases.config_sign_ledger "20240102000000"
      "signature" true Cases.hello_run_tree
    = Notarize.Done t' out /\
    JS.get "signature" (Notarize.data out) = Some Notarize.JUndefined.
Proof.
  destruct (signature_unknown_method Cases.world Cases.config_sign_ledger
              "20240102000000" true Cases.hello_run_tree "ledger" eq_refl)
    as (t' & out & Hrun & _ & Hsig & _); try discriminate.
  exists t', out. split; [exact Hrun | exact Hsig].
Defined.



Lemma form_run (W : Notarize.World) (C : Notarize.Config)
  (timestamp : string) (enableScalar : bool) (t : Notarize.AquaTree)
  (name form_data : string) (form_data_json : Notarize.jsval)
  (entries : JS.obj Notarize.jsval) :
  Notarize.form_file_name C = Some name ->
  Notarize.readFileSync W name = Some form_data ->
  find (Notarize.same_file_hash (Notarize.getHashSum_Buffer form_data))
       (JS.values (Notarize.revisions (Notarize.aquaObject t))) = None ->
  Notarize.JSON_parse W form_data = Some form_data_json ->
  Notarize.own_entries form_data_json = JS.Returns entries ->
  exists t' out,
    Notarize.createNewRevision W C timestamp "form" enableScalar t
    = Notarize.Done t' out.
Proof.
  intros Hname Hread Hfind Hparse Hentries.
  unfold Notarize.createNewRevision, Notarize.kind_fields,
    Notarize.checkFileHashAlreadyNotarized, Notarize.maybeUpdateFileIndex.
  change (negb (JS.includes Notarize.validRevisionTypes "form")) with false.
  change ("form" =? "file") with false. change ("form" =? "signature") with false.
  change ("form" =? "witness") with false. change ("form" =? "form") with true.
  rewrite Hname, Hread. run_builder. rewrite Hfind, Hparse, Hentries.
  destruct enableScalar; now eexists _, _.
Qed.

Lemma form_revision_witness :
  exists t' out,
    Notarize.createNewRevision Cases.world Cases.config_form "20240102000000" "form"
      false Examples.empty_tree
    = Notarize.Done t' out /\
    JS.get "forms_name" (Notarize.data out) = Some (Notarize.JStr "x").
Proof.
  destruct (form_run Cases.world Cases.config_form "20240102000000" false
              Examples.empty_tree "form.json" Cases.form_text
              (Notarize.JObj [("name", Notarize.JStr "x")])
              [("name", Notarize.JStr "x")] eq_refl eq_refl eq_refl eq_refl eq_refl)
    as (t' & out & Hrun).
  exists t', out. split; [exact Hrun|].
  destruct (form_revision _ _ _ _ _ _ _ Hrun)
    as (name & form_data & json & entries & Hname & Hread & Hparse & Hentries & _ & Hfields & _).
  injection Hname as <-. injection Hread as <-. injection Hparse as <-.
  injection Hentries as <-.
  apply (Hfields (NoDup_cons "name" (@in_nil string "name") (NoDup_nil string))
                 "name" (Notarize.JStr "x")).
  reflexivity.
Defined.

Lemma appended_tip_read_back_witness :
  Notarize.read Cases.world "hello.txt.aqua.json"
  = JS.Returns {| Notarize.aquaObject := Notarize.aquaObject Cases.hello_run_tree;
                  Notarize.lastRevisionHash := Notarize.lastRevisionHash Cases.hello_run_tree;
                  Notarize.aquaFilename := Some "hello.txt.aqua.json" |}.
Proof.
  apply (appended_tip_read_back Cases.world Examples.config_file "20240101000000" "file"
           true Examples.empty_tree Cases.hello_run_tree Cases.hello_run_out
           "hello.txt.aqua.json" hello_run).
  - reflexivity.
  - vm_compute. reflexivity.
Defined.

Lemma genesis_file_chain_witness :
  exists verificationHash verificationData,
    Genesis.createGenesisRevision Examples.world Examples.config_file false true
      "hello.txt.aqua.json" "20240101000000"
    = Genesis.Serialized "hello.txt.aqua.json"
        {| Notarize.revisions := [(verificationHash, verificationData)];
           Notarize.file_index := [(verificationHash, Notarize.JStr "hello.txt")] |}
        None.
Proof.
  destruct (genesis_file_chain Examples.world Examples.config_file true
              "hello.txt.aqua.json" "20240101000000" ("hello" ++ Examples.newline)
              eq_refl eq_refl)
    as (verificationHash & verificationData & Hrun & _).
  exists verificationHash, verificationData. exact Hrun.
Defined.

Lemma genesis_unreadable_file_witness :
  Genesis.createGenesisRevision Cases.world Cases.config_missing false true
    "missing.txt.aqua.json" "20240101000000"
  = Genesis.Serialized "missing.txt.aqua.json" Notarize.createNewAquaObject
      (Some "ENOENT").
Proof.
  apply (genesis_unreadable_file Cases.world Cases.config_missing true
           "missing.txt.aqua.json" "20240101000000"); reflexivity.
Defined.

(** ** The hash chain of a verified page *)

Section LinkedPage.
Variable fetchBody : N -> Legacy.BodyFetch.
Variable fetchVerifyPage : string -> N -> Legacy.Fetch Legacy.RevisionInfo.
Variable getWitnessHash : string -> option N -> string.
Variable verifyWitness : string -> option N -> string -> bool -> bool -> string * string.
Variable recoverAddress : string -> string -> JS.try string.

Lemma verifyRevision_correct_linked (apiURL : string) (revid : N) (prevRevId : option N)
  (previousVerificationHash : option string) (content : string)
  (isHtml doVerifyMerkleProof : bool)
  (verificationHash : option string) (detail : Legacy.Detail) :
  fetchBody revid = Legacy.BodyWikitext content ->
  Linked.carried_hash fetchVerifyPage apiURL prevRevId previousVerificationHash ->
  Legacy.verifyRevision fetchVerifyPage getWitnessHash verifyWitness recoverAddress
    apiURL revid prevRevId previousVerificationHash (Legacy.getHashSum content) isHtml
    doVerifyMerkleProof
  = (verificationHash, true, detail) ->
  Linked.linked_revision fetchBody fetchVerifyPage getWitnessHash apiURL prevRevId revid /\
  Linked.carried_hash fetchVerifyPage apiURL (Some revid) verificationHash.
Proof.
  intros Hbody Hcarried. unfold Legacy.verifyRevision.
  destruct (fetchVerifyPage apiURL revid) as [e|data] eqn:Hdata; [discriminate|].
  assert (Hnext : Linked.carried_hash fetchVerifyPage apiURL (Some revid)
                    (Some (Legacy.verification_hash data)))
    by (exists data; split; [exact Hdata | reflexivity]).
  destruct prevRevId as [prev|]; cbn [Linked.carried_hash] in Hcarried.
  - destruct Hcarried as (dataPrevious & Hprev & ->). rewrite Hprev.
    cbn [JS.nullish_or].
    destruct (verifyWitness _ _ _ _ _) as [witnessStatus witness_detail].
    destruct (String.eqb_spec
                (Legacy.calculateVerificationHash (Legacy.getHashSum content)
                   (Legacy.calculateMetadataHash (Legacy.domain_id data)
                      (Legacy.time_stamp data) (Legacy.verification_hash dataPrevious))
                   (Legacy.calculateSignatureHash
                      (Legacy.or_empty (Legacy.signature dataPrevious))
                      (Legacy.or_empty (Legacy.public_key dataPrevious)))
                   (getWitnessHash apiURL (Legacy.witness_event_id dataPrevious)))
                (Legacy.verification_hash data)) as [E|NE]; cbn [negb]; [|discriminate].
    intros H.
    assert (Hvh : verificationHash = Some (Legacy.verification_hash data))
      by (destruct (Legacy.signature data) as [[|c sig]|];
          exact (eq_sym (f_equal (fun r => fst (fst r)) H))).
    rewrite Hvh. split; [|exact Hnext].
    exists content, data. split; [exact Hbody|]. split; [exact Hdata|].
    exists dataPrevious. split; [exact Hprev | now symmetry].
  - subst previousVerificationHash. cbn [JS.nullish_or].
    destruct (verifyWitness _ _ _ _ _) as [witnessStatus witness_detail].
    destruct (String.eqb_spec
                (Legacy.calculateVerificationHash (Legacy.getHashSum content)
                   (Legacy.calculateMetadataHash (Legacy.domain_id data)
                      (Legacy.time_stamp data) "")
                   (Legacy.calculateSignatureHash "" "") "")
                (Legacy.verification_hash data)) as [E|NE]; cbn [negb]; [|discriminate].
    intros H.
    assert (Hvh : verificationHash = Some (Legacy.verification_hash data))
      by (destruct (Legacy.signature data) as [[|c sig]|];
          exact (eq_sym (f_equal (fun r => fst (fst r)) H))).
    rewrite Hvh. split; [|exact Hnext].
    exists content, data. split; [exact Hbody|]. split; [exact Hdata | now symmetry].
Qed.

Lemma verifyPage_loop_linked (apiURL : string) (doLog doVerifyMerkleProof : bool)
  (verifiedRevIds : list N) :
  forall (previousVerificationHash : option string) (previousRevId : option N)
         (count : nat) (revision_details : list Legacy.Detail)
         (count' : nat) (revision_details' : list Legacy.Detail),
    Linked.carried_hash fetchVerifyPage apiURL previousRevId previousVerificationHash ->
    Legacy.verifyPage_loop fetchBody fetchVerifyPage getWitnessHash verifyWitness
      recoverAddress apiURL doLog doVerifyMerkleProof verifiedRevIds
      previousVerificationHash previousRevId count revision_details
    = JS.Returns (Legacy.Exhausted count' revision_details') ->
    Linked.linked_from fetchBody fetchVerifyPage getWitnessHash apiURL previousRevId
      verifiedRevIds.
Proof.
  induction verifiedRevIds as [|revid rest IH];
    intros pvh prid count details count' details' Hcarried;
    cbn [Legacy.verifyPage_loop Linked.linked_from]; [intros _; exact I|].
  destruct (fetchBody revid) as [e| |content] eqn:Hbody; try discriminate.
  destruct (negb (JS.truthy content)); [discriminate|].
  destruct (Legacy.verifyRevision _ _ _ _ _ _ _ _ _ _ _)
    as [[verificationHash isCorrect] detail] eqn:Hrev.
  destruct isCorrect; [|discriminate].
  intros Hloop.
  destruct (verifyRevision_correct_linked _ _ _ _ _ _ _ _ _ Hbody Hcarried Hrev)
    as [Hlinked Hnext].
  split; [exact Hlinked|]. exact (IH _ _ _ _ _ _ Hnext Hloop).
Qed.

End LinkedPage.

(** X30: A page that [verifyPage] reports as "VERIFIED" is a hash chain: the
    stored verification hash of every revision is the hash of its content,
    of its metadata taken with the stored verification hash of the
    revision before it (the empty string for the first one), and of the
    signature and the witness hash of the revision before it. *)
Theorem verified_page_is_linked
  fetchAllRevs fetchBody fetchVerifyPage getWitnessHash verifyWitness recoverAddress
  (title server : string) (verbose doLog doVerifyMerkleProof : bool)
  (verified_ids : list N) (revision_details : list Legacy.Detail) :
  Legacy.verifyPage fetchAllRevs fetchBody fetchVerifyPage getWitnessHash verifyWitness
    recoverAddress title server verbose doLog doVerifyMerkleProof
  = JS.Returns (Legacy.PageStatus "VERIFIED" verified_ids revision_details) ->
  Linked.linked_from fetchBody fetchVerifyPage getWitnessHash
    (server ++ "/rest.php/data_accounting/v1") None verified_ids.
Proof.
  unfold Legacy.verifyPage.
  destruct (existsb _ _); [discriminate|].
  destruct (fetchAllRevs _) as [e|e|e|ids]; try discriminate.
  destruct (Legacy.verifyPage_loop _ _ _ _ _ _ _ _ ids _ _ _ _)
    as [[details|count details]|e] eqn:Hloop; try discriminate.
  intros H. injection H as _ <- _.
  exact (verifyPage_loop_linked fetchBody fetchVerifyPage getWitnessHash verifyWitness
           recoverAddress _ _ _ _ (Some "") None _ _ _ _ eq_refl Hloop).
Qed.

Lemma verified_page_is_linked_witness :
  Linked.linked_from Examples.any_wikitext Cases.witnessed_wiki_server
    (Wiki.getWitnessHash Cases.witness_server)
    ("http://localhost:9352" ++ "/rest.php/data_accounting/v1") None [1%N].
Proof.
  exact (verified_page_is_linked Cases.one_revision Examples.any_wikitext
           Cases.witnessed_wiki_server (Wiki.getWitnessHash Cases.witness_server)
           (Wiki.verifyWitness Cases.witness_server Cases.no_proof Cases.etherscan_true)
           Examples.recover_v12 "Page" "http://localhost:9352" false false false
           [1%N] [Legacy.DetailOf Cases.wiki_revision_detail] legacy_page_run).
Defined.
